(** * The hardware command bridge of Asta: a shallow embedding

    The repository ships the HTTP command server twice:
      - [src/rasbery_h.py]       (Raspberry Pi target), embedded as [Module Pi];
      - [src/Volt/rasbery_h.py]  (PC target),           embedded as [Module Volt].

    Both are Flask applications that keep the two serial links, the camera
    handle, the running flag and the latest frame in module-level globals.
    The globals become the fields of [world]; a handler is a function in the
    state-and-exception monad [M]; every call that leaves the process (the
    pyserial constructor, a method of an open port, [camera.release()]) is
    answered by the environment through [oracle] and recorded in a trace.

    Text that the two servers share word for word ([debug_send],
    [camera_snapshot]) is embedded once, with the variant as a parameter
    where it calls variant-specific code; so is the text shared by the two
    clients, [ConnectionManager.send_command] of [src/app/network.py] and
    [src/Volt/app/network.py] and [validate_ip_address] of the two
    [config.py].

    What is not modelled: threads and locks (handlers run one at a time),
    [time.sleep], [print], the [timestamp] fields ([time.time()]), CORS
    headers, the OPTIONS pre-flight, and non-ASCII text: a [string] is
    text of ASCII characters, on which [lower], [isdigit], [int] and the
    UTF-8 encoding of a command are what the definitions say.  A [body]
    is what [request.json] makes of a body that is malformed, null or an
    object; [received] says which objects the parser lets through
    (integers of at most 4300 digits), and JSON documents that are not
    objects are modelled for [debug_send] only ([payload]).  [int] on
    text has no limit of length here; the statement that depends on it
    carries the bound of 4300 characters. *)

From Stdlib Require Import ZArith QArith Qabs String Ascii List Lia DecimalString Bool.
From Stdlib Require Import Floats.SpecFloat.
From Stdlib Require DecimalPos.
From stdpp Require Import gmap strings.

Open Scope Z_scope.
Open Scope string_scope.

(* ===================================================================== *)
(** * Python values                                                       *)
(* ===================================================================== *)

(** Exceptions that the modelled code can meet. *)
Inductive exn :=
| SerialException            (* serial.SerialException, PortNotOpenError *)
| TypeError
| ValueError
| OverflowError
| AttributeError
| ZeroDivisionError
| HTTPException (code : Z)   (* werkzeug: request.json on a bad body *)
| OtherException.            (* anything else raised by the environment *)

Inductive result (A : Type) :=
| Ok (a : A)
| Raise (e : exn).
Arguments Ok {A} a.
Arguments Raise {A} e.

(** A Python [float] is an IEEE-754 binary64 number. *)
Definition prec : Z := 53.
Definition emax : Z := 1024.
Abbreviation float := spec_float.

(** A value found under a key of the request object.  Nested arrays and
    objects are opaque: the handlers only ever apply [int()] or [.lower()]
    to a field, and both raise on them whatever they contain. *)
Inductive value :=
| VNone
| VBool (b : bool)
| VInt (z : Z)
| VFloat (f : float)
| VStr (s : string)
| VList
| VDict.

Abbreviation dict := (gmap string value).

(** What [request.json] evaluates to. *)
Inductive body :=
| BodyError (code : Z)        (* request.json raises (malformed JSON: 400) *)
| BodyNull                    (* request.json is None *)
| BodyObject (d : dict).

(** [d.get(k, default)] *)
Definition dict_get (d : dict) (k : string) (default : value) : value :=
  match d !! k with
  | Some v => v
  | None => default
  end.

(** Truth value of a dict: false exactly when it has no entry. *)
Definition dict_truthy (d : dict) : bool :=
  match map_to_list d with
  | [] => false
  | _ :: _ => true
  end.

(** ** Text *)

(** [f"{n}"] for an int. *)
Definition str (n : Z) : string := NilZero.string_of_int (Z.to_int n).

(** ASCII characters for which [str.isspace] holds. *)
Definition isspace (c : ascii) : bool :=
  let n := N_of_ascii c in
  ((9 <=? n) && (n <=? 13) || (28 <=? n) && (n <=? 32))%N.

Fixpoint lstrip (s : string) : string :=
  match s with
  | String c s' => if isspace c then lstrip s' else s
  | EmptyString => EmptyString
  end.

Fixpoint rstrip (s : string) : string :=
  match s with
  | String c s' =>
      match rstrip s' with
      | EmptyString => if isspace c then EmptyString else String c EmptyString
      | t => String c t
      end
  | EmptyString => EmptyString
  end.

(** [s.strip()] *)
Definition strip (s : string) : string := rstrip (lstrip s).

(** [s.endswith('\n')] *)
Fixpoint endswith_newline (s : string) : bool :=
  match s with
  | EmptyString => false
  | String c EmptyString => Ascii.eqb c "010"%char
  | String _ s' => endswith_newline s'
  end.

Definition newline : string := String "010"%char EmptyString.

Definition lower_char (c : ascii) : ascii :=
  let n := N_of_ascii c in
  if ((65 <=? n) && (n <=? 90))%N then ascii_of_N (n + 32) else c.

(** [s.lower()] on ASCII text. *)
Fixpoint lower (s : string) : string :=
  match s with
  | EmptyString => EmptyString
  | String c s' => String (lower_char c) (lower s')
  end.

(** ** [int()] *)

Definition digit_of (c : ascii) : option Z :=
  let n := N_of_ascii c in
  if ((48 <=? n) && (n <=? 57))%N then Some (Z.of_N n - 48) else None.

(** Digits with single underscores between them; [seen] tells whether the
    previous character was a digit, [acc] is the number read so far. *)
Fixpoint digits (s : string) (seen : bool) (acc : Z) : option Z :=
  match s with
  | EmptyString => if seen then Some acc else None
  | String c s' =>
      match digit_of c with
      | Some d => digits s' true (10 * acc + d)
      | None =>
          if (Ascii.eqb c "_"%char && seen)%bool then
            match s' with
            | EmptyString => None
            | String c' _ =>
                match digit_of c' with
                | Some _ => digits s' false acc
                | None => None
                end
            end
          else None
      end
  end.

(** [int(s)] for ASCII decimal text: surrounding white space, one optional
    sign, digits. *)
Definition int_of_str (s : string) : option Z :=
  match strip s with
  | String "-"%char t => option_map Z.opp (digits t false 0)
  | String "+"%char t => digits t false 0
  | t => digits t false 0
  end.

(** [int(f)]: truncation towards zero. *)
Definition int_of_float (f : float) : result Z :=
  match f with
  | S754_zero _ => Ok 0
  | S754_infinity _ => Raise OverflowError
  | S754_nan => Raise ValueError
  | S754_finite s m e =>
      let a := match e with
               | Zneg p => Z.pos m / 2 ^ Z.pos p
               | _ => Z.pos m * 2 ^ e
               end in
      Ok (if s then - a else a)
  end.

Definition int (v : value) : result Z :=
  match v with
  | VInt z => Ok z
  | VBool b => Ok (if b then 1 else 0)
  | VFloat f => int_of_float f
  | VStr s =>
      match int_of_str s with
      | Some z => Ok z
      | None => Raise ValueError
      end
  | VNone | VList | VDict => Raise TypeError
  end.

(** [v.lower()]: only a [str] has the method. *)
Definition value_lower (v : value) : result string :=
  match v with
  | VStr s => Ok (lower s)
  | _ => Raise AttributeError
  end.

(* ===================================================================== *)
(** * The process state and its effects                                   *)
(* ===================================================================== *)

Inductive device := Hand | Face.

(** A [serial.Serial] object, as far as the code looks at it. *)
Record serial := Serial { is_open : bool }.

(** A [cv2.VideoCapture] object opened on an index. *)
Record capture := VideoCapture { index : Z }.

(** A decoded frame (the pixel buffer of a numpy array). *)
Definition frame := list Byte.byte.

(** The environment's reply to a call that leaves the process: it raises,
    or it returns.  The boolean is the returned value where the code reads
    one ([is_open] of a fresh port, [in_waiting > 0]). *)
Inductive answer :=
| Raises (e : exn)
| Returns (b : bool).

(** What a run leaves in its trace, in the order it happened: the calls
    that leave the process, and the calls of [send_to_hand_arduino] and
    [send_to_face_arduino], the boundary through which a command reaches
    a device link. *)
Inductive event :=
| EvSend (d : device) (data_str : string)
| EvOpen (d : device)                (* serial.Serial(port, baud, ...) *)
| EvClose (d : device)
| EvResetInput (d : device)
| EvResetOutput (d : device)
| EvWrite (d : device) (line : string)
| EvFlush (d : device)
| EvInWaiting (d : device)
| EvReadline (d : device)
| EvRelease.                         (* camera.release() *)

(** The module-level globals, and the environment: [oracle n] answers the
    [n]-th outside call, [clock] counts the calls made so far. *)
Record world := World {
  hand_arduino : option serial;
  face_arduino : option serial;
  camera : option capture;
  camera_running : bool;
  latest_frame : option frame;
  oracle : nat -> answer;
  clock : nat
}.

(** The outcome of running a piece of code: its result, the state it
    leaves, and the outside calls it made. *)
Record run (A : Type) := Run {
  outcome : result A;
  final : world;
  trace : list event
}.
Arguments Run {A} outcome final trace.
Arguments outcome {A} r.
Arguments final {A} r.
Arguments trace {A} r.

Definition M (A : Type) : Type := world -> run A.

Definition ret {A} (a : A) : M A := fun w => Run (Ok a) w [].

Definition raise {A} (e : exn) : M A := fun w => Run (Raise e) w [].

Definition bind {A B} (m : M A) (k : A -> M B) : M B :=
  fun w =>
    match m w with
    | Run (Ok a) w1 t1 =>
        match k a w1 with
        | Run o w2 t2 => Run o w2 (t1 ++ t2)
        end
    | Run (Raise e) w1 t1 => Run (Raise e) w1 t1
    end.

(** [try: m except Exception as e: h e] *)
Definition try_except {A} (m : M A) (h : exn -> M A) : M A :=
  fun w =>
    match m w with
    | Run (Ok a) w1 t1 => Run (Ok a) w1 t1
    | Run (Raise e) w1 t1 =>
        match h e w1 with
        | Run o w2 t2 => Run o w2 (t1 ++ t2)
        end
    end.

Definition lift {A} (r : result A) : M A :=
  match r with
  | Ok a => ret a
  | Raise e => raise e
  end.

Declare Scope py_scope.
Delimit Scope py_scope with py.
Notation "x <- m ;; k" := (bind m (fun x => k))
  (at level 100, m at next level, right associativity) : py_scope.
Notation "m ;; k" := (bind m (fun _ => k))
  (at level 100, right associativity) : py_scope.
Notation "'try' m 'except' h" := (try_except m h)
  (at level 100, m at next level, h at next level) : py_scope.
Open Scope py_scope.

(** A call of a send function is noted; nothing else happens. *)
Definition noted (ev : event) : M unit := fun w => Run (Ok tt) w [ev].

(** ** Reading and writing the globals *)

Definition read_link (d : device) : M (option serial) :=
  fun w => Run (Ok (match d with Hand => hand_arduino w | Face => face_arduino w end)) w [].

Definition assign_link (d : device) (h : option serial) : M unit :=
  fun w =>
    Run (Ok tt)
      match d with
      | Hand => World h (face_arduino w) (camera w) (camera_running w)
                      (latest_frame w) (oracle w) (clock w)
      | Face => World (hand_arduino w) h (camera w) (camera_running w)
                      (latest_frame w) (oracle w) (clock w)
      end [].

Definition read_camera : M (option capture) :=
  fun w => Run (Ok (camera w)) w [].

Definition assign_camera (c : option capture) : M unit :=
  fun w => Run (Ok tt)
    (World (hand_arduino w) (face_arduino w) c (camera_running w)
           (latest_frame w) (oracle w) (clock w)) [].

Definition read_camera_running : M bool :=
  fun w => Run (Ok (camera_running w)) w [].

Definition assign_camera_running (b : bool) : M unit :=
  fun w => Run (Ok tt)
    (World (hand_arduino w) (face_arduino w) (camera w) b
           (latest_frame w) (oracle w) (clock w)) [].

(** [h is None or not h.is_open] *)
Definition none_or_closed (h : option serial) : bool :=
  match h with
  | None => true
  | Some s => negb (is_open s)
  end.

(** [h and h.is_open], [h is not None and h.is_open] *)
Definition link_open (h : option serial) : bool := negb (none_or_closed h).

(** ** Calls that leave the process *)

(** One outside call: it is recorded, the environment answers it, the
    clock advances. *)
Definition outside (ev : event) : M bool :=
  fun w =>
    let w' := World (hand_arduino w) (face_arduino w) (camera w)
                    (camera_running w) (latest_frame w) (oracle w)
                    (S (clock w)) in
    match oracle w (clock w) with
    | Raises e => Run (Raise e) w' [ev]
    | Returns b => Run (Ok b) w' [ev]
    end.

(** [serial.Serial(port, baud, ...)]: opens the port or raises. *)
Definition serial_Serial (d : device) : M serial :=
  b <- outside (EvOpen d) ;; ret (Serial b).

(** A method of the port object held in the global of device [d].  On
    [None] the attribute lookup fails; pyserial refuses every I/O method
    of a port that is not open before touching the device. *)
Definition port_call (d : device) (ev : event) : M bool :=
  h <- read_link d ;;
  match h with
  | None => raise AttributeError
  | Some s => if is_open s then outside ev else raise SerialException
  end.

Definition close (d : device) : M unit :=
  port_call d (EvClose d) ;; assign_link d (Some (Serial false)).

Definition reset_input_buffer (d : device) : M unit :=
  port_call d (EvResetInput d) ;; ret tt.

Definition reset_output_buffer (d : device) : M unit :=
  port_call d (EvResetOutput d) ;; ret tt.

Definition write (d : device) (line : string) : M unit :=
  port_call d (EvWrite d line) ;; ret tt.

Definition flush (d : device) : M unit :=
  port_call d (EvFlush d) ;; ret tt.

(** [port.in_waiting > 0] *)
Definition in_waiting_positive (d : device) : M bool :=
  port_call d (EvInWaiting d).

(** [port.readline().decode('utf-8', errors='ignore').strip()]; the text
    is only printed. *)
Definition readline (d : device) : M unit :=
  port_call d (EvReadline d) ;; ret tt.

(** [camera.release()] *)
Definition release : M unit := outside EvRelease ;; ret tt.

(* ===================================================================== *)
(** * HTTP replies                                                        *)
(* ===================================================================== *)

(** The texts of the ["message"] field. *)
Inductive message :=
| NotConnected (d : device)       (* "Arduino Hand/Face не подключен" *)
| NotInitialised                  (* "Arduino Face не инициализирован" *)
| CommandSent                     (* "Команда отправлена" *)
| SendError (e : exn)             (* f"Ошибка отправки: {e}" *)
| NoData                          (* "Нет данных в запросе" *)
| NoValidCommands                 (* "Нет корректных команд для лица" *)
| UnknownExpression (name : string)
| ExceptionText (e : exn)         (* str(e) *)
| CameraStopped.                  (* "Камера остановлена" *)

(** The seven angles echoed by [/hand]. *)
Record angles := Angles {
  wrist : Z; f1 : Z; f2 : Z; f3 : Z; f4 : Z; f5 : Z; f6 : Z
}.

(** The JSON documents the handlers build (without ["timestamp"]), and the
    page Flask itself produces for an exception that leaves a handler. *)
Inductive reply :=
| StatusMessage (status : string) (msg : message)
| HandReply (status : string) (msg : message) (a : angles)
| ExpressionReply (status : string) (msg : message) (expression : string)
| LookReply (status : string) (pan tilt : Z) (msg : message)
| StatusReport (hand_connected face_connected camera_is_running : bool)
               (hand_port face_port : string) (camera_index : Z)
| FlaskError.

(** A reply and its HTTP status code. *)
Definition response : Type := reply * Z.

Definition http_code (r : response) : Z := snd r.

Definition reply_status (r : response) : option string :=
  match fst r with
  | StatusMessage s _ | HandReply s _ _ | ExpressionReply s _ _
  | LookReply s _ _ _ => Some s
  | StatusReport _ _ _ _ _ _ | FlaskError => None
  end.

Definition reply_angles (r : response) : option angles :=
  match fst r with
  | HandReply _ _ a => Some a
  | _ => None
  end.

(** ["success" if success else "error"] *)
Definition status_of (success : bool) : string :=
  if success then "success" else "error".

(** [request.json] *)
Definition request_json (b : body) : M (option dict) :=
  match b with
  | BodyError code => raise (HTTPException code)
  | BodyNull => ret None
  | BodyObject d => ret (Some d)
  end.

(** [not data] *)
Definition falsy (data : option dict) : bool :=
  match data with
  | None => true
  | Some d => negb (dict_truthy d)
  end.

(** What Flask answers when a view function lets an exception escape: the
    exception's own code for a werkzeug [HTTPException], 500 otherwise. *)
Definition flask (r : run response) : response :=
  match outcome r with
  | Ok resp => resp
  | Raise (HTTPException code) => (FlaskError, code)
  | Raise _ => (FlaskError, 500)
  end.

(** The lines written to a device during a run. *)
Fixpoint writes (d : device) (evs : list event) : list string :=
  match evs with
  | [] => []
  | EvWrite d' line :: evs' =>
      match d, d' with
      | Hand, Hand | Face, Face => line :: writes d evs'
      | _, _ => writes d evs'
      end
  | _ :: evs' => writes d evs'
  end.

(** The commands handed to the send function of a device during a run. *)
Fixpoint sends (d : device) (evs : list event) : list string :=
  match evs with
  | [] => []
  | EvSend d' data_str :: evs' =>
      match d, d' with
      | Hand, Hand | Face, Face => data_str :: sends d evs'
      | _, _ => sends d evs'
      end
  | _ :: evs' => sends d evs'
  end.

(** The number of connection attempts on a device during a run. *)
Fixpoint connects (d : device) (evs : list event) : nat :=
  match evs with
  | [] => O
  | EvOpen d' :: evs' =>
      match d, d' with
      | Hand, Hand | Face, Face => S (connects d evs')
      | _, _ => connects d evs'
      end
  | _ :: evs' => connects d evs'
  end.

(** The events of a run that touch a given device at all. *)
Definition on_device (d : device) (ev : event) : bool :=
  match ev with
  | EvSend d' _ | EvOpen d' | EvClose d' | EvResetInput d' | EvResetOutput d'
  | EvWrite d' _ | EvFlush d' | EvInWaiting d' | EvReadline d' =>
      match d, d' with
      | Hand, Hand | Face, Face => true
      | _, _ => false
      end
  | EvRelease => false
  end.

(** [max(lo, min(hi, v))] on ints. *)
Definition clamp (lo hi v : Z) : Z := Z.max lo (Z.min hi v).

(** [data_str] with the line terminator the send functions add. *)
Definition terminated (data_str : string) : string :=
  if endswith_newline data_str then data_str else data_str +:+ newline.

(** [f"{wrist},{f1},{f2},{f3},{f4},{f5},{f6}"] *)
Definition hand_command (a : angles) : string :=
  str (wrist a) +:+ "," +:+ str (f1 a) +:+ "," +:+ str (f2 a) +:+ "," +:+
  str (f3 a) +:+ "," +:+ str (f4 a) +:+ "," +:+ str (f5 a) +:+ "," +:+
  str (f6 a).

(* ===================================================================== *)
(** * src/rasbery_h.py                                                    *)
(* ===================================================================== *)

Module Pi.

Definition HAND_SERIAL_PORT : string := "/dev/ttyUSB0".
Definition FACE_SERIAL_PORT : string := "/dev/ttyUSB1".
Definition CAMERA_INDEX : Z := 0.

Definition EYE_MIN : Z := 70.
Definition EYE_MAX : Z := 110.
Definition EYE_CENTER : Z := 90.
Definition MOUTH_MIN : Z := 0.
Definition MOUTH_MAX : Z := 80.

Definition init_hand_arduino : M bool :=
  try (
    h <- read_link Hand ;;
    (if link_open h then close Hand else ret tt) ;;
    s <- serial_Serial Hand ;;
    assign_link Hand (Some s) ;;
    reset_input_buffer Hand ;;
    reset_output_buffer Hand ;;
    write Hand ("0,0,0,0,180,180,0" +:+ newline) ;;
    flush Hand ;;
    ret true)
  except (fun _ => assign_link Hand None ;; ret false).

Definition init_face_arduino : M bool :=
  try (
    h <- read_link Face ;;
    (if link_open h then close Face else ret tt) ;;
    s <- serial_Serial Face ;;
    assign_link Face (Some s) ;;
    reset_input_buffer Face ;;
    reset_output_buffer Face ;;
    write Face ("E90 M0" +:+ newline) ;;
    flush Face ;;
    ret true)
  except (fun _ => assign_link Face None ;; ret false).

Definition send_to_hand_arduino (data_str : string) : M (bool * message) :=
  noted (EvSend Hand data_str) ;;
  h <- read_link Hand ;;
  if none_or_closed h then ret (false, NotConnected Hand)
  else
    try (
      write Hand (terminated data_str) ;;
      flush Hand ;;
      ret (true, CommandSent))
    except (fun e => ret (false, SendError e)).

Definition send_to_face_arduino (data_str : string) : M (bool * message) :=
  noted (EvSend Face data_str) ;;
  h <- read_link Face ;;
  if none_or_closed h then ret (false, NotConnected Face)
  else
    try (
      write Face (terminated data_str) ;;
      flush Face ;;
      ret (true, CommandSent))
    except (fun e => ret (false, SendError e)).

(** Lines 246-261 of [set_hand]: the seven fields, defaulted, converted
    and clamped. *)
Definition hand_angles (data : dict) : result angles :=
  match int (dict_get data "wrist" (VInt 0)) with Raise e => Raise e | Ok wrist =>
  match int (dict_get data "f1" (VInt 0)) with Raise e => Raise e | Ok f1 =>
  match int (dict_get data "f2" (VInt 0)) with Raise e => Raise e | Ok f2 =>
  match int (dict_get data "f3" (VInt 0)) with Raise e => Raise e | Ok f3 =>
  match int (dict_get data "f4" (VInt 0)) with Raise e => Raise e | Ok f4 =>
  match int (dict_get data "f5" (VInt 0)) with Raise e => Raise e | Ok f5 =>
  match int (dict_get data "f6" (VInt 0)) with Raise e => Raise e | Ok f6 =>
  Ok (Angles (clamp 0 90 wrist) (clamp 0 180 f1) (clamp 0 180 f2)
             (clamp 0 180 f3) (clamp 0 180 f4) (clamp 0 180 f5)
             (clamp 0 180 f6))
  end end end end end end end.

Definition set_hand (req : body) : M response :=
  h <- read_link Hand ;;
  refused <- (if none_or_closed h
              then (ok <- init_hand_arduino ;; ret (negb ok))
              else ret false) ;;
  if refused then ret (StatusMessage "error" (NotConnected Hand), 503)
  else
    try (
      data <- request_json req ;;
      match data with
      | Some d =>
          if dict_truthy d then
            a <- lift (hand_angles d) ;;
            sent <- send_to_hand_arduino (hand_command a) ;;
            ret (HandReply (status_of (fst sent)) (snd sent) a, 200)
          else ret (StatusMessage "error" NoData, 400)
      | None => ret (StatusMessage "error" NoData, 400)
      end)
    except (fun e => ret (StatusMessage "error" (ExceptionText e), 400)).

(** Lines 324-336 of [set_face]: the command text built from the fields
    that are present. *)
Definition face_command (data : dict) : result string :=
  match (match data !! "eyes" with
         | Some v =>
             match int v with
             | Ok eyes => Ok ("E" +:+ str (Z.max EYE_MIN (Z.min eyes EYE_MAX)) +:+ " ")
             | Raise e => Raise e
             end
         | None => Ok ""
         end) with
  | Raise e => Raise e
  | Ok command =>
      match data !! "mouth" with
      | Some v =>
          match int v with
          | Ok mouth => Ok (command +:+ "M" +:+ str (Z.max MOUTH_MIN (Z.min mouth MOUTH_MAX)))
          | Raise e => Raise e
          end
      | None => Ok command
      end
  end.

Definition set_face (req : body) : M response :=
  h <- read_link Face ;;
  refused <- (if none_or_closed h
              then (ok <- init_face_arduino ;; ret (negb ok))
              else ret false) ;;
  if refused then ret (StatusMessage "error" (NotConnected Face), 503)
  else
    try (
      data <- request_json req ;;
      match data with
      | Some d =>
          if dict_truthy d then
            command <- lift (face_command d) ;;
            match command with
            | EmptyString => ret (StatusMessage "error" NoValidCommands, 400)
            | _ =>
                sent <- send_to_face_arduino (strip command) ;;
                ret (StatusMessage (status_of (fst sent)) (snd sent), 200)
            end
          else ret (StatusMessage "error" NoData, 400)
      | None => ret (StatusMessage "error" NoData, 400)
      end)
    except (fun e => ret (StatusMessage "error" (ExceptionText e), 400)).

(** The table local to [set_face_expression]: name to (eyes, mouth). *)
Definition expressions : gmap string (Z * Z) :=
  <["neutral" := (EYE_CENTER, MOUTH_MIN)]>
  (<["happy" := (85, 60)]>
  (<["surprise" := (EYE_MAX, 40)]>
  (<["sad" := (EYE_MIN, 20)]>
  (<["blink" := (100, MOUTH_MIN)]>
  (<["angry" := (75, 10)]>
  (<["talking" := (EYE_CENTER, 60)]> ∅)))))).

Definition set_face_expression (req : body) : M response :=
  h <- read_link Face ;;
  refused <- (if none_or_closed h
              then (ok <- init_face_arduino ;; ret (negb ok))
              else ret false) ;;
  if refused then ret (StatusMessage "error" (NotConnected Face), 503)
  else
    try (
      data <- request_json req ;;
      match data with
      | Some d =>
          if dict_truthy d then
            expression <- lift (value_lower (dict_get d "expression" (VStr ""))) ;;
            match expressions !! expression with
            | Some (eyes, mouth) =>
                sent <- send_to_face_arduino ("E" +:+ str eyes +:+ " M" +:+ str mouth) ;;
                ret (ExpressionReply (status_of (fst sent)) (snd sent) expression, 200)
            | None =>
                ret (StatusMessage "error" (UnknownExpression expression), 400)
            end
          else ret (StatusMessage "error" NoData, 400)
      | None => ret (StatusMessage "error" NoData, 400)
      end)
    except (fun e => ret (StatusMessage "error" (ExceptionText e), 400)).

Definition stop_camera : M response :=
  try (
    assign_camera_running false ;;
    c <- read_camera ;;
    match c with
    | Some _ => release ;; assign_camera None
    | None => ret tt
    end ;;
    ret (StatusMessage "success" CameraStopped, 200))
  except (fun e => ret (StatusMessage "error" (ExceptionText e), 500)).

Definition get_status : M response :=
  hand_connected <-
    (try (h <- read_link Hand ;;
          if link_open h then ret true else init_hand_arduino)
     except (fun _ => ret false)) ;;
  face_connected <-
    (try (h <- read_link Face ;;
          if link_open h then ret true else init_face_arduino)
     except (fun _ => ret false)) ;;
  running <- read_camera_running ;;
  ret (StatusReport hand_connected face_connected running
                    HAND_SERIAL_PORT FACE_SERIAL_PORT CAMERA_INDEX, 200).

End Pi.

(* ===================================================================== *)
(** * Binary64 arithmetic used by [face_to_servo]                         *)
(* ===================================================================== *)

(** An int as a float operand of a mixed expression (small constants). *)
Definition float_of_int (n : Z) : float := binary_normalize prec emax n 0 false.

(** An int as an exact mantissa with exponent 0. *)
Definition exact_int (n : Z) : float :=
  match n with
  | Z0 => S754_zero false
  | Zpos p => S754_finite false p 0
  | Zneg p => S754_finite true p 0
  end.

(** [a / b] on two ints: the correctly rounded quotient; Python raises
    where the quotient does not fit a float. *)
Definition truediv (a b : Z) : result float :=
  if (b =? 0)%Z then Raise ZeroDivisionError
  else
    match SFdiv prec emax (exact_int a) (exact_int b) with
    | S754_infinity _ => Raise OverflowError
    | q => Ok q
    end.

(** [min(a, b)] and [max(a, b)] of two floats: the first argument is kept
    unless the second is strictly smaller (larger). *)
Definition fmin (a b : float) : float := if SFltb b a then b else a.
Definition fmax (a b : float) : float := if SFltb a b then b else a.

(** [round(f)]: to the nearest int, ties to the even one. *)
Definition round (f : float) : result Z :=
  match f with
  | S754_zero _ => Ok 0
  | S754_infinity _ => Raise OverflowError
  | S754_nan => Raise ValueError
  | S754_finite s m e =>
      let a :=
        match e with
        | Zneg p =>
            let d := 2 ^ Z.pos p in
            let q := Z.pos m / d in
            let r := Z.pos m mod d in
            match (2 * r ?= d)%Z with
            | Lt => q
            | Gt => q + 1
            | Eq => if Z.even q then q else q + 1
            end
        | _ => Z.pos m * 2 ^ e
        end in
      Ok (if s then - a else a)
  end.

(* ===================================================================== *)
(** * src/Volt/rasbery_h.py                                               *)
(* ===================================================================== *)

Module Volt.

Definition EYE_PAN_MIN : Z := 70.
Definition EYE_PAN_MAX : Z := 110.
Definition EYE_TILT_MIN : Z := 60.
Definition EYE_TILT_MAX : Z := 100.
Definition CAM_W : Z := 640.
Definition CAM_H : Z := 480.

Definition HAND_SERIAL_PORT : string := "COM3".
Definition FACE_SERIAL_PORT : string := "COM4".
Definition CAMERA_INDEX : Z := 0.

Definition EYE_MIN : Z := 70.
Definition EYE_MAX : Z := 110.
Definition EYE_CENTER : Z := 90.
Definition MOUTH_MIN : Z := 0.
Definition MOUTH_MAX : Z := 80.

Definition init_hand_arduino : M bool :=
  try (
    h <- read_link Hand ;;
    (if link_open h then close Hand else ret tt) ;;
    s <- serial_Serial Hand ;;
    assign_link Hand (Some s) ;;
    if is_open s then
      reset_input_buffer Hand ;;
      reset_output_buffer Hand ;;
      write Hand ("0,0,0,0,180,180,0" +:+ newline) ;;
      flush Hand ;;
      waiting <- in_waiting_positive Hand ;;
      (if waiting then readline Hand else ret tt) ;;
      ret true
    else ret false)
  except (fun _ => assign_link Hand None ;; ret false).

Definition init_face_arduino : M bool :=
  try (
    h <- read_link Face ;;
    (if link_open h then close Face else ret tt) ;;
    s <- serial_Serial Face ;;
    assign_link Face (Some s) ;;
    if is_open s then
      reset_input_buffer Face ;;
      reset_output_buffer Face ;;
      write Face ("E90 M0" +:+ newline) ;;
      flush Face ;;
      waiting <- in_waiting_positive Face ;;
      (if waiting then readline Face else ret tt) ;;
      ret true
    else ret false)
  except (fun _ => assign_link Face None ;; ret false).

Definition send_to_hand_arduino (data_str : string) : M (bool * message) :=
  noted (EvSend Hand data_str) ;;
  h <- read_link Hand ;;
  failed <- (if none_or_closed h
             then (ok <- init_hand_arduino ;; ret (negb ok))
             else ret false) ;;
  if failed then ret (false, NotConnected Hand)
  else
    try (
      write Hand (terminated data_str) ;;
      flush Hand ;;
      waiting <- in_waiting_positive Hand ;;
      (if waiting then readline Hand else ret tt) ;;
      ret (true, CommandSent))
    except (fun e => assign_link Hand None ;; ret (false, SendError e)).

Definition send_to_face_arduino (data_str : string) : M (bool * message) :=
  noted (EvSend Face data_str) ;;
  h <- read_link Face ;;
  failed <- match h with
            | None =>
                ok <- init_face_arduino ;;
                ret (if ok then None else Some NotInitialised)
            | Some s =>
                if negb (is_open s) then
                  ok <- init_face_arduino ;;
                  ret (if ok then None else Some (NotConnected Face))
                else ret None
            end ;;
  match failed with
  | Some msg => ret (false, msg)
  | None =>
      try (
        write Face (terminated data_str) ;;
        flush Face ;;
        waiting <- in_waiting_positive Face ;;
        (if waiting then readline Face else ret tt) ;;
        ret (true, CommandSent))
      except (fun e => assign_link Face None ;; ret (false, SendError e))
  end.

(** Lines 323-338 of [set_hand]: the seven fields, defaulted, converted
    and clamped. *)
Definition hand_angles (data : dict) : result angles :=
  match int (dict_get data "wrist" (VInt 0)) with Raise e => Raise e | Ok wrist =>
  match int (dict_get data "f1" (VInt 0)) with Raise e => Raise e | Ok f1 =>
  match int (dict_get data "f2" (VInt 0)) with Raise e => Raise e | Ok f2 =>
  match int (dict_get data "f3" (VInt 0)) with Raise e => Raise e | Ok f3 =>
  match int (dict_get data "f4" (VInt 180)) with Raise e => Raise e | Ok f4 =>
  match int (dict_get data "f5" (VInt 180)) with Raise e => Raise e | Ok f5 =>
  match int (dict_get data "f6" (VInt 0)) with Raise e => Raise e | Ok f6 =>
  Ok (Angles (clamp 0 90 wrist) (clamp 0 180 f1) (clamp 0 180 f2)
             (clamp 0 180 f3) (clamp 0 180 f4) (clamp 0 180 f5)
             (clamp 0 180 f6))
  end end end end end end end.

Definition set_hand (req : body) : M response :=
  try (
    data <- request_json req ;;
    match data with
    | Some d =>
        if dict_truthy d then
          a <- lift (hand_angles d) ;;
          sent <- send_to_hand_arduino (hand_command a) ;;
          ret (HandReply (status_of (fst sent)) (snd sent) a, 200)
        else ret (StatusMessage "error" NoData, 400)
    | None => ret (StatusMessage "error" NoData, 400)
    end)
  except (fun e => ret (StatusMessage "error" (ExceptionText e), 400)).

(** Lines 390-402 of [set_face]: the command text built from the fields
    that are present. *)
Definition face_command (data : dict) : result string :=
  match (match data !! "eyes" with
         | Some v =>
             match int v with
             | Ok eyes => Ok ("E" +:+ str (Z.max EYE_MIN (Z.min eyes EYE_MAX)) +:+ " ")
             | Raise e => Raise e
             end
         | None => Ok ""
         end) with
  | Raise e => Raise e
  | Ok command =>
      match data !! "mouth" with
      | Some v =>
          match int v with
          | Ok mouth => Ok (command +:+ "M" +:+ str (Z.max MOUTH_MIN (Z.min mouth MOUTH_MAX)))
          | Raise e => Raise e
          end
      | None => Ok command
      end
  end.

Definition set_face (req : body) : M response :=
  try (
    data <- request_json req ;;
    match data with
    | Some d =>
        if dict_truthy d then
          command <- lift (face_command d) ;;
          match command with
          | EmptyString => ret (StatusMessage "error" NoValidCommands, 400)
          | _ =>
              sent <- send_to_face_arduino (strip command) ;;
              ret (StatusMessage (status_of (fst sent)) (snd sent), 200)
          end
        else ret (StatusMessage "error" NoData, 400)
    | None => ret (StatusMessage "error" NoData, 400)
    end)
  except (fun e => ret (StatusMessage "error" (ExceptionText e), 400)).

(** The table local to [set_face_expression]: name to (eyes, mouth). *)
Definition expressions : gmap string (Z * Z) :=
  <["neutral" := (EYE_CENTER, MOUTH_MIN)]>
  (<["happy" := (85, 60)]>
  (<["surprise" := (EYE_MAX, 40)]>
  (<["sad" := (EYE_MIN, 20)]>
  (<["blink" := (100, MOUTH_MIN)]>
  (<["angry" := (75, 10)]>
  (<["talking" := (EYE_CENTER, 60)]> ∅)))))).

Definition set_face_expression (req : body) : M response :=
  try (
    data <- request_json req ;;
    match data with
    | Some d =>
        if dict_truthy d then
          expression <- lift (value_lower (dict_get d "expression" (VStr ""))) ;;
          match expressions !! expression with
          | Some (eyes, mouth) =>
              sent <- send_to_face_arduino ("E" +:+ str eyes +:+ " M" +:+ str mouth) ;;
              ret (ExpressionReply (status_of (fst sent)) (snd sent) expression, 200)
          | None =>
              ret (StatusMessage "error" (UnknownExpression expression), 400)
          end
        else ret (StatusMessage "error" NoData, 400)
    | None => ret (StatusMessage "error" NoData, 400)
    end)
  except (fun e => ret (StatusMessage "error" (ExceptionText e), 400)).

Definition stop_camera : M response :=
  try (
    assign_camera_running false ;;
    c <- read_camera ;;
    match c with
    | Some _ => release ;; assign_camera None
    | None => ret tt
    end ;;
    ret (StatusMessage "success" CameraStopped, 200))
  except (fun e => ret (StatusMessage "error" (ExceptionText e), 500)).

Definition get_status : M response :=
  hand_connected <-
    (try (h <- read_link Hand ;;
          if link_open h then ret true else init_hand_arduino)
     except (fun _ => ret false)) ;;
  face_connected <-
    (try (h <- read_link Face ;;
          if link_open h then ret true else init_face_arduino)
     except (fun _ => ret false)) ;;
  running <- read_camera_running ;;
  ret (StatusReport hand_connected face_connected running
                    HAND_SERIAL_PORT FACE_SERIAL_PORT CAMERA_INDEX, 200).

(** [face_to_servo(x_px, y_px, w_px=640, h_px=480)] *)
Definition face_to_servo (x_px y_px w_px h_px : Z) : result (Z * Z) :=
  match truediv x_px w_px with Raise e => Raise e | Ok qx =>
  let nx := fmax (S754_zero false) (fmin (float_of_int 1) qx) in
  match truediv y_px h_px with Raise e => Raise e | Ok qy =>
  let ny := fmax (S754_zero false) (fmin (float_of_int 1) qy) in
  let pan :=
    SFadd prec emax (float_of_int EYE_PAN_MIN)
      (SFmul prec emax (SFsub prec emax (float_of_int 1) nx)
                       (float_of_int (EYE_PAN_MAX - EYE_PAN_MIN))) in
  let tilt :=
    SFadd prec emax (float_of_int EYE_TILT_MIN)
      (SFmul prec emax ny (float_of_int (EYE_TILT_MAX - EYE_TILT_MIN))) in
  match round pan with Raise e => Raise e | Ok ipan =>
  match round tilt with Raise e => Raise e | Ok itilt =>
  Ok (ipan, itilt)
  end end end end.

(** [request.json or {}] *)
Definition json_or_empty (data : option dict) : dict :=
  match data with
  | Some d => if dict_truthy d then d else ∅
  | None => ∅
  end.

Definition face_look (req : body) : M response :=
  data <- request_json req ;;
  let data := json_or_empty data in
  x <- lift (int (dict_get data "x" (VInt 320))) ;;
  y <- lift (int (dict_get data "y" (VInt 240))) ;;
  pt <- lift (face_to_servo x y 640 480) ;;
  let cmd := "E" +:+ str (fst pt) +:+ " T" +:+ str (snd pt) +:+ newline in
  sent <- send_to_face_arduino cmd ;;
  ret (LookReply (status_of (fst sent)) (fst pt) (snd pt) (snd sent), 200).

End Volt.

(* ===================================================================== *)
(** * The two servers side by side                                        *)
(* ===================================================================== *)

Inductive variant :=
| RaspberryPi     (* src/rasbery_h.py *)
| PC.             (* src/Volt/rasbery_h.py *)

Definition link (d : device) (w : world) : option serial :=
  match d with
  | Hand => hand_arduino w
  | Face => face_arduino w
  end.

Definition init_arduino (v : variant) (d : device) : M bool :=
  match v, d with
  | RaspberryPi, Hand => Pi.init_hand_arduino
  | RaspberryPi, Face => Pi.init_face_arduino
  | PC, Hand => Volt.init_hand_arduino
  | PC, Face => Volt.init_face_arduino
  end.

Definition send_to_arduino (v : variant) (d : device) : string -> M (bool * message) :=
  match v, d with
  | RaspberryPi, Hand => Pi.send_to_hand_arduino
  | RaspberryPi, Face => Pi.send_to_face_arduino
  | PC, Hand => Volt.send_to_hand_arduino
  | PC, Face => Volt.send_to_face_arduino
  end.

Definition hand_angles (v : variant) : dict -> result angles :=
  match v with RaspberryPi => Pi.hand_angles | PC => Volt.hand_angles end.

Definition face_command (v : variant) : dict -> result string :=
  match v with RaspberryPi => Pi.face_command | PC => Volt.face_command end.

Definition set_hand (v : variant) : body -> M response :=
  match v with RaspberryPi => Pi.set_hand | PC => Volt.set_hand end.

Definition set_face (v : variant) : body -> M response :=
  match v with RaspberryPi => Pi.set_face | PC => Volt.set_face end.

Definition set_face_expression (v : variant) : body -> M response :=
  match v with
  | RaspberryPi => Pi.set_face_expression
  | PC => Volt.set_face_expression
  end.

Definition stop_camera (v : variant) : M response :=
  match v with RaspberryPi => Pi.stop_camera | PC => Volt.stop_camera end.

Definition get_status (v : variant) : M response :=
  match v with RaspberryPi => Pi.get_status | PC => Volt.get_status end.

(** ** Vocabulary of the statements *)

(** The declared range of every channel of a hand pose. *)
Definition in_range (a : angles) : Prop :=
  0 <= wrist a <= 90 /\ 0 <= f1 a <= 180 /\ 0 <= f2 a <= 180 /\
  0 <= f3 a <= 180 /\ 0 <= f4 a <= 180 /\ 0 <= f5 a <= 180 /\
  0 <= f6 a <= 180.

(** The line a hand pose travels in. *)
Definition hand_line (a : angles) : string := hand_command a +:+ newline.

Definition channels : list string :=
  ["wrist"; "f1"; "f2"; "f3"; "f4"; "f5"; "f6"].

(** Every channel the object supplies is a JSON integer. *)
Definition integer_channels (d : dict) : Prop :=
  forall k v, In k channels -> d !! k = Some v -> exists z, v = VInt z.

(** A body that is missing, malformed or empty. *)
Definition no_data (req : body) : bool :=
  match req with
  | BodyError _ | BodyNull => true
  | BodyObject d => negb (dict_truthy d)
  end.

(** The write of a send, or the flush that completes it, raises [e]. *)
Definition write_throws (w : world) (e : exn) : Prop :=
  oracle w (clock w) = Raises e \/
  exists b, oracle w (clock w) = Returns b /\ oracle w (S (clock w)) = Raises e.

(** Concrete states used by the examples: both links down and every
    outside call failing; both links up and every call succeeding with
    nothing to read back; both links down but every call succeeding. *)
Definition unplugged : world :=
  World None None None false None (fun _ => Raises SerialException) 0.

Definition plugged : world :=
  World (Some (Serial true)) (Some (Serial true)) None false None
        (fun _ => Returns false) 0.

Definition replugged : world :=
  World None None None false None (fun _ => Returns true) 0.

(** Hand link up, but the cable has just been pulled. *)
Definition pulled : world :=
  World (Some (Serial true)) (Some (Serial true)) None false None
        (fun _ => Raises SerialException) 0.

(** A camera that is running and has published a frame. *)
Definition filming : world :=
  World None None (Some (VideoCapture 0)) true (Some [Byte.x2a])
        (fun _ => Returns true) 0.

(** The three mutating endpoints the two servers share. *)
Inductive endpoint :=
| PostHand              (* POST /hand *)
| PostFace              (* POST /face *)
| PostFaceExpression.   (* POST /face_expression *)

(** The device an endpoint drives. *)
Definition target (ep : endpoint) : device :=
  match ep with
  | PostHand => Hand
  | PostFace | PostFaceExpression => Face
  end.

Definition handler (v : variant) (ep : endpoint) : body -> M response :=
  match ep with
  | PostHand => set_hand v
  | PostFace => set_face v
  | PostFaceExpression => set_face_expression v
  end.

Definition expressions (v : variant) : gmap string (Z * Z) :=
  match v with RaspberryPi => Pi.expressions | PC => Volt.expressions end.

(** The request passes validation: the body is a non-empty object from
    which the endpoint can build its command. *)
Definition valid (v : variant) (ep : endpoint) (req : body) : bool :=
  match req with
  | BodyObject d =>
      if dict_truthy d then
        match ep with
        | PostHand =>
            match hand_angles v d with
            | Ok _ => true
            | Raise _ => false
            end
        | PostFace =>
            match face_command v d with
            | Ok (String _ _) => true
            | _ => false
            end
        | PostFaceExpression =>
            match value_lower (dict_get d "expression" (VStr "")) with
            | Ok name =>
                match expressions v !! name with
                | Some _ => true
                | None => false
                end
            | Raise _ => false
            end
        end
      else false
  | BodyError _ | BodyNull => false
  end.

(** ** Text and channels *)

Fixpoint all_chars (P : ascii -> bool) (s : string) : bool :=
  match s with
  | EmptyString => true
  | String c s' => P c && all_chars P s'
  end.

(** A decimal digit or the minus sign. *)
Definition numeric (c : ascii) : bool :=
  let n := N_of_ascii c in
  ((48 <=? n) && (n <=? 57) || (n =? 45))%N.

(** The upper limit of a channel, and the channel of a pose by name. *)
Definition channel_limit (k : string) : Z :=
  if String.eqb k "wrist" then 90 else 180.

(** What a variant puts in a channel the request leaves out. *)
Definition channel_default (v : variant) (k : string) : Z :=
  match v with
  | RaspberryPi => 0
  | PC => if (String.eqb k "f4" || String.eqb k "f5")%bool then 180 else 0
  end.

Definition channel (a : angles) (k : string) : Z :=
  if String.eqb k "wrist" then wrist a
  else if String.eqb k "f1" then f1 a
  else if String.eqb k "f2" then f2 a
  else if String.eqb k "f3" then f3 a
  else if String.eqb k "f4" then f4 a
  else if String.eqb k "f5" then f5 a
  else f6 a.

(** ** Sample requests *)

Definition sample_pose : dict :=
  <["wrist" := VInt 999]> (<["f1" := VInt (-5)]> ∅).

Definition wrist_30 : dict := <["wrist" := VInt 30]> ∅.

Definition full_pose : dict :=
  <["wrist" := VInt 30]> (<["f4" := VInt 180]> (<["f5" := VInt 180]> ∅)).


(** ** /status *)

(** The world in which [get_status] probes the face link: the one its
    hand probe leaves. *)
Definition after_hand_probe (v : variant) (w : world) : world :=
  if link_open (hand_arduino w) then w
  else final (init_arduino v Hand w).

Definition hand_port (v : variant) : string :=
  match v with
  | RaspberryPi => Pi.HAND_SERIAL_PORT
  | PC => Volt.HAND_SERIAL_PORT
  end.

Definition face_port (v : variant) : string :=
  match v with
  | RaspberryPi => Pi.FACE_SERIAL_PORT
  | PC => Volt.FACE_SERIAL_PORT
  end.

Definition camera_index (v : variant) : Z :=
  match v with
  | RaspberryPi => Pi.CAMERA_INDEX
  | PC => Volt.CAMERA_INDEX
  end.

(** The other device. *)
Definition other (d : device) : device :=
  match d with
  | Hand => Face
  | Face => Hand
  end.

(** ** The face command, in the words of the specification *)

(** A field of a face request: absent, or converted and clamped. *)
Definition face_field (lo hi : Z) (v : option value) : result (option Z) :=
  match v with
  | None => Ok None
  | Some x =>
      match int x with
      | Ok z => Ok (Some (clamp lo hi z))
      | Raise e => Raise e
      end
  end.

(** The tokens of the fields that are present, [E<eyes>] then [M<mouth>]. *)
Definition face_tokens (eyes mouth : option Z) : list string :=
  (match eyes with Some e => ["E" +:+ str e] | None => [] end ++
   match mouth with Some m => ["M" +:+ str m] | None => [] end)%list.

Fixpoint space_joined (tokens : list string) : string :=
  match tokens with
  | [] => ""
  | [t] => t
  | t :: rest => t +:+ " " +:+ space_joined rest
  end.

Definition eyes_85 : dict := <["eyes" := VInt 85]> ∅.
Definition mouth_60 : dict := <["mouth" := VInt 60]> ∅.
Definition speed_1 : dict := <["speed" := VInt 1]> ∅.

(** A character that [strip] does not remove. *)
Definition solid (c : ascii) : bool := negb (isspace c).

(** ** /face_look *)

(** The line of an eye movement: [f"E{pan} T{tilt}\n"]. *)
Definition look_line (pan tilt : Z) : string :=
  "E" +:+ str pan +:+ " T" +:+ str tilt +:+ newline.

(** Any character but the mouth token's letter. *)
Definition not_M (c : ascii) : bool := negb (Ascii.eqb c "M"%char).

(** The linear map of the specification, over the rationals:
    [pan = PAN_MIN + (1 - x/width) * (PAN_MAX - PAN_MIN)] and
    [tilt = TILT_MIN + (y/height) * (TILT_MAX - TILT_MIN)]. *)
Definition linear_pan (x width : Z) : Q :=
  (inject_Z Volt.EYE_PAN_MIN
   + (1 - inject_Z x / inject_Z width)
     * (inject_Z Volt.EYE_PAN_MAX - inject_Z Volt.EYE_PAN_MIN))%Q.

Definition linear_tilt (y height : Z) : Q :=
  (inject_Z Volt.EYE_TILT_MIN
   + (inject_Z y / inject_Z height)
     * (inject_Z Volt.EYE_TILT_MAX - inject_Z Volt.EYE_TILT_MIN))%Q.

(** [n] is an integer nearest to [q]. *)
Definition nearest (n : Z) (q : Q) : Prop :=
  (Qabs (inject_Z n - q) <= 1 # 2)%Q.

(** The two halves of [face_to_servo]. *)
Definition pan_angle (x_px w_px : Z) : result Z :=
  match truediv x_px w_px with
  | Raise e => Raise e
  | Ok qx =>
      let nx := fmax (S754_zero false) (fmin (float_of_int 1) qx) in
      round (SFadd prec emax (float_of_int Volt.EYE_PAN_MIN)
               (SFmul prec emax (SFsub prec emax (float_of_int 1) nx)
                  (float_of_int (Volt.EYE_PAN_MAX - Volt.EYE_PAN_MIN))))
  end.

Definition tilt_angle (y_px h_px : Z) : result Z :=
  match truediv y_px h_px with
  | Raise e => Raise e
  | Ok qy =>
      let ny := fmax (S754_zero false) (fmin (float_of_int 1) qy) in
      round (SFadd prec emax (float_of_int Volt.EYE_TILT_MIN)
               (SFmul prec emax ny
                  (float_of_int (Volt.EYE_TILT_MAX - Volt.EYE_TILT_MIN))))
  end.

(** Decidable forms of "nearest integer, within the servo range" for the
    two axes of a 640x480 frame, in integer arithmetic:
    [linear_pan x 640 = (1760 - x) / 16], [linear_tilt y 480 = (720 + y) / 12]. *)
Definition pan_checked (x : Z) : bool :=
  match pan_angle x 640 with
  | Ok p => ((Z.abs (16 * p - (1760 - x)) <=? 8) && (70 <=? p) && (p <=? 110))%Z
  | Raise _ => false
  end.

Definition tilt_checked (y : Z) : bool :=
  match tilt_angle y 480 with
  | Ok t => ((Z.abs (12 * t - (720 + y)) <=? 6) && (60 <=? t) && (t <=? 100))%Z
  | Raise _ => false
  end.

(** The integers [lo, lo + n). *)
Fixpoint upto (lo : Z) (n : nat) : list Z :=
  match n with
  | O => []
  | S n' => lo :: upto (lo + 1) n'
  end.

Definition centre : dict := <["x" := VInt 320]> (<["y" := VInt 240]> ∅).

(* ===================================================================== *)
(** * Connections and sends on their own                                  *)
(* ===================================================================== *)

(** The line with which a fresh connection is tested ([test_command] in
    [init_hand_arduino] and [init_face_arduino] of both servers). *)
Definition test_command (d : device) : string :=
  match d with
  | Hand => "0,0,0,0,180,180,0" +:+ newline
  | Face => "E90 M0" +:+ newline
  end.

(** The lines a send leaves on its device when it went as far as the
    write: the test line of the reconnect it had to make first, if any,
    then the command. *)
Definition lines_of_send (d : device) (data_str : string) (w : world) : list string :=
  ((if link_open (link d w) then [] else [test_command d]) ++ [terminated data_str])%list.

(** Both links up; every call succeeds and the device has a reply
    waiting. *)
Definition chatty : world :=
  World (Some (Serial true)) (Some (Serial true)) None false None
        (fun _ => Returns true) 0.

(** Hand link up; the write and the flush go through, then the port
    fails. *)
Definition flaky : world :=
  World (Some (Serial true)) (Some (Serial true)) None false None
        (fun n => if (n <? 2)%nat then Returns true else Raises SerialException) 0.

(* ===================================================================== *)
(** * POST /debug/send                                                    *)
(* ===================================================================== *)

(** [target == 'hand'] *)
Definition is_hand (v : value) : bool :=
  match v with
  | VStr s => String.eqb s "hand"
  | _ => false
  end.

(** A send function called with a value that is not a [str]:
    [data_str.endswith] raises AttributeError inside the [try] of the
    function, that is after its connection check and, in the PC server,
    after the reconnect the check may make.  (No [EvSend] is noted: the
    value is not a command text.) *)
Definition send_without_text (v : variant) (d : device) : M (bool * message) :=
  h <- read_link d ;;
  match v with
  | RaspberryPi =>
      if none_or_closed h then ret (false, NotConnected d)
      else ret (false, SendError AttributeError)
  | PC =>
      failed <- (if none_or_closed h then
                   ok <- init_arduino PC d ;;
                   ret (if ok then None
                        else Some match d, h with
                                  | Face, None => NotInitialised
                                  | _, _ => NotConnected d
                                  end)
                 else ret None) ;;
      match failed with
      | Some msg => ret (false, msg)
      | None => assign_link d None ;; ret (false, SendError AttributeError)
      end
  end.

(** [send_to_hand_arduino(command)], [send_to_face_arduino(command)] on
    whatever the request holds under ["command"]. *)
Definition send_value (v : variant) (d : device) (command : value) : M (bool * message) :=
  match command with
  | VStr data_str => send_to_arduino v d data_str
  | _ => send_without_text v d
  end.

(** [debug_send], the same text in both servers. *)
Definition debug_send (v : variant) (req : body) : M response :=
  try (
    data <- request_json req ;;
    match data with
    | Some d =>
        if dict_truthy d then
          let command := dict_get d "command" (VStr "") in
          let destination := dict_get d "target" (VStr "hand") in
          sent <- (if is_hand destination
                   then send_value v Hand command
                   else send_value v Face command) ;;
          ret (StatusMessage (status_of (fst sent)) (snd sent), 200)
        else ret (StatusMessage "error" NoData, 400)
    | None => ret (StatusMessage "error" NoData, 400)
    end)
  except (fun e => ret (StatusMessage "error" (ExceptionText e), 400)).

(** The device a debug request is routed to. *)
Definition debug_target (d : dict) : device :=
  if is_hand (dict_get d "target" (VStr "hand")) then Hand else Face.

Definition overdrive : dict := <["command" := VStr "999,0,0,0,0,0,0"]> ∅.

(* ===================================================================== *)
(** * GET /camera/snapshot                                                *)
(* ===================================================================== *)

Inductive snapshot_message :=
| NotRunningOrNoFrame            (* "Камера не запущена или нет кадра" *)
| EncodingFailed                 (* "Ошибка кодирования изображения" *)
| SnapshotException (e : exn).   (* str(e) *)

(** The JPEG image, or the JSON document with status "error". *)
Inductive snapshot :=
| Image (jpeg : list Byte.byte)
| SnapshotError (msg : snapshot_message).

Definition read_latest_frame : M (option frame) :=
  fun w => Run (Ok (latest_frame w)) w [].

Section Snapshot.

(** [cv2.imencode('.jpg', frame)]: it raises, or returns [(ret, jpeg)]. *)
Variable imencode : frame -> result (bool * list Byte.byte).

(** [camera_snapshot], the same text in both servers. *)
Definition camera_snapshot : M (snapshot * Z) :=
  running <- read_camera_running ;;
  slot <- read_latest_frame ;;
  match slot with
  | Some fr =>
      if negb running then ret (SnapshotError NotRunningOrNoFrame, 503)
      else
        try (
          encoded <- lift (imencode fr) ;;
          if fst encoded then ret (Image (snd encoded), 200)
          else ret (SnapshotError EncodingFailed, 500))
        except (fun e => ret (SnapshotError (SnapshotException e), 500))
  | None => ret (SnapshotError NotRunningOrNoFrame, 503)
  end.

End Snapshot.

(* ===================================================================== *)
(** * The client: src/app/network.py and src/Volt/app/network.py          *)
(* ===================================================================== *)

(** What [requests.post] does: it raises, or it returns the response of
    the server. *)
Inductive posted :=
| PostTimeout                    (* requests.exceptions.Timeout *)
| PostRefused                (* requests.exceptions.ConnectionError *)
| PostFailed                     (* any other exception *)
| Responded (r : response).

(** The ["data"] field: the decoded document, or (PC client) the raw text
    of a body that is not JSON. *)
Inductive client_data :=
| Json (doc : reply)
| RawText.

(** The ["error"] field. *)
Inductive client_error :=
| TimedOut                       (* "Таймаут при отправке команды" *)
| NoConnection                   (* "Ошибка соединения ..." *)
| Unexpected                     (* str(e), f"Неизвестная ошибка: {str(e)}" *)
| HttpError (code : Z).          (* f"HTTP ошибка {code}: {text}" *)

Record command_result := CommandResult {
  success : bool;
  status_code : Z;
  data : option client_data;
  error : option client_error
}.

(** [response.json()]: the page Flask makes for an escaped exception is
    HTML, on which the call raises. *)
Definition response_json (r : response) : option reply :=
  match fst r with
  | FlaskError => None
  | doc => Some doc
  end.

(** [ConnectionManager.send_command] *)
Definition send_command (v : variant) (p : posted) : command_result :=
  match p with
  | PostTimeout => CommandResult false 408 None (Some TimedOut)
  | PostRefused => CommandResult false 503 None (Some NoConnection)
  | PostFailed => CommandResult false 500 None (Some Unexpected)
  | Responded r =>
      match v with
      | RaspberryPi =>
          if (http_code r =? 200)%Z then
            match response_json r with
            | Some doc => CommandResult true 200 (Some (Json doc)) None
            | None => CommandResult false 500 None (Some Unexpected)
            end
          else CommandResult false (http_code r) None None
      | PC =>
          if (http_code r =? 200)%Z then
            match response_json r with
            | Some doc => CommandResult true 200 (Some (Json doc)) None
            | None => CommandResult true 200 (Some RawText) None
            end
          else CommandResult false (http_code r) None (Some (HttpError (http_code r)))
      end
  end.

(* ===================================================================== *)
(** * The routes                                                          *)
(* ===================================================================== *)

(** The requests of the modelled routes. *)
Inductive request :=
| Command (ep : endpoint) (req : body)   (* POST /hand, /face, /face_expression *)
| CameraStop                             (* POST /camera/stop *)
| Status                                 (* GET /status *)
| DebugSend (req : body)                 (* POST /debug/send *)
| FaceLook (req : body).                 (* POST /face_look *)

(** The view function a request is routed to; only the PC server has the
    route /face_look, the Pi server answers it with werkzeug's NotFound. *)
Definition route (v : variant) (r : request) : M response :=
  match r with
  | Command ep req => handler v ep req
  | CameraStop => stop_camera v
  | Status => get_status v
  | DebugSend req => debug_send v req
  | FaceLook req =>
      match v with
      | PC => Volt.face_look req
      | RaspberryPi => raise (HTTPException 404)
      end
  end.

(** ** Sample requests of the further properties *)

Definition wrist_text : dict := <["wrist" := VStr "45"]> ∅.
Definition wrist_45 : dict := <["wrist" := VInt 45]> ∅.
Definition shouted : dict := <["expression" := VStr "HAPPY"]> ∅.
Definition x_null : dict := <["x" := VNone]> ∅.
Definition no_request : dict := ∅.

(** A frame in the slot and the flag set, but no camera handle. *)
Definition orphaned : world :=
  World None None None true (Some [Byte.x2a]) (fun _ => Returns true) 0.

(** An encoder for the examples: it accepts every frame as it is. *)
Definition identity_encoder (fr : frame) : result (bool * list Byte.byte) :=
  Ok (true, fr).

(** Any character but [c]. *)
Definition other_than (c : ascii) (x : ascii) : bool := negb (Ascii.eqb x c).

(** The lines a request leaves on its device when its command went out:
    first the test line of the reconnect, if the link was not open, then
    the commands handed to the send function, each with its terminator. *)
Definition lines_of_request (d : device) (commands : list string) (w : world) : list string :=
  ((if link_open (link d w) then [] else [test_command d])
   ++ List.map terminated commands)%list.

(** ** Monotonicity of the eye angles *)

(** The angle of one axis as a number (0 where the computation raises). *)
Definition pan_value (x : Z) : Z :=
  match pan_angle x 640 with
  | Ok p => p
  | Raise _ => 0
  end.

Definition tilt_value (y : Z) : Z :=
  match tilt_angle y 480 with
  | Ok t => t
  | Raise _ => 0
  end.

(** Each element stands in relation [le] to the next one. *)
Fixpoint chain (le : Z -> Z -> bool) (l : list Z) : bool :=
  match l with
  | a :: (b :: _) as rest => le a b && chain le rest
  | _ => true
  end.

(* ===================================================================== *)
(** * src/app/config.py and src/Volt/app/config.py                        *)
(* ===================================================================== *)



(** [s.split(sep)] for a separator of one character. *)
Fixpoint split (sep : ascii) (s : string) : list string :=
  match s with
  | EmptyString => [EmptyString]
  | String c s' =>
      if Ascii.eqb c sep then EmptyString :: split sep s'
      else
        match split sep s' with
        | part :: parts => String c part :: parts
        | [] => [String c EmptyString]
        end
  end.

(** CPython's limit on the length of decimal text that [int()] converts;
    beyond it [int()] raises ValueError. *)
Definition int_max_str_digits : nat := 4300.






(** The request that carries a pose, channel by channel (what a client
    builds from the angles echoed by POST /hand). *)
Definition pose_request (a : angles) : dict :=
  <["wrist" := VInt (wrist a)]>
  (<["f1" := VInt (f1 a)]>
  (<["f2" := VInt (f2 a)]>
  (<["f3" := VInt (f3 a)]>
  (<["f4" := VInt (f4 a)]>
  (<["f5" := VInt (f5 a)]>
  (<["f6" := VInt (f6 a)]> ∅)))))).

(* ===================================================================== *)
(** * What the JSON parser lets through                                   *)
(* ===================================================================== *)

(** [json.loads] reads an integer literal with [int()], and CPython's
    [int()] refuses decimal text of more than 4300 digits (ValueError);
    werkzeug turns the failure into BadRequest.  An integer reaches a
    handler only if it has at most 4300 digits, that is, if its magnitude
    is below 10^4300. *)
Definition json_integer (z : Z) : bool :=
  (Z.abs z <? 10 ^ Z.of_nat int_max_str_digits)%Z.

(** A member that [json.loads] accepts. *)
Definition loadable (x : value) : bool :=
  match x with
  | VInt z => json_integer z
  | _ => true
  end.

(** Every member of the object is accepted. *)
Definition loads_ok (d : dict) : bool :=
  forallb (fun kv => loadable (snd kv)) (map_to_list d).

(** [request.json] for a body whose text is the JSON object with the
    members [d]: the object, or BadRequest (400) when the parser refuses
    one of its integers. *)
Definition received (d : dict) : body :=
  if loads_ok d then BodyObject d else BodyError 400.

(** A wrist of 4301 digits: 1 followed by 4300 zeros. *)
Definition oversized : dict :=
  <["wrist" := VInt (10 ^ Z.of_nat int_max_str_digits)]> ∅.

(** [request.json] where it returns: the object, or None. *)
Definition request_data (req : body) : option dict :=
  match req with
  | BodyObject d => Some d
  | BodyError _ | BodyNull => None
  end.

(** ** Text that can be sent *)

(** A 7-bit character.  Text made of such characters is encoded by
    [data_str.encode('utf-8')] without error, one byte a character. *)
Definition is_ascii (c : ascii) : bool := (N_of_ascii c <? 128)%N.

Definition ascii_text (s : string) : bool := all_chars is_ascii s.

(** ** Bodies that are not objects *)




(** ** The exchange, seen from the client *)

(** How [requests.post] ended: the response of the server arrived, or the
    call raised (the time limit passed, the connection failed, anything
    else) while the server went on with the request. *)
Inductive arrival :=
| Arrived
| TimeLimitPassed
| ConnectionFailed
| OtherFailure.

Definition posted_as (a : arrival) (r : response) : posted :=
  match a with
  | Arrived => Responded r
  | TimeLimitPassed => PostTimeout
  | ConnectionFailed => PostRefused
  | OtherFailure => PostFailed
  end.

(** One request through the client: the server runs the handler of POST
    /hand, /face or /face_expression, and [send_command] returns what it
    makes of the way the exchange ended. *)
Definition commanded (v : variant) (ep : endpoint) (req : body) (w : world)
    (a : arrival) : command_result :=
  send_command v (posted_as a (flask (handler v ep req w))).

(* ===================================================================== *)
(** * Proofs                                                              *)
(* ===================================================================== *)

(** ** Decimal text *)

Lemma uint_numeric d : all_chars numeric (NilEmpty.string_of_uint d) = true.
Proof. induction d; cbn; auto. Qed.

Lemma uint_nonempty d : NilZero.string_of_uint d <> "".
Proof. destruct d; cbn; discriminate. Qed.

Lemma uint_numeric' d : all_chars numeric (NilZero.string_of_uint d) = true.
Proof. destruct d; try apply (uint_numeric (_ _)); reflexivity. Qed.

Lemma str_numeric z : all_chars numeric (str z) = true.
Proof.
  unfold str. destruct (Z.to_int z); cbn -[NilZero.string_of_uint].
  - apply uint_numeric'.
  - apply uint_numeric'.
Qed.

Lemma str_nonempty z : str z <> "".
Proof.
  unfold str. destruct (Z.to_int z); cbn -[NilZero.string_of_uint].
  - apply uint_nonempty.
  - discriminate.
Qed.

Lemma append_cons c (a b : string) : String c a +:+ b = String c (a +:+ b).
Proof. reflexivity. Qed.

Lemma append_assoc' (a b c : string) : (a +:+ b) +:+ c = a +:+ (b +:+ c).
Proof.
  induction a as [|x a IH]; [reflexivity|].
  rewrite !append_cons, IH. reflexivity.
Qed.

Lemma append_nonempty_r (s t : string) : t <> "" -> s +:+ t <> "".
Proof. destruct s; [trivial | discriminate]. Qed.

Lemma endswith_newline_append s t :
  t <> "" -> endswith_newline (s +:+ t) = endswith_newline t.
Proof.
  intros Ht. induction s as [|c s IH]; [reflexivity|].
  rewrite append_cons. cbn [endswith_newline]. destruct (s +:+ t) eqn:E.
  - destruct s; [change (t = "") in E; contradiction | discriminate].
  - exact IH.
Qed.

Lemma numeric_not_newline t :
  all_chars numeric t = true -> endswith_newline t = false.
Proof.
  induction t as [|c t IH]; [reflexivity|].
  cbn. intros [Hc Ht]%andb_prop. destruct t.
  - destruct c as [[|] [|] [|] [|] [|] [|] [|] [|]]; try reflexivity; discriminate Hc.
  - auto.
Qed.

Arguments Pi.hand_angles : simpl never.
Arguments Volt.hand_angles : simpl never.
Arguments Pi.face_command : simpl never.
Arguments Volt.face_command : simpl never.
Arguments hand_command : simpl never.
Arguments terminated : simpl never.
Arguments String.append : simpl never.
Arguments dict_truthy : simpl never.
Arguments dict_get : simpl never.
Arguments str : simpl never.
Arguments strip : simpl never.

(** Symbolic execution of a handler: unfold the monad and the primitive
    calls, then split on whatever the run is waiting for (a global, the
    request, an answer of the environment). *)
Ltac run_py :=
  cbv beta iota zeta delta
    [bind try_except ret raise lift read_link assign_link read_camera
     assign_camera read_camera_running assign_camera_running serial_Serial
     close reset_input_buffer reset_output_buffer write flush noted
     in_waiting_positive readline release port_call outside request_json
     link_open none_or_closed negb app fst snd link
     hand_arduino face_arduino camera camera_running latest_frame oracle
     clock outcome final trace is_open status_of http_code reply_status
     reply_angles flask].

(** The same reduction for runs whose trace is not a literal list. *)
Ltac run_py_open :=
  cbv beta iota zeta delta
    [bind try_except ret raise lift read_link assign_link read_camera
     assign_camera read_camera_running assign_camera_running serial_Serial
     close reset_input_buffer reset_output_buffer write flush noted
     in_waiting_positive readline release port_call outside request_json
     link_open none_or_closed negb fst snd link
     hand_arduino face_arduino camera camera_running latest_frame oracle
     clock outcome final trace is_open status_of http_code reply_status
     reply_angles flask].

Ltac step :=
  match goal with
  | H : ?x = _ |- context [match ?x with _ => _ end] => rewrite H; run_py
  | |- context [match ?x with _ => _ end] =>
      lazymatch x with
      | context [match _ with _ => _ end] => fail
      | _ => let E := fresh "E" in destruct x eqn:E; run_py
      end
  end.

Ltac unfold_handlers :=
  unfold set_hand, set_face, set_face_expression, stop_camera, get_status,
    send_to_arduino, init_arduino;
  unfold Pi.set_hand, Pi.set_face, Pi.set_face_expression, Pi.stop_camera,
    Pi.get_status, Volt.set_hand, Volt.set_face, Volt.set_face_expression,
    Volt.stop_camera, Volt.get_status, Volt.face_look;
  unfold Pi.send_to_hand_arduino, Pi.send_to_face_arduino,
    Volt.send_to_hand_arduino, Volt.send_to_face_arduino;
  unfold Pi.init_hand_arduino, Pi.init_face_arduino,
    Volt.init_hand_arduino, Volt.init_face_arduino.

Ltac execute w :=
  unfold_handlers; destruct w as [ha fa cam running fr orc clk]; run_py;
  repeat step.

(** The same, giving up a branch as soon as a premise of the goal has
    become absurd. *)
Ltac absurd_premise :=
  lazymatch goal with
  | |- context [@eq (result bool) (Ok true) (Ok false)] => solve [intros; congruence]
  | |- context [@eq bool false true] => solve [intros; congruence]
  | |- context [@eq bool true false] => solve [intros; congruence]
  end.

Ltac execute_pruning w :=
  unfold_handlers; destruct w as [ha fa cam running fr orc clk]; run_py;
  try absurd_premise; repeat (step; try absurd_premise).

(** ** The hand translator *)

Lemma clamp_range lo hi v : lo <= hi -> lo <= clamp lo hi v <= hi.
Proof. unfold clamp. lia. Qed.

Lemma hand_angles_in_range v d a : hand_angles v d = Ok a -> in_range a.
Proof.
  destruct v; unfold hand_angles, Pi.hand_angles, Volt.hand_angles.
  - generalize (int (dict_get d "wrist" (VInt 0))) (int (dict_get d "f1" (VInt 0)))
      (int (dict_get d "f2" (VInt 0))) (int (dict_get d "f3" (VInt 0)))
      (int (dict_get d "f4" (VInt 0))) (int (dict_get d "f5" (VInt 0)))
      (int (dict_get d "f6" (VInt 0))).
    intros [?|?] [?|?] [?|?] [?|?] [?|?] [?|?] [?|?] H; try discriminate H.
    injection H as <-. unfold in_range; cbn [wrist f1 f2 f3 f4 f5 f6].
    repeat split; apply clamp_range; lia.
  - generalize (int (dict_get d "wrist" (VInt 0))) (int (dict_get d "f1" (VInt 0)))
      (int (dict_get d "f2" (VInt 0))) (int (dict_get d "f3" (VInt 0)))
      (int (dict_get d "f4" (VInt 180))) (int (dict_get d "f5" (VInt 180)))
      (int (dict_get d "f6" (VInt 0))).
    intros [?|?] [?|?] [?|?] [?|?] [?|?] [?|?] [?|?] H; try discriminate H.
    injection H as <-. unfold in_range; cbn [wrist f1 f2 f3 f4 f5 f6].
    repeat split; apply clamp_range; lia.
Qed.

(** [int] of a channel that is absent or a JSON integer. *)
Lemma int_channel d k z0 :
  In k channels -> integer_channels d ->
  exists z, int (dict_get d k (VInt z0)) = Ok z /\
            (forall z', d !! k = Some (VInt z') -> z = z') /\
            (d !! k = None -> z = z0).
Proof.
  intros Hk Hd. unfold dict_get. destruct (d !! k) as [v|] eqn:E.
  - destruct (Hd k v Hk E) as [z ->]. exists z. repeat split; congruence.
  - exists z0. repeat split; congruence.
Qed.

Lemma hand_angles_integers v d :
  integer_channels d ->
  exists a, hand_angles v d = Ok a /\
    forall k, In k channels ->
      (forall z, d !! k = Some (VInt z) -> channel a k = clamp 0 (channel_limit k) z) /\
      (d !! k = None -> channel a k = clamp 0 (channel_limit k) (channel_default v k)).
Proof.
  intros Hd.
  assert (Hin : forall k, In k channels -> In k channels) by auto.
  destruct v; unfold hand_angles, Pi.hand_angles, Volt.hand_angles.
  - destruct (int_channel d "wrist" 0) as (z0 & -> & A0 & B0); [cbn; tauto | assumption |].
    destruct (int_channel d "f1" 0) as (z1 & -> & A1 & B1); [cbn; tauto | assumption |].
    destruct (int_channel d "f2" 0) as (z2 & -> & A2 & B2); [cbn; tauto | assumption |].
    destruct (int_channel d "f3" 0) as (z3 & -> & A3 & B3); [cbn; tauto | assumption |].
    destruct (int_channel d "f4" 0) as (z4 & -> & A4 & B4); [cbn; tauto | assumption |].
    destruct (int_channel d "f5" 0) as (z5 & -> & A5 & B5); [cbn; tauto | assumption |].
    destruct (int_channel d "f6" 0) as (z6 & -> & A6 & B6); [cbn; tauto | assumption |].
    eexists; split; [reflexivity|].
    intros k Hk. cbn in Hk.
    repeat (destruct Hk as [<- | Hk]; [cbn; split; intros; f_equal; eauto |]).
    destruct Hk.
  - destruct (int_channel d "wrist" 0) as (z0 & -> & A0 & B0); [cbn; tauto | assumption |].
    destruct (int_channel d "f1" 0) as (z1 & -> & A1 & B1); [cbn; tauto | assumption |].
    destruct (int_channel d "f2" 0) as (z2 & -> & A2 & B2); [cbn; tauto | assumption |].
    destruct (int_channel d "f3" 0) as (z3 & -> & A3 & B3); [cbn; tauto | assumption |].
    destruct (int_channel d "f4" 180) as (z4 & -> & A4 & B4); [cbn; tauto | assumption |].
    destruct (int_channel d "f5" 180) as (z5 & -> & A5 & B5); [cbn; tauto | assumption |].
    destruct (int_channel d "f6" 0) as (z6 & -> & A6 & B6); [cbn; tauto | assumption |].
    eexists; split; [reflexivity|].
    intros k Hk. cbn in Hk.
    repeat (destruct Hk as [<- | Hk]; [cbn; split; intros; f_equal; eauto |]).
    destruct Hk.
Qed.

Lemma terminated_hand_command a : terminated (hand_command a) = hand_line a.
Proof.
  unfold terminated, hand_line, hand_command.
  repeat rewrite endswith_newline_append
    by (repeat apply append_nonempty_r; apply str_nonempty).
  rewrite (numeric_not_newline _ (str_numeric _)). reflexivity.
Qed.

Lemma neutral_hand_line :
  "0,0,0,0,180,180,0" +:+ newline = hand_line (Angles 0 0 0 0 180 180 0).
Proof. reflexivity. Qed.

Lemma neutral_in_range : in_range (Angles 0 0 0 0 180 180 0).
Proof. unfold in_range; cbn; lia. Qed.

Ltac solve_range :=
  first [ eapply (hand_angles_in_range RaspberryPi); eassumption
        | eapply (hand_angles_in_range PC); eassumption ].

(** ** C1 *)

Lemma received_loaded d : loads_ok d = true -> received d = BodyObject d.
Proof. unfold received. intros ->. reflexivity. Qed.

Lemma received_refused d : loads_ok d = false -> received d = BodyError 400.
Proof. unfold received. intros ->. reflexivity. Qed.

(** C1, as the code has it.  Whatever a POST /hand request carries, in
    both servers: the angles echoed back are the request's channels
    clamped to wrist 0..90 and f1..f6 0..180; every line written to the
    hand link (the command, and the neutral line of a reconnect) carries
    channels within those ranges; a reply that echoes a pose under 200
    has handed exactly one command to the hand link, the text
    "wrist,f1,...,f6" of the echoed pose, and when its status is
    "success" that pose is the last line written; a reply that echoes no
    pose has handed no command to the link.  An object whose channels are
    integers of at most 4300 digits, however large or negative, is never
    answered with the 400 of a rejected request: it is answered 200 with
    its clamped pose, unless the connection gate of the Pi server has
    already answered 503.  An object holding an integer of more than 4300
    digits does not come that far: the parser refuses it, and the answer
    is 400 (or the 503 of the Pi gate) with no command handed to the
    link.  wrist=999 becomes 90 and f1=-5 becomes 0. *)
Theorem hand_channels_clamped (v : variant) (req : body) (w : world) :
  (forall resp a,
      outcome (set_hand v req w) = Ok resp -> reply_angles resp = Some a ->
      in_range a /\ exists d, req = BodyObject d /\ hand_angles v d = Ok a) /\
  (forall line,
      In line (writes Hand (trace (set_hand v req w))) ->
      exists a, in_range a /\ line = hand_line a) /\
  (forall s m a,
      outcome (set_hand v req w) = Ok (HandReply s m a, 200) ->
      sends Hand (trace (set_hand v req w)) = [hand_command a] /\
      (s = "success" ->
       exists earlier,
         writes Hand (trace (set_hand v req w)) = (earlier ++ [hand_line a])%list)) /\
  (forall resp,
      outcome (set_hand v req w) = Ok resp -> reply_angles resp = None ->
      sends Hand (trace (set_hand v req w)) = []) /\
  (forall d,
      req = received d -> loads_ok d = true ->
      dict_truthy d = true -> integer_channels d ->
      exists a,
        hand_angles v d = Ok a /\
        (forall k z, In k channels -> d !! k = Some (VInt z) ->
                     channel a k = clamp 0 (channel_limit k) z) /\
        ((exists s m,
            outcome (set_hand v req w) = Ok (HandReply s m a, 200) /\
            sends Hand (trace (set_hand v req w)) = [hand_command a]) \/
         (v = RaspberryPi /\ link_open (hand_arduino w) = false /\
          outcome (set_hand v req w) =
            Ok (StatusMessage "error" (NotConnected Hand), 503)))) /\
  (forall d,
      req = received d -> loads_ok d = false ->
      sends Hand (trace (set_hand v req w)) = [] /\
      (outcome (set_hand v req w)
         = Ok (StatusMessage "error" (ExceptionText (HTTPException 400)), 400) \/
       (v = RaspberryPi /\ link_open (hand_arduino w) = false /\
        outcome (set_hand v req w) =
          Ok (StatusMessage "error" (NotConnected Hand), 503)))) /\
  clamp 0 90 999 = 90 /\ clamp 0 180 (-5) = 0.
Proof.
  split; [| split; [| split; [| split; [| split; [| split; [| split; reflexivity]]]]]].
  - intros resp a H1 H2. revert H1.
    destruct v; execute w; intros H1; injection H1 as <-;
      try discriminate H2; injection H2 as <-;
      (split; [solve_range | eexists; split; [reflexivity | eassumption]]).
  - intros line. destruct v; execute w; cbn [writes In];
      rewrite ?terminated_hand_command, ?neutral_hand_line;
      intros H; repeat (destruct H as [<- | H]); try contradiction;
      try (eexists; split; [apply neutral_in_range | reflexivity]);
      (eexists; split;
       [solve_range | reflexivity]).
  - intros s m a. destruct v; execute w; intros H; try discriminate H;
      injection H as <- <- <-; cbn [writes sends]; rewrite ?terminated_hand_command;
      (split; [reflexivity|]); intros Hs; try discriminate Hs.
    all: try (exists []; reflexivity).
    all: eexists [_]; reflexivity.
  - intros resp H1 H2. revert H1.
    destruct v; execute w; intros H1; injection H1 as <-;
      try discriminate H2; reflexivity.
  - intros d -> Hl Ht Hd. rewrite (received_loaded d Hl).
    destruct (hand_angles_integers v d Hd) as (a & Ha & Hch).
    exists a. split; [exact Ha|]. split; [intros k z Hk; apply (Hch k Hk)|].
    destruct v; cbn [hand_angles] in Ha; execute w; try congruence.
    all: first [ left; eexists _, _; split; [repeat f_equal; congruence|];
                 cbn [sends]; repeat f_equal; congruence
               | right; repeat split; reflexivity ].
  - intros d -> Hl. rewrite (received_refused d Hl).
    destruct v; execute w; (split; [reflexivity|]);
      first [ left; reflexivity | right; repeat split; reflexivity ].
Qed.

Lemma hand_channels_clamped_witness :
  in_range (Angles 90 0 0 0 180 180 0) /\
  exists d, BodyObject sample_pose = BodyObject d /\
            hand_angles PC d = Ok (Angles 90 0 0 0 180 180 0).
Proof.
  destruct (hand_channels_clamped PC (BodyObject sample_pose) plugged) as [H _].
  apply (H (HandReply "success" CommandSent (Angles 90 0 0 0 180 180 0), 200)).
  - vm_compute. reflexivity.
  - reflexivity.
Defined.

Lemma loads_ok_oversized : loads_ok oversized = false.
Proof.
  unfold loads_ok, oversized. rewrite insert_empty, map_to_list_singleton.
  cbn [forallb snd loadable]. unfold json_integer.
  generalize (Z.pow_nonneg 10 (Z.of_nat int_max_str_digits) ltac:(discriminate)).
  generalize (10 ^ Z.of_nat int_max_str_digits). intros z Hz.
  rewrite (Z.abs_eq z Hz), Z.ltb_irrefl. reflexivity.
Qed.

(** C1 as stated fails: a wrist given as an integer of 4301 digits never
    reaches the clamp.  The parser refuses it, [request.json] raises
    inside the handler's [try], and both servers answer 400 without
    handing any command to the hand link. *)
Lemma oversized_integer_is_rejected :
  integer_channels oversized /\
  oversized !! "wrist" = Some (VInt (10 ^ Z.of_nat int_max_str_digits)) /\
  received oversized = BodyError 400 /\
  outcome (set_hand PC (received oversized) plugged)
    = Ok (StatusMessage "error" (ExceptionText (HTTPException 400)), 400) /\
  sends Hand (trace (set_hand PC (received oversized) plugged)) = [] /\
  outcome (set_hand RaspberryPi (received oversized) plugged)
    = Ok (StatusMessage "error" (ExceptionText (HTTPException 400)), 400) /\
  sends Hand (trace (set_hand RaspberryPi (received oversized) plugged)) = [].
Proof.
  split.
  { intros k x _. unfold oversized. rewrite lookup_insert_Some, lookup_empty.
    intros [[_ <-]|[_ H]]; [eexists; reflexivity | discriminate]. }
  split; [apply lookup_insert_eq|].
  rewrite (received_refused oversized loads_ok_oversized).
  split; [reflexivity|].
  split; [vm_compute; reflexivity|].
  split; [vm_compute; reflexivity|].
  split; vm_compute; reflexivity.
Qed.

(** ** C5 *)

(** C5, as the code has it.  When the write of a send (or the flush that
    completes it) raises on an open link, both servers catch the exception
    inside the send function and return the pair (False, "Ошибка
    отправки: ...") instead of letting it escape; the PC server also
    resets the link global to None, so that the next call reconnects; the
    Pi server leaves the link global as it was. *)
Theorem send_failure_is_contained
    (v : variant) (d : device) (line : string) (w : world) (e : exn) :
  link_open (link d w) = true ->
  write_throws w e ->
  outcome (send_to_arduino v d line w) = Ok (false, SendError e) /\
  writes d (trace (send_to_arduino v d line w)) = [terminated line] /\
  link d (final (send_to_arduino v d line w)) =
    match v with
    | RaspberryPi => link d w
    | PC => None
    end.
Proof.
  intros Hopen Hthrow. revert Hopen.
  assert (Hw : forall b, oracle w (clock w) = Returns b ->
                         oracle w (S (clock w)) = Raises e).
  { intros b Hb. destruct Hthrow as [H | (b' & _ & H)]; congruence. }
  assert (Hw' : forall e', oracle w (clock w) = Raises e' -> e' = e).
  { intros e' He. destruct Hthrow as [H | (b' & H & _)]; congruence. }
  clear Hthrow. revert Hw Hw'.
  destruct v, d; execute w; intros Hw Hw' Hopen; try discriminate Hopen;
    try (rewrite (Hw' _ eq_refl); repeat split; reflexivity);
    specialize (Hw _ eq_refl); try discriminate Hw;
    injection Hw as ->; repeat split; reflexivity.
Qed.

Lemma send_failure_is_contained_witness :
  outcome (send_to_arduino PC Hand "30,0,0,0,180,180,0" pulled)
    = Ok (false, SendError SerialException) /\
  writes Hand (trace (send_to_arduino PC Hand "30,0,0,0,180,180,0" pulled))
    = [terminated "30,0,0,0,180,180,0"] /\
  link Hand (final (send_to_arduino PC Hand "30,0,0,0,180,180,0" pulled)) = None.
Proof.
  apply (send_failure_is_contained PC Hand "30,0,0,0,180,180,0" pulled SerialException).
  - reflexivity.
  - left. reflexivity.
Defined.

(** C5 as stated fails on the Pi server: after a write that raised, the
    hand link is still marked open, so the handlers will not reconnect. *)
Lemma pi_link_stays_open_after_failed_write :
  write_throws pulled SerialException /\
  outcome (Pi.send_to_hand_arduino "30,0,0,0,180,180,0" pulled)
    = Ok (false, SendError SerialException) /\
  link_open (hand_arduino (final (Pi.send_to_hand_arduino "30,0,0,0,180,180,0" pulled)))
    = true.
Proof. split; [left; reflexivity | split; reflexivity]. Qed.

(** ** C7 *)

(** C7, as the code has it.  After POST /camera/stop, in both servers, the
    running flag is false and the latest-frame slot is exactly what it was
    before: nothing clears it.  With no camera handle the answer is 200
    and nothing is called; with a handle, [release()] is called once, and
    if it returns the handle is dropped and the answer is 200; if it
    raises the answer is 500 and the handle is kept. *)
Theorem stop_camera_effect (v : variant) (w : world) :
  camera_running (final (stop_camera v w)) = false /\
  latest_frame (final (stop_camera v w)) = latest_frame w /\
  (camera w = None ->
     outcome (stop_camera v w) = Ok (StatusMessage "success" CameraStopped, 200) /\
     trace (stop_camera v w) = [] /\
     camera (final (stop_camera v w)) = None) /\
  (forall c b, camera w = Some c -> oracle w (clock w) = Returns b ->
     outcome (stop_camera v w) = Ok (StatusMessage "success" CameraStopped, 200) /\
     trace (stop_camera v w) = [EvRelease] /\
     camera (final (stop_camera v w)) = None) /\
  (forall c e, camera w = Some c -> oracle w (clock w) = Raises e ->
     outcome (stop_camera v w) = Ok (StatusMessage "error" (ExceptionText e), 500) /\
     trace (stop_camera v w) = [EvRelease] /\
     camera (final (stop_camera v w)) = Some c).
Proof.
  destruct v; execute w; repeat split; intros; try congruence;
    repeat split; congruence.
Qed.

Lemma stop_camera_effect_witness :
  outcome (stop_camera PC filming) = Ok (StatusMessage "success" CameraStopped, 200) /\
  trace (stop_camera PC filming) = [EvRelease] /\
  camera (final (stop_camera PC filming)) = None.
Proof.
  destruct (stop_camera_effect PC filming) as (_ & _ & _ & H & _).
  apply (H (VideoCapture 0) true); reflexivity.
Defined.

(** C7 as stated fails: the frame published before the stop is still in
    the slot afterwards (in both servers). *)
Lemma stale_frame_survives_stop :
  latest_frame filming = Some [Byte.x2a] /\
  latest_frame (final (Pi.stop_camera filming)) = Some [Byte.x2a] /\
  latest_frame (final (Volt.stop_camera filming)) = Some [Byte.x2a] /\
  camera_running (final (Volt.stop_camera filming)) = false /\
  camera (final (Volt.stop_camera filming)) = None.
Proof. repeat split; reflexivity. Qed.

(** ** C2 *)

Ltac execute_endpoint v ep w :=
  destruct v, ep;
  cbv beta iota delta [handler target valid hand_angles face_command expressions];
  execute_pruning w.

(** C2, as the code has it.  Take a request to POST /hand, /face or
    /face_expression whose device link is not open and whose reconnect
    attempt fails.  The Pi server, which checks the link before anything
    else, answers HTTP 503 with status "error".  The PC server validates
    first and reconnects inside the send function: it answers HTTP 200
    with status "error" when the request is valid, and HTTP 400 with
    status "error" when it is not.  In both the link is not open
    afterwards. *)
Theorem device_unavailable_reply
    (v : variant) (ep : endpoint) (req : body) (w : world) :
  none_or_closed (link (target ep) w) = true ->
  outcome (init_arduino v (target ep) w) = Ok false ->
  link_open (link (target ep) (final (handler v ep req w))) = false /\
  exists resp,
    outcome (handler v ep req w) = Ok resp /\
    reply_status resp = Some "error" /\
    http_code resp =
      match v with
      | RaspberryPi => 503
      | PC => if valid v ep req then 200 else 400
      end.
Proof.
  execute_endpoint v ep w; intros H1 H2; try discriminate H1; try discriminate H2;
    (split; [reflexivity | eexists; repeat split; reflexivity]).
Qed.

Lemma device_unavailable_reply_witness :
  link_open (link Hand (final (handler RaspberryPi PostHand (BodyObject wrist_30) unplugged)))
    = false /\
  exists resp,
    outcome (handler RaspberryPi PostHand (BodyObject wrist_30) unplugged) = Ok resp /\
    reply_status resp = Some "error" /\
    http_code resp = 503.
Proof.
  apply (device_unavailable_reply RaspberryPi PostHand (BodyObject wrist_30) unplugged).
  - reflexivity.
  - reflexivity.
Defined.

(** C2 as stated fails on the PC server: the hand link is not open, the
    reconnect attempt fails, and a valid POST /hand is answered 200. *)
Lemma pc_answers_200_when_unavailable :
  none_or_closed (hand_arduino unplugged) = true /\
  outcome (Volt.init_hand_arduino unplugged) = Ok false /\
  outcome (Volt.set_hand (BodyObject wrist_30) unplugged)
    = Ok (HandReply "error" (NotConnected Hand) (Angles 30 0 0 0 180 180 0), 200).
Proof. repeat split; vm_compute; reflexivity. Qed.

(** ** C4 *)




(** ** C3 *)

Lemma hand_angles_agree d :
  is_Some (d !! "f4") -> is_Some (d !! "f5") ->
  Volt.hand_angles d = Pi.hand_angles d.
Proof.
  intros [v4 H4] [v5 H5]. unfold Volt.hand_angles, Pi.hand_angles.
  unfold dict_get. rewrite H4, H5. reflexivity.
Qed.

(** C3, as the code has it.  For one and the same POST /hand request that
    supplies both f4 and f5, received while the hand link is open, the two
    servers answer with the same HTTP status and the same echoed angles
    and write the same lines to the hand device (and none to the face
    device).  (A channel f4 or f5 that the request leaves out is 0 on the
    Pi server and 180 on the PC server; with the link down the Pi server
    answers 503 where the PC server answers 200 or 400.) *)
Theorem servers_agree_on_hand (req : body) (w : world) :
  link_open (hand_arduino w) = true ->
  (forall d, req = BodyObject d -> is_Some (d !! "f4") /\ is_Some (d !! "f5")) ->
  exists rp rv,
    outcome (Pi.set_hand req w) = Ok rp /\
    outcome (Volt.set_hand req w) = Ok rv /\
    http_code rp = http_code rv /\
    reply_angles rp = reply_angles rv /\
    writes Hand (trace (Pi.set_hand req w)) = writes Hand (trace (Volt.set_hand req w)) /\
    writes Face (trace (Pi.set_hand req w)) = [] /\
    writes Face (trace (Volt.set_hand req w)) = [].
Proof.
  intros Hopen Hreq. revert Hopen.
  unfold Pi.set_hand, Volt.set_hand.
  destruct req as [code| |d].
  - execute_pruning w; intros _; eexists _, _; repeat split; reflexivity.
  - execute_pruning w; intros _; eexists _, _; repeat split; reflexivity.
  - destruct (Hreq d eq_refl) as [H4 H5].
    unfold_handlers; destruct w as [ha fa cam running fr orc clk]; run_py.
    rewrite (hand_angles_agree d H4 H5). clear Hreq H4 H5.
    repeat (step; try absurd_premise);
      intros _; eexists _, _; repeat split; reflexivity.
Qed.

Lemma servers_agree_on_hand_witness :
  exists rp rv,
    outcome (Pi.set_hand (BodyObject full_pose) plugged) = Ok rp /\
    outcome (Volt.set_hand (BodyObject full_pose) plugged) = Ok rv /\
    http_code rp = http_code rv /\
    reply_angles rp = reply_angles rv /\
    writes Hand (trace (Pi.set_hand (BodyObject full_pose) plugged))
      = writes Hand (trace (Volt.set_hand (BodyObject full_pose) plugged)) /\
    writes Face (trace (Pi.set_hand (BodyObject full_pose) plugged)) = [] /\
    writes Face (trace (Volt.set_hand (BodyObject full_pose) plugged)) = [].
Proof.
  apply (servers_agree_on_hand (BodyObject full_pose) plugged).
  - reflexivity.
  - intros d [= <-]. split; vm_compute; eauto.
Defined.

(** C3 as stated fails: for the same payload without f4 and f5 and the
    same open link, the two servers send different commands and echo
    different angles. *)
Lemma servers_differ_without_f4_f5 :
  writes Hand (trace (Pi.set_hand (BodyObject wrist_30) plugged))
    = ["30,0,0,0,0,0,0" +:+ newline] /\
  writes Hand (trace (Volt.set_hand (BodyObject wrist_30) plugged))
    = ["30,0,0,0,180,180,0" +:+ newline] /\
  reply_angles (flask (Pi.set_hand (BodyObject wrist_30) plugged))
    = Some (Angles 30 0 0 0 0 0 0) /\
  reply_angles (flask (Volt.set_hand (BodyObject wrist_30) plugged))
    = Some (Angles 30 0 0 0 180 180 0).
Proof. repeat split; vm_compute; reflexivity. Qed.

(** ** C6 *)

(** One connection attempt, seen from outside: it never raises, it
    returns whether the link is open afterwards, it opens the port once
    when the link was not open, and it leaves the other device and the
    camera alone. *)
Lemma init_probe (v : variant) (d : device) (w : world) :
  exists b w' t,
    init_arduino v d w = Run (Ok b) w' t /\
    b = link_open (link d w') /\
    (link_open (link d w) = false -> connects d t = 1%nat) /\
    connects (other d) t = 0%nat /\
    List.filter (on_device (other d)) t = [] /\
    ~ In EvRelease t /\
    link (other d) w' = link (other d) w /\
    camera w' = camera w /\
    camera_running w' = camera_running w /\
    latest_frame w' = latest_frame w.
Proof.
  destruct v, d; cbv beta iota delta [other]; execute w;
    eexists _, _, _; (split; [reflexivity|]);
    cbn [connects List.filter on_device In];
    repeat split; try reflexivity; try discriminate; intuition discriminate.
Qed.

Ltac probe_at v d W :=
  let b := fresh "b" in
  let w' := fresh "w" in
  let t := fresh "t" in
  let Hrun := fresh "Hrun" in
  let Hb := fresh "Hb" in
  let Hone := fresh "Hone" in
  let Hzero := fresh "Hzero" in
  let Hquiet := fresh "Hquiet" in
  let Hcam := fresh "Hcam" in
  let Hother := fresh "Hother" in
  let Hc := fresh "Hc" in
  let Hr := fresh "Hr" in
  let Hf := fresh "Hf" in
  destruct (init_probe v d W)
    as (b & w' & t & Hrun & Hb & Hone & Hzero & Hquiet & Hcam & Hother & Hc & Hr & Hf);
  cbv beta iota delta [init_arduino] in Hrun;
  rewrite Hrun; clear Hrun;
  destruct w';
  cbv beta iota delta
    [link other hand_arduino face_arduino camera camera_running latest_frame]
    in Hb, Hone, Hother, Hc, Hr, Hf, Hzero, Hquiet;
  subst; run_py_open.

Ltac probe :=
  match goal with
  | |- context [Pi.init_hand_arduino ?W] => probe_at RaspberryPi Hand W
  | |- context [Pi.init_face_arduino ?W] => probe_at RaspberryPi Face W
  | |- context [Volt.init_hand_arduino ?W] => probe_at PC Hand W
  | |- context [Volt.init_face_arduino ?W] => probe_at PC Face W
  end.

Lemma connects_app d t1 t2 :
  connects d (t1 ++ t2)%list = (connects d t1 + connects d t2)%nat.
Proof.
  induction t1 as [|ev t1 IH]; [reflexivity|].
  destruct ev as [d' ?|d'| | | | | | | |]; cbn; try exact IH.
  destruct d, d'; cbn; rewrite ?IH; reflexivity.
Qed.

Lemma not_in_app (ev : event) t1 t2 :
  ~ In ev t1 -> ~ In ev t2 -> ~ In ev (t1 ++ t2)%list.
Proof. intros H1 H2 [H|H]%in_app_or; tauto. Qed.

Lemma filter_app' (f : event -> bool) t1 t2 :
  List.filter f (t1 ++ t2)%list = (List.filter f t1 ++ List.filter f t2)%list.
Proof.
  induction t1 as [|ev t1 IH]; [reflexivity|].
  cbn. destruct (f ev); cbn; rewrite IH; reflexivity.
Qed.

(** C6.  GET /status, in both servers, never raises and answers 200 with
    the two link booleans and the running flag as stored.  A link whose
    flag is already true is reported connected and the request makes no
    outside call on that device.  For a link that is not open exactly one
    connection attempt is made, the reported boolean is what that attempt
    returned, and it is true exactly when the link is open afterwards.
    The camera is not touched: no camera call is made and the camera
    globals are unchanged. *)
Theorem status_probe (v : variant) (w : world) :
  exists hc fc,
    outcome (get_status v w)
      = Ok (StatusReport hc fc (camera_running w)
                         (hand_port v) (face_port v) (camera_index v), 200) /\
    hc = link_open (hand_arduino (final (get_status v w))) /\
    fc = link_open (face_arduino (final (get_status v w))) /\
    connects Hand (trace (get_status v w))
      = (if link_open (hand_arduino w) then 0 else 1)%nat /\
    connects Face (trace (get_status v w))
      = (if link_open (face_arduino w) then 0 else 1)%nat /\
    (link_open (hand_arduino w) = true ->
       hc = true /\ List.filter (on_device Hand) (trace (get_status v w)) = []) /\
    (link_open (face_arduino w) = true ->
       fc = true /\ List.filter (on_device Face) (trace (get_status v w)) = []) /\
    (link_open (hand_arduino w) = false ->
       outcome (init_arduino v Hand w) = Ok hc) /\
    (link_open (face_arduino w) = false ->
       outcome (init_arduino v Face (after_hand_probe v w)) = Ok fc) /\
    ~ In EvRelease (trace (get_status v w)) /\
    camera (final (get_status v w)) = camera w /\
    camera_running (final (get_status v w)) = camera_running w /\
    latest_frame (final (get_status v w)) = latest_frame w.
Proof.
  destruct w as [ha fa cam running fr orc clk].
  destruct v;
    cbv beta iota delta
      [get_status Pi.get_status Volt.get_status init_arduino after_hand_probe
       hand_port face_port camera_index];
    run_py_open.
  all: destruct ha as [[[|]]|], fa as [[[|]]|]; run_py_open; repeat probe.
  all: repeat match goal with
         | H : link_open _ = false -> _ |- _ =>
             first [ specialize (H eq_refl) | clear H ]
         end.
  all: eexists _, _; cbn [app]; rewrite ?app_nil_r;
       rewrite ?connects_app, ?filter_app'.
  all: split; [reflexivity|].
  all: repeat match goal with
         | H : connects _ _ = _ |- _ => rewrite H; clear H
         | H : List.filter _ _ = _ |- _ => rewrite H; clear H
         end.
  all: repeat split; intros; try reflexivity; try discriminate;
       try (repeat apply not_in_app; first [assumption | intros []]).
Qed.

Lemma status_probe_witness :
  connects Hand (trace (get_status PC unplugged)) = 1%nat /\
  exists hc, outcome (init_arduino PC Hand unplugged) = Ok hc.
Proof.
  destruct (status_probe PC unplugged)
    as (hc & fc & _ & _ & _ & Hc & _ & _ & _ & Hi & _).
  split; [exact Hc|]. exists hc. apply Hi. reflexivity.
Defined.

(** ** C9 *)

Lemma all_chars_impl (P Q : ascii -> bool) s :
  (forall c, P c = true -> Q c = true) ->
  all_chars P s = true -> all_chars Q s = true.
Proof.
  intros HPQ. induction s as [|c s IH]; [reflexivity|].
  cbn. intros [Hc Hs]%andb_prop. rewrite (HPQ c Hc), (IH Hs). reflexivity.
Qed.

Lemma all_chars_append P s t :
  all_chars P (s +:+ t) = (all_chars P s && all_chars P t)%bool.
Proof.
  induction s as [|c s IH]; [reflexivity|].
  rewrite append_cons. cbn. rewrite IH, andb_assoc. reflexivity.
Qed.

Lemma numeric_solid c : numeric c = true -> solid c = true.
Proof.
  destruct c as [[|] [|] [|] [|] [|] [|] [|] [|]]; try reflexivity; discriminate.
Qed.

Lemma str_solid z : all_chars solid (str z) = true.
Proof. exact (all_chars_impl _ _ _ numeric_solid (str_numeric z)). Qed.

Lemma rstrip_solid s : all_chars solid s = true -> rstrip s = s.
Proof.
  induction s as [|c s IH]; [reflexivity|].
  cbn. intros [Hc Hs]%andb_prop. rewrite (IH Hs).
  unfold solid in Hc. apply negb_true_iff in Hc. rewrite Hc.
  destruct s; reflexivity.
Qed.

Lemma rstrip_append s t :
  rstrip t <> "" -> rstrip (s +:+ t) = s +:+ rstrip t.
Proof.
  intros Ht. induction s as [|c s IH]; [reflexivity|].
  rewrite !append_cons. cbn [rstrip]. rewrite IH.
  destruct (s +:+ rstrip t) eqn:E; [|reflexivity].
  destruct s; [change (rstrip t = "") in E; contradiction | discriminate].
Qed.

Lemma rstrip_space s : rstrip (s +:+ " ") = rstrip s.
Proof.
  induction s as [|c s IH]; [reflexivity|].
  rewrite append_cons. cbn [rstrip]. rewrite IH. reflexivity.
Qed.

Lemma strip_eyes e : strip ("E" +:+ str e +:+ " ") = "E" +:+ str e.
Proof.
  unfold strip. change (lstrip ("E" +:+ str e +:+ " ")) with ("E" +:+ str e +:+ " ").
  rewrite <- append_assoc', rstrip_space.
  apply rstrip_solid. rewrite all_chars_append, str_solid. reflexivity.
Qed.

Lemma strip_mouth m : strip ("M" +:+ str m) = "M" +:+ str m.
Proof.
  unfold strip. change (lstrip ("M" +:+ str m)) with ("M" +:+ str m).
  apply rstrip_solid. rewrite all_chars_append, str_solid. reflexivity.
Qed.

Lemma strip_eyes_mouth e m :
  strip (("E" +:+ str e +:+ " ") +:+ "M" +:+ str m)
  = "E" +:+ str e +:+ " " +:+ "M" +:+ str m.
Proof.
  unfold strip. rewrite !append_assoc'.
  change (lstrip ("E" +:+ str e +:+ " " +:+ "M" +:+ str m))
    with ("E" +:+ str e +:+ " " +:+ "M" +:+ str m).
  assert (Hm : rstrip ("M" +:+ str m) = "M" +:+ str m).
  { apply rstrip_solid. rewrite all_chars_append, str_solid. reflexivity. }
  replace ("E" +:+ str e +:+ " " +:+ "M" +:+ str m)
    with (("E" +:+ str e +:+ " ") +:+ ("M" +:+ str m))
    by (rewrite !append_assoc'; reflexivity).
  rewrite rstrip_append; rewrite Hm; [reflexivity | discriminate].
Qed.

Lemma append_nil_l (s : string) : "" +:+ s = s.
Proof. reflexivity. Qed.

Lemma clamp_face lo hi v : Z.max lo (Z.min v hi) = clamp lo hi v.
Proof. unfold clamp. rewrite Z.min_comm. reflexivity. Qed.

(** The command text of both servers, field by field. *)
Lemma face_command_tokens v d cmd :
  face_command v d = Ok cmd ->
  exists eyes mouth,
    face_field 70 110 (d !! "eyes") = Ok eyes /\
    face_field 0 80 (d !! "mouth") = Ok mouth /\
    strip cmd = space_joined (face_tokens eyes mouth) /\
    (cmd = "" <-> eyes = None /\ mouth = None).
Proof.
  assert (Hne : forall (a b : string), a <> "" -> a +:+ b <> "").
  { intros [|? ?] b Ha; [contradiction | discriminate]. }
  destruct v; unfold face_command, Pi.face_command, Volt.face_command, face_field;
    unfold Pi.EYE_MIN, Pi.EYE_MAX, Pi.MOUTH_MIN, Pi.MOUTH_MAX,
      Volt.EYE_MIN, Volt.EYE_MAX, Volt.MOUTH_MIN, Volt.MOUTH_MAX;
    destruct (d !! "eyes") as [x|]; try destruct (int x) as [e|?]; try discriminate;
    destruct (d !! "mouth") as [y|]; try destruct (int y) as [m|?]; try discriminate;
    intros [= <-]; rewrite ?clamp_face; eexists _, _;
    (split; [reflexivity|]); (split; [reflexivity|]); cbn [face_tokens space_joined app];
    rewrite ?append_nil_l, ?strip_eyes_mouth, ?strip_eyes, ?strip_mouth;
    (split; [reflexivity|]);
    (split; [intros H; try discriminate H; try (split; reflexivity)
            | intros [H1 H2]; try discriminate H1; try discriminate H2; try reflexivity]).
Qed.

Lemma face_command_eyes_85 v : face_command v eyes_85 = Ok "E85 ".
Proof. destruct v; vm_compute; reflexivity. Qed.

Lemma face_command_mouth_60 v : face_command v mouth_60 = Ok "M60".
Proof. destruct v; vm_compute; reflexivity. Qed.

Lemma face_command_absent v d :
  d !! "eyes" = None -> d !! "mouth" = None -> face_command v d = Ok "".
Proof.
  intros He Hm.
  destruct v; unfold face_command, Pi.face_command, Volt.face_command;
    rewrite He, Hm; reflexivity.
Qed.

(** C9, as the code has it.  In both servers the text built by POST /face
    holds a token for each field that is present and for no other,
    [E<eyes>] before [M<mouth>], the values clamped to 70..110 and 0..80;
    stripped, it is those tokens joined by one space, and that is the
    only command handed to the face link (none goes to the hand link).
    {eyes:85} alone gives exactly "E85" and {mouth:60} alone exactly
    "M60", written to an open link as that text and a newline.  A body
    with neither field has no command handed to the link and is answered
    with status "error": HTTP 400 without any outside call on the PC
    server, and on the Pi server when the face link is open; when it is
    not, the Pi server's connection gate first makes its reconnect
    attempt, and the answer is 503 if that fails and 400 if it
    succeeds. *)
Theorem face_command_fields (v : variant) (req : body) (w : world) :
  (forall d cmd,
      face_command v d = Ok cmd ->
      exists eyes mouth,
        face_field 70 110 (d !! "eyes") = Ok eyes /\
        face_field 0 80 (d !! "mouth") = Ok mouth /\
        strip cmd = space_joined (face_tokens eyes mouth) /\
        (cmd = "" <-> eyes = None /\ mouth = None)) /\
  (forall line,
      In line (sends Face (trace (set_face v req w))) ->
      sends Face (trace (set_face v req w)) = [line] /\
      exists d cmd,
        req = BodyObject d /\ face_command v d = Ok cmd /\ cmd <> "" /\
        line = strip cmd) /\
  sends Hand (trace (set_face v req w)) = [] /\
  (link_open (face_arduino w) = true ->
     (req = BodyObject eyes_85 ->
        sends Face (trace (set_face v req w)) = ["E85"] /\
        writes Face (trace (set_face v req w)) = ["E85" +:+ newline]) /\
     (req = BodyObject mouth_60 ->
        sends Face (trace (set_face v req w)) = ["M60"] /\
        writes Face (trace (set_face v req w)) = ["M60" +:+ newline])) /\
  (forall d,
      req = BodyObject d -> dict_truthy d = true ->
      d !! "eyes" = None -> d !! "mouth" = None ->
      sends Face (trace (set_face v req w)) = [] /\
      exists resp,
        outcome (set_face v req w) = Ok resp /\
        reply_status resp = Some "error" /\
        match v with
        | PC => http_code resp = 400 /\ trace (set_face v req w) = []
        | RaspberryPi =>
            if link_open (face_arduino w) then
              http_code resp = 400 /\ trace (set_face v req w) = []
            else
              trace (set_face v req w) = trace (Pi.init_face_arduino w) /\
              http_code resp =
                match outcome (Pi.init_face_arduino w) with
                | Ok true => 400
                | _ => 503
                end
        end).
Proof.
  split; [| split; [| split; [| split]]].
  - intros d cmd. apply face_command_tokens.
  - intros line. destruct v; execute w; cbn [sends In];
      intros H; repeat (destruct H as [<- | H]); try contradiction;
      (split; [reflexivity | eexists _, _; repeat split; try eassumption; discriminate]).
  - destruct v; execute w; reflexivity.
  - intros Hopen. split; intros ->; revert Hopen.
    + assert (Ht : dict_truthy eyes_85 = true) by (vm_compute; reflexivity).
      pose proof (face_command_eyes_85 v) as Hc.
      destruct v; cbn [face_command] in Hc;
        unfold_handlers; destruct w as [ha fa cam running fr orc clk]; run_py;
        rewrite ?Ht, ?Hc; run_py; repeat (step; try absurd_premise);
        intros _; split; reflexivity.
    + assert (Ht : dict_truthy mouth_60 = true) by (vm_compute; reflexivity).
      pose proof (face_command_mouth_60 v) as Hc.
      destruct v; cbn [face_command] in Hc;
        unfold_handlers; destruct w as [ha fa cam running fr orc clk]; run_py;
        rewrite ?Ht, ?Hc; run_py; repeat (step; try absurd_premise);
        intros _; split; reflexivity.
  - intros d -> Ht He Hm. pose proof (face_command_absent v d He Hm) as Hc.
    clear He Hm.
    destruct v; cbn [face_command] in Hc;
      unfold_handlers; destruct w as [ha fa cam running fr orc clk]; run_py;
      rewrite ?Ht, ?Hc; run_py; repeat step;
      (split; [reflexivity | eexists; repeat split; reflexivity]).
Qed.

Lemma face_command_fields_witness :
  sends Face (trace (set_face PC (BodyObject speed_1) plugged)) = [] /\
  exists resp,
    outcome (set_face PC (BodyObject speed_1) plugged) = Ok resp /\
    reply_status resp = Some "error" /\
    http_code resp = 400 /\ trace (set_face PC (BodyObject speed_1) plugged) = [].
Proof.
  destruct (face_command_fields PC (BodyObject speed_1) plugged) as (_ & _ & _ & _ & H).
  apply (H speed_1); vm_compute; reflexivity.
Defined.

(** C9 as stated fails on the Pi server: with the face link down and the
    reconnect failing, a body with neither field is answered 503. *)
Lemma pi_face_gate_answers_503 :
  dict_truthy speed_1 = true /\
  speed_1 !! "eyes" = None /\ speed_1 !! "mouth" = None /\
  outcome (Pi.set_face (BodyObject speed_1) unplugged)
    = Ok (StatusMessage "error" (NotConnected Face), 503).
Proof. repeat split; vm_compute; reflexivity. Qed.

(** ** C10 *)

Lemma numeric_not_M c : numeric c = true -> not_M c = true.
Proof.
  destruct c as [[|] [|] [|] [|] [|] [|] [|] [|]]; try reflexivity; discriminate.
Qed.

Lemma look_line_no_M pan tilt : all_chars not_M (look_line pan tilt) = true.
Proof.
  unfold look_line. rewrite !all_chars_append.
  rewrite !(all_chars_impl _ _ _ numeric_not_M (str_numeric _)). reflexivity.
Qed.

Lemma terminated_look_line pan tilt :
  terminated (look_line pan tilt) = look_line pan tilt.
Proof.
  unfold terminated, look_line.
  repeat rewrite endswith_newline_append
    by (repeat apply append_nonempty_r; discriminate).
  reflexivity.
Qed.

Arguments Volt.face_to_servo : simpl never.
Arguments look_line : simpl never.

(** C10, as the code has it.  POST /face_look (PC server).  A request that
    raises before the send makes no outside call at all.  Every other
    request is answered 200 with the angles (pan, tilt) that
    [face_to_servo] gives for the request's x and y (320 and 240 where
    they are missing), and the one command handed to the face link is
    exactly "E<pan> T<tilt>" and a newline, which holds no M; nothing is
    handed or written to the hand link.  On an open link that line is the
    only line written.  When the link was not open the send reconnects
    first: the lines on the device are those of the connection attempt,
    followed by the eye line only if the attempt succeeded, and a
    successful attempt has written its test line "E90 M0", so that the
    device receives a mouth token before the eye line. *)
Theorem face_look_line (req : body) (w : world) :
  (forall e, outcome (Volt.face_look req w) = Raise e ->
             trace (Volt.face_look req w) = []) /\
  (forall resp,
      outcome (Volt.face_look req w) = Ok resp ->
      exists x y pan tilt s m,
        int (dict_get (Volt.json_or_empty (request_data req)) "x" (VInt 320)) = Ok x /\
        int (dict_get (Volt.json_or_empty (request_data req)) "y" (VInt 240)) = Ok y /\
        Volt.face_to_servo x y 640 480 = Ok (pan, tilt) /\
        resp = (LookReply s pan tilt m, 200)) /\
  (forall x y pan tilt,
      (forall code, req <> BodyError code) ->
      int (dict_get (Volt.json_or_empty (request_data req)) "x" (VInt 320)) = Ok x ->
      int (dict_get (Volt.json_or_empty (request_data req)) "y" (VInt 240)) = Ok y ->
      Volt.face_to_servo x y 640 480 = Ok (pan, tilt) ->
      (exists s m,
         outcome (Volt.face_look req w) = Ok (LookReply s pan tilt m, 200)) /\
      sends Face (trace (Volt.face_look req w)) = [look_line pan tilt] /\
      sends Hand (trace (Volt.face_look req w)) = [] /\
      writes Hand (trace (Volt.face_look req w)) = [] /\
      all_chars not_M (look_line pan tilt) = true /\
      (link_open (face_arduino w) = true ->
         writes Face (trace (Volt.face_look req w)) = [look_line pan tilt]) /\
      (link_open (face_arduino w) = false ->
         writes Face (trace (Volt.face_look req w))
           = (writes Face (trace (Volt.init_face_arduino w))
              ++ match outcome (Volt.init_face_arduino w) with
                 | Ok true => [look_line pan tilt]
                 | _ => []
                 end)%list /\
         (outcome (Volt.init_face_arduino w) = Ok true ->
            writes Face (trace (Volt.face_look req w))
              = ["E90 M0" +:+ newline; look_line pan tilt]))).
Proof.
  split; [| split].
  - intros e. unfold_handlers. destruct w as [ha fa cam running fr orc clk]. run_py.
    fold (look_line).
    repeat step; intros H; try discriminate H; reflexivity.
  - intros resp. unfold_handlers. destruct w as [ha fa cam running fr orc clk].
    destruct req as [code| |d]; cbn [request_data]; run_py;
      try (intros H; discriminate H);
      cbv beta iota delta [Volt.json_or_empty];
      repeat step; intros H; try discriminate H; injection H as <-;
      eexists _, _, _, _, _, _; repeat split; eassumption.
  - intros x y pan tilt Hreq Hx Hy Hs.
    assert (Hrun : Volt.face_look req w
                   = match Volt.send_to_face_arduino (look_line pan tilt) w with
                     | Run (Ok sent) w' t =>
                         Run (Ok (LookReply (status_of (fst sent)) pan tilt (snd sent), 200)) w' t
                     | Run (Raise e) w' t => Run (Raise e) w' t
                     end).
    { unfold Volt.face_look.
      destruct req as [code| |d]; [exfalso; exact (Hreq code eq_refl) | |];
        cbn [request_data] in Hx, Hy; run_py_open; rewrite Hx; run_py_open;
        rewrite Hy; run_py_open; rewrite Hs; run_py_open;
        change ("E" +:+ str pan +:+ " T" +:+ str tilt +:+ newline) with (look_line pan tilt);
        destruct (Volt.send_to_face_arduino (look_line pan tilt) w) as [[sent|e] w' t];
        rewrite ?app_nil_r; reflexivity. }
    rewrite Hrun. clear Hrun Hx Hy Hs Hreq.
    generalize (look_line_no_M pan tilt) (terminated_look_line pan tilt).
    generalize (look_line pan tilt). intros line HM Ht.
    unfold_handlers. destruct w as [ha fa cam running fr orc clk]. run_py.
    repeat step; rewrite ?Ht; cbn [sends writes app];
      (split; [eexists _, _; reflexivity|]);
      (split; [reflexivity|]); (split; [reflexivity|]); (split; [reflexivity|]);
      (split; [exact HM|]);
      (split; [intros Ho; first [discriminate Ho | reflexivity]|]);
      intros Ho; first [discriminate Ho | idtac];
      (split; [reflexivity | intros Hi; first [discriminate Hi | reflexivity]]).
Qed.

Lemma face_look_line_witness :
  sends Face (trace (Volt.face_look (BodyObject centre) plugged)) = [look_line 90 80] /\
  writes Face (trace (Volt.face_look (BodyObject centre) plugged)) = [look_line 90 80].
Proof.
  destruct (face_look_line (BodyObject centre) plugged) as (_ & _ & H).
  destruct (H 320 240 90 80) as (_ & Hs & _ & _ & _ & Hw & _).
  - discriminate.
  - vm_compute. reflexivity.
  - vm_compute. reflexivity.
  - vm_compute. reflexivity.
  - split; [exact Hs | apply Hw; reflexivity].
Defined.

(** C10 as stated fails: with the face link down and the device back, the
    request's reconnect writes its test line, which carries the mouth
    token M0, before the eye line. *)
Lemma reconnect_writes_mouth_token :
  link_open (face_arduino replugged) = false /\
  writes Face (trace (Volt.face_look (BodyObject centre) replugged))
    = ["E90 M0" +:+ newline; "E90 T80" +:+ newline] /\
  all_chars not_M ("E90 M0" +:+ newline) = false.
Proof. repeat split; vm_compute; reflexivity. Qed.

(** ** Binary64 division of two ints *)

Lemma digits2_pos_bounds p :
  2 ^ (Z.pos (digits2_pos p) - 1) <= Z.pos p < 2 ^ Z.pos (digits2_pos p).
Proof.
  induction p as [p IH|p IH|]; cbn [digits2_pos]; rewrite ?Pos2Z.inj_succ.
  - replace (Z.succ (Z.pos (digits2_pos p)) - 1) with (Z.succ (Z.pos (digits2_pos p) - 1)) by lia.
    rewrite !Z.pow_succ_r by lia. lia.
  - replace (Z.succ (Z.pos (digits2_pos p)) - 1) with (Z.succ (Z.pos (digits2_pos p) - 1)) by lia.
    rewrite !Z.pow_succ_r by lia. lia.
  - cbn. lia.
Qed.

Lemma Zdigits2_bounds z :
  0 < z -> 2 ^ (Zdigits2 z - 1) <= z < 2 ^ Zdigits2 z.
Proof.
  destruct z as [|p|p]; try lia. intros _. apply digits2_pos_bounds.
Qed.

Lemma Zdigits2_pos z : 0 < z -> 0 < Zdigits2 z.
Proof. destruct z; cbn; lia. Qed.

(** At least [k + 1] digits from [2 ^ k] on. *)
Lemma Zdigits2_ge z k : 0 <= k -> 2 ^ k <= z -> k + 1 <= Zdigits2 z.
Proof.
  intros Hk Hz. assert (0 < z) by (pose proof (Z.pow_pos_nonneg 2 k); lia).
  destruct (Zdigits2_bounds z) as [_ Hu]; [assumption|].
  destruct (Z.le_gt_cases (k + 1) (Zdigits2 z)) as [|Hlt]; [assumption|].
  pose proof (Zdigits2_pos z ltac:(assumption)).
  assert (2 ^ Zdigits2 z <= 2 ^ k) by (apply Z.pow_le_mono_r; lia). lia.
Qed.

(** At most [k] digits below [2 ^ k]. *)
Lemma Zdigits2_le z k : 0 <= k -> 0 < z -> z < 2 ^ k -> Zdigits2 z <= k.
Proof.
  intros Hk Hz Hlt.
  destruct (Zdigits2_bounds z) as [Hl _]; [assumption|].
  destruct (Z.le_gt_cases (Zdigits2 z) k) as [|Hgt]; [assumption|].
  assert (2 ^ k <= 2 ^ (Zdigits2 z - 1)) by (apply Z.pow_le_mono_r; lia). lia.
Qed.

Lemma shr_1_m mrs : 0 <= shr_m mrs -> shr_m (shr_1 mrs) = shr_m mrs / 2.
Proof.
  destruct mrs as [m r s]. cbn [shr_m]. intros Hm.
  destruct m as [|[p|p|]|p]; cbn [shr_1 shr_m]; try lia; try reflexivity.
  - apply Z.div_unique with (r := 1); lia.
  - apply Z.div_unique with (r := 0); lia.
Qed.

Lemma iter_shr_m p mrs :
  0 <= shr_m mrs ->
  shr_m (SpecFloat.iter_pos shr_1 p mrs) = shr_m mrs / 2 ^ Z.pos p.
Proof.
  revert mrs. induction p as [p IH|p IH|]; intros mrs Hm; cbn [SpecFloat.iter_pos].
  - assert (E : 2 ^ Z.pos p~1 = 2 * (2 ^ Z.pos p * 2 ^ Z.pos p)).
    { rewrite (Pos2Z.inj_xI p).
      replace (2 * Z.pos p + 1) with (1 + (Z.pos p + Z.pos p)) by lia.
      rewrite !Z.pow_add_r by lia. reflexivity. }
    assert (Hp : 0 < 2 ^ Z.pos p) by (apply Z.pow_pos_nonneg; lia).
    assert (H1 : 0 <= shr_m (shr_1 mrs)).
    { rewrite shr_1_m by assumption. apply Z.div_pos; lia. }
    assert (H2 : 0 <= shr_m (SpecFloat.iter_pos shr_1 p (shr_1 mrs))).
    { rewrite IH by assumption. apply Z.div_pos; assumption. }
    rewrite E, IH, IH, shr_1_m by assumption.
    rewrite !Z.div_div by lia. reflexivity.
  - assert (E : 2 ^ Z.pos p~0 = 2 ^ Z.pos p * 2 ^ Z.pos p).
    { rewrite (Pos2Z.inj_xO p).
      replace (2 * Z.pos p) with (Z.pos p + Z.pos p) by lia.
      rewrite !Z.pow_add_r by lia. reflexivity. }
    assert (Hp : 0 < 2 ^ Z.pos p) by (apply Z.pow_pos_nonneg; lia).
    assert (H2 : 0 <= shr_m (SpecFloat.iter_pos shr_1 p mrs)).
    { rewrite IH by assumption. apply Z.div_pos; assumption. }
    rewrite E, IH, IH by assumption.
    rewrite !Z.div_div by lia. reflexivity.
  - rewrite shr_1_m by assumption. reflexivity.
Qed.

Lemma shr_record_of_loc_m m l : shr_m (shr_record_of_loc m l) = m.
Proof. destruct l as [|[| |]]; reflexivity. Qed.

(** [shr] divides the mantissa by [2 ^ n] and adds [n] to the exponent. *)
Lemma shr_spec mrs e n :
  0 <= shr_m mrs -> 0 <= n ->
  shr_m (fst (shr mrs e n)) = shr_m mrs / 2 ^ n /\ snd (shr mrs e n) = e + n.
Proof.
  intros Hm Hn. destruct n as [|p|p]; try lia; cbn [shr fst snd].
  - rewrite Z.pow_0_r, Z.div_1_r. lia.
  - rewrite iter_shr_m by assumption. lia.
Qed.

(** Keeping the [k] leading bits of a number of [d >= k] bits. *)
Lemma leading_bits m d k :
  0 < k <= d -> 2 ^ (d - 1) <= m < 2 ^ d ->
  2 ^ (k - 1) <= m / 2 ^ (d - k) < 2 ^ k.
Proof.
  intros Hk Hm.
  assert (Hp : 0 < 2 ^ (d - k)) by (apply Z.pow_pos_nonneg; lia).
  assert (E1 : 2 ^ (d - 1) = 2 ^ (k - 1) * 2 ^ (d - k)).
  { rewrite <- Z.pow_add_r by lia. f_equal. lia. }
  assert (E2 : 2 ^ d = 2 ^ k * 2 ^ (d - k)).
  { rewrite <- Z.pow_add_r by lia. f_equal. lia. }
  split.
  - apply Z.div_le_lower_bound; [assumption | lia].
  - apply Z.div_lt_upper_bound; [assumption | lia].
Qed.

Lemma round_nearest_even_bounds m l :
  m <= round_nearest_even m l <= m + 1.
Proof.
  unfold round_nearest_even. destruct l as [|[| |]]; try destruct (Z.even m); lia.
Qed.

Lemma fexp_normal z : -1021 <= z -> fexp prec emax z = z - 53.
Proof. unfold fexp, SpecFloat.emin, prec, emax. lia. Qed.

(** [shr_fexp] on a mantissa of at least 53 bits keeps its 53 leading
    bits. *)
Lemma shr_fexp_normal m e l :
  2 ^ 52 <= m -> -1021 <= Zdigits2 m + e ->
  2 ^ 52 <= shr_m (fst (shr_fexp prec emax m e l)) < 2 ^ 53 /\
  snd (shr_fexp prec emax m e l) = Zdigits2 m + e - 53.
Proof.
  intros Hm He. unfold shr_fexp. rewrite fexp_normal by assumption.
  assert (Hd : 53 <= Zdigits2 m) by (apply (Zdigits2_ge m 52); lia).
  destruct (shr_spec (shr_record_of_loc m l) e (Zdigits2 m + e - 53 - e)) as [H1 H2];
    [rewrite shr_record_of_loc_m; lia | lia |].
  rewrite H1, H2, shr_record_of_loc_m. split; [|lia].
  replace (Zdigits2 m + e - 53 - e) with (Zdigits2 m - 53) by lia.
  apply (leading_bits m (Zdigits2 m) 53); [lia|].
  apply Zdigits2_bounds. lia.
Qed.

(** Rounding a mantissa of at least 53 bits, away from the subnormal
    range, gives a normal number of the same sign (or overflows): the
    mantissa has exactly 53 bits and the exponent is the one of the
    leading bits, or one more when rounding carried. *)
Lemma binary_round_aux_normal sx m e l :
  2 ^ 52 <= m -> -1021 <= Zdigits2 m + e ->
  exists m3 e2,
    2 ^ 52 <= Z.pos m3 < 2 ^ 53 /\
    (e2 = Zdigits2 m + e - 53 \/ e2 = Zdigits2 m + e - 52) /\
    binary_round_aux prec emax sx m e l =
      if (e2 <=? emax - prec)%Z then S754_finite sx m3 e2 else S754_infinity sx.
Proof.
  intros Hm He. unfold binary_round_aux.
  destruct (shr_fexp_normal m e l Hm He) as [Hm1 He1].
  destruct (shr_fexp prec emax m e l) as [mrs1 e1]. cbn [fst snd] in Hm1, He1.
  pose proof (round_nearest_even_bounds (shr_m mrs1) (loc_of_shr_record mrs1)) as Hr.
  set (m2 := round_nearest_even (shr_m mrs1) (loc_of_shr_record mrs1)) in *.
  assert (Hm2 : 2 ^ 52 <= m2 <= 2 ^ 53) by lia.
  assert (Hd2 : 53 <= Zdigits2 m2 <= 54).
  { split; [apply (Zdigits2_ge m2 52); lia | apply Zdigits2_le; lia]. }
  assert (He2 : -1021 <= Zdigits2 m2 + e1) by lia.
  destruct (shr_fexp_normal m2 e1 loc_Exact (proj1 Hm2) He2) as [Hm3 He3].
  destruct (shr_fexp prec emax m2 e1 loc_Exact) as [mrs2 e2]. cbn [fst snd] in Hm3, He3.
  destruct (shr_m mrs2) as [|m3|m3] eqn:E3; try lia.
  exists m3, e2. split; [lia|]. split; [lia|]. reflexivity.
Qed.

(** The quotient mantissa that [SFdiv] hands to the rounding, for two
    positive ints below [2 ^ 1000]. *)
Lemma div_core a b :
  0 < a < 2 ^ 1000 -> 0 < b < 2 ^ 1000 ->
  exists q e l,
    SFdiv_core_binary prec emax a 0 b 0 = (q, e, l) /\
    2 ^ 52 <= q /\ -1053 <= e <= 0 /\ Zdigits2 q + e <= 1000 /\
    (b < a -> 1 <= Zdigits2 q + e).
Proof.
  intros Ha Hb. unfold SFdiv_core_binary.
  pose proof (Zdigits2_bounds a (proj1 Ha)) as Hda.
  pose proof (Zdigits2_bounds b (proj1 Hb)) as Hdb.
  pose proof (Zdigits2_pos a (proj1 Ha)) as Hpa.
  pose proof (Zdigits2_pos b (proj1 Hb)) as Hpb.
  pose proof (Zdigits2_le a 1000 ltac:(lia) (proj1 Ha) (proj2 Ha)) as Hla.
  pose proof (Zdigits2_le b 1000 ltac:(lia) (proj1 Hb) (proj2 Hb)) as Hlb.
  set (d1 := Zdigits2 a) in *. set (d2 := Zdigits2 b) in *.
  replace (d1 + 0 - (d2 + 0)) with (d1 - d2) by lia.
  rewrite fexp_normal by lia.
  set (e := Z.min (d1 - d2 - 53) (0 - 0)).
  assert (He : -1053 <= e <= 0) by (unfold e; lia).
  assert (Hs : d2 + 53 - d1 <= - e) by (unfold e; lia).
  set (s := 0 - 0 - e). assert (Es : s = - e) by (unfold s; lia).
  set (m' := match s with Z.pos _ => Z.shiftl a s | 0 => a | Z.neg _ => 0 end).
  assert (Em : m' = a * 2 ^ s).
  { unfold m'. destruct s as [|p|p] eqn:E; try lia.
    apply Z.shiftl_mul_pow2. lia. }
  clearbody m' s e. subst s.
  assert (Hp : 0 < 2 ^ (- e)) by (apply Z.pow_pos_nonneg; lia).
  assert (Hq : fst (Z.div_eucl m' b) = m' / b) by reflexivity.
  destruct (Z.div_eucl m' b) as [q r]. cbn [fst] in Hq. subst q.
  exists (m' / b), e, (new_location b r). split; [reflexivity|].
  assert (Hlow : 2 ^ (d2 + 52) <= m').
  { rewrite Em. assert (0 < 2 ^ (d1 - 1)) by (apply Z.pow_pos_nonneg; lia).
    destruct (Z.le_gt_cases d1 (d2 + 53)) as [Hle|Hgt].
    - replace (d2 + 52) with ((d1 - 1) + (d2 + 53 - d1)) by lia.
      rewrite Z.pow_add_r by lia.
      assert (2 ^ (d2 + 53 - d1) <= 2 ^ (- e)) by (apply Z.pow_le_mono_r; lia).
      assert (0 < 2 ^ (d2 + 53 - d1)) by (apply Z.pow_pos_nonneg; lia).
      apply Z.mul_le_mono_nonneg; lia.
    - assert (2 ^ (d2 + 52) <= 2 ^ (d1 - 1)) by (apply Z.pow_le_mono_r; lia).
      assert (a * 1 <= a * 2 ^ (- e)) by (apply Z.mul_le_mono_nonneg_l; lia).
      lia. }
  assert (Hq52 : 2 ^ 52 <= m' / b).
  { apply Z.div_le_lower_bound; [lia|].
    rewrite Z.pow_add_r in Hlow by lia.
    assert (0 < 2 ^ 52) by (apply Z.pow_pos_nonneg; lia).
    assert (b * 2 ^ 52 <= 2 ^ d2 * 2 ^ 52) by (apply Z.mul_le_mono_nonneg_r; lia).
    lia. }
  split; [exact Hq52|]. split; [exact He|].
  assert (Hqpos : 0 < m' / b) by (assert (0 < 2 ^ 52) by (apply Z.pow_pos_nonneg; lia); lia).
  split.
  - assert (Hup : m' / b < 2 ^ (d1 + - e)).
    { apply Z.div_lt_upper_bound; [lia|].
      rewrite Z.pow_add_r by lia. rewrite Em.
      assert (a * 2 ^ (- e) < 2 ^ d1 * 2 ^ (- e)) by (apply Z.mul_lt_mono_pos_r; lia).
      assert (2 ^ d1 * 2 ^ (- e) <= b * (2 ^ d1 * 2 ^ (- e))).
      { assert (0 < 2 ^ d1) by (apply Z.pow_pos_nonneg; lia). nia. }
      lia. }
    pose proof (Zdigits2_le (m' / b) (d1 + - e) ltac:(lia) Hqpos Hup). lia.
  - intros Hab.
    assert (Hge : 2 ^ (- e) <= m' / b).
    { apply Z.div_le_lower_bound; [lia|]. rewrite Em.
      apply Z.mul_le_mono_nonneg_r; lia. }
    pose proof (Zdigits2_ge (m' / b) (- e) ltac:(lia) Hge). lia.
Qed.

(** [a / b] for a non-zero int [a] and a positive int [b], both below
    [2 ^ 1000] in magnitude: no overflow; the quotient is a normal number
    with the sign of [a], and it is at least 1 in magnitude when
    [b < |a|]. *)
Lemma truediv_normal (sa : bool) (a b : positive) :
  Z.pos a < 2 ^ 1000 -> Z.pos b < 2 ^ 1000 ->
  exists m e,
    truediv (if sa then Z.neg a else Z.pos a) (Z.pos b) = Ok (S754_finite sa m e) /\
    2 ^ 52 <= Z.pos m < 2 ^ 53 /\
    (Z.pos b < Z.pos a -> -52 <= e).
Proof.
  intros Ha Hb. unfold truediv. cbn [Z.eqb].
  assert (E : SFdiv prec emax (exact_int (if sa then Z.neg a else Z.pos a))
                (exact_int (Z.pos b))
              = let '(mz, ez, lz) := SFdiv_core_binary prec emax (Z.pos a) 0 (Z.pos b) 0 in
                binary_round_aux prec emax sa mz ez lz).
  { destruct sa; reflexivity. }
  rewrite E. clear E.
  destruct (div_core (Z.pos a) (Z.pos b)) as (q & e & l & -> & Hq & He & Hup & Hlow); [lia | lia |].
  destruct (binary_round_aux_normal sa q e l Hq) as (m3 & e2 & Hm3 & He2 & ->).
  { assert (53 <= Zdigits2 q) by (apply (Zdigits2_ge q 52); lia). lia. }
  assert (Hle : (e2 <=? emax - prec)%Z = true) by (apply Z.leb_le; unfold emax, prec; lia).
  rewrite Hle. exists m3, e2. split; [reflexivity|]. split; [exact Hm3|].
  intros Hab. specialize (Hlow Hab). lia.
Qed.

Lemma one_is : float_of_int 1 = S754_finite false 4503599627370496 (-52).
Proof. vm_compute. reflexivity. Qed.

(** A normal number with exponent at least -52 is not below 1. *)
Lemma not_below_one m e :
  2 ^ 52 <= Z.pos m -> -52 <= e ->
  SFltb (S754_finite false m e) (float_of_int 1) = false.
Proof.
  intros Hm He. rewrite one_is. unfold SFltb, SFcompare.
  destruct (Z.compare_spec e (-52)) as [Heq|Hlt|Hgt]; [| lia | reflexivity].
  rewrite Pos.compare_cont_spec. cbn [Pos.switch_Eq].
  destruct (Pos.compare_spec m 4503599627370496) as [Hm'|Hlt|Hgt]; try reflexivity.
  change (2 ^ 52) with (Z.pos 4503599627370496) in Hm.
  apply Pos.lt_nle in Hlt. exfalso. apply Hlt. exact Hm.
Qed.

(** The normalised coordinate: 0 left of the frame, 1 right of it. *)
Lemma unit_interval_left (a b : positive) :
  Z.pos a < 2 ^ 1000 -> Z.pos b < 2 ^ 1000 ->
  exists q, truediv (Z.neg a) (Z.pos b) = Ok q /\
            fmax (S754_zero false) (fmin (float_of_int 1) q) = S754_zero false.
Proof.
  intros Ha Hb.
  destruct (truediv_normal true a b Ha Hb) as (m & e & E & _ & _).
  exists (S754_finite true m e). split; [exact E|].
  rewrite one_is. reflexivity.
Qed.

Lemma unit_interval_right (a b : positive) :
  Z.pos a < 2 ^ 1000 -> Z.pos b < 2 ^ 1000 -> Z.pos b < Z.pos a ->
  exists q, truediv (Z.pos a) (Z.pos b) = Ok q /\
            fmax (S754_zero false) (fmin (float_of_int 1) q) = float_of_int 1.
Proof.
  intros Ha Hb Hab.
  destruct (truediv_normal false a b Ha Hb) as (m & e & E & Hm & He).
  exists (S754_finite false m e). split; [exact E|].
  unfold fmin. rewrite (not_below_one m e (proj1 Hm) (He Hab)).
  rewrite one_is. reflexivity.
Qed.


(** ** C8 *)

Lemma upto_spec lo n z :
  lo <= z < lo + Z.of_nat n -> In z (upto lo n).
Proof.
  revert lo. induction n as [|n IH]; intros lo H; [lia|].
  cbn [upto]. destruct (Z.eq_dec lo z) as [->|Hne]; [left; reflexivity|].
  right. apply IH. lia.
Qed.

Lemma checked_upto (f : Z -> bool) lo n :
  forallb f (upto lo n) = true ->
  forall z, lo <= z < lo + Z.of_nat n -> f z = true.
Proof.
  intros H z Hz. rewrite forallb_forall in H. apply H, upto_spec, Hz.
Qed.

Lemma pan_checked_frame x : 0 <= x <= 640 -> pan_checked x = true.
Proof.
  intros H. apply (checked_upto pan_checked 0 641); [vm_compute; reflexivity | lia].
Qed.

Lemma tilt_checked_frame y : 0 <= y <= 480 -> tilt_checked y = true.
Proof.
  intros H. apply (checked_upto tilt_checked 0 481); [vm_compute; reflexivity | lia].
Qed.

Lemma face_to_servo_axes x y w h p t :
  pan_angle x w = Ok p -> tilt_angle y h = Ok t ->
  Volt.face_to_servo x y w h = Ok (p, t).
Proof.
  unfold pan_angle, tilt_angle, Volt.face_to_servo.
  destruct (truediv x w) as [qx|]; [|discriminate].
  destruct (truediv y h) as [qy|]; [|discriminate].
  cbv zeta. intros -> ->. reflexivity.
Qed.

Lemma linear_pan_640 x : (linear_pan x 640 == (1760 - x) # 16)%Q.
Proof.
  unfold linear_pan, Volt.EYE_PAN_MIN, Volt.EYE_PAN_MAX.
  unfold Qeq, Qdiv, Qminus, Qplus, Qmult, Qinv, Qopp, inject_Z. cbn. lia.
Qed.

Lemma linear_tilt_480 y : (linear_tilt y 480 == (720 + y) # 12)%Q.
Proof.
  unfold linear_tilt, Volt.EYE_TILT_MIN, Volt.EYE_TILT_MAX.
  unfold Qeq, Qdiv, Qminus, Qplus, Qmult, Qinv, Qopp, inject_Z. cbn. lia.
Qed.

Lemma nearest_sixteenths p n : Z.abs (16 * p - n) <= 8 -> nearest p (n # 16).
Proof.
  intros H. unfold nearest. apply Qabs_Qle_condition.
  unfold Qle, Qminus, Qplus, Qopp, inject_Z. cbn. lia.
Qed.

Lemma nearest_twelfths t n : Z.abs (12 * t - n) <= 6 -> nearest t (n # 12).
Proof.
  intros H. unfold nearest. apply Qabs_Qle_condition.
  unfold Qle, Qminus, Qplus, Qopp, inject_Z. cbn. lia.
Qed.

Lemma nearest_proper n (q1 q2 : Q) : (q1 == q2)%Q -> nearest n q2 -> nearest n q1.
Proof. unfold nearest. intros ->. trivial. Qed.

(** The pan angle for every coordinate of magnitude below [2 ^ 1000]. *)
Lemma pan_angle_cases x :
  Z.abs x < 2 ^ 1000 ->
  exists p, pan_angle x 640 = Ok p /\
    (x < 0 -> p = 110) /\ (640 < x -> p = 70) /\
    (0 <= x <= 640 -> Z.abs (16 * p - (1760 - x)) <= 8 /\ 70 <= p <= 110).
Proof.
  intros Hx. destruct (Z.lt_trichotomy x 0) as [Hneg|[->|Hpos]].
  - destruct x as [|a|a]; try lia.
    destruct (unit_interval_left a 640) as (q & Eq & En); [lia | reflexivity |].
    exists 110. unfold pan_angle. rewrite Eq. cbv zeta. rewrite En.
    split; [vm_compute; reflexivity | repeat split; lia].
  - exists 110. split; [vm_compute; reflexivity|]. repeat split; try lia.
  - destruct (Z.le_gt_cases x 640) as [Hle|Hgt].
    + pose proof (pan_checked_frame x ltac:(lia)) as Hc. unfold pan_checked in Hc.
      destruct (pan_angle x 640) as [p|]; [|discriminate].
      exists p. split; [reflexivity|]. repeat split; try lia.
    + destruct x as [|a|a]; try lia.
      destruct (unit_interval_right a 640) as (q & Eq & En); [lia | reflexivity | lia |].
      exists 70. unfold pan_angle. rewrite Eq. cbv zeta. rewrite En.
      split; [vm_compute; reflexivity | repeat split; lia].
Qed.

Lemma tilt_angle_cases y :
  Z.abs y < 2 ^ 1000 ->
  exists t, tilt_angle y 480 = Ok t /\
    (y < 0 -> t = 60) /\ (480 < y -> t = 100) /\
    (0 <= y <= 480 -> Z.abs (12 * t - (720 + y)) <= 6 /\ 60 <= t <= 100).
Proof.
  intros Hy. destruct (Z.lt_trichotomy y 0) as [Hneg|[->|Hpos]].
  - destruct y as [|a|a]; try lia.
    destruct (unit_interval_left a 480) as (q & Eq & En); [lia | reflexivity |].
    exists 60. unfold tilt_angle. rewrite Eq. cbv zeta. rewrite En.
    split; [vm_compute; reflexivity | repeat split; lia].
  - exists 60. split; [vm_compute; reflexivity|]. repeat split; try lia.
  - destruct (Z.le_gt_cases y 480) as [Hle|Hgt].
    + pose proof (tilt_checked_frame y ltac:(lia)) as Hc. unfold tilt_checked in Hc.
      destruct (tilt_angle y 480) as [t|]; [|discriminate].
      exists t. split; [reflexivity|]. repeat split; try lia.
    + destruct y as [|a|a]; try lia.
      destruct (unit_interval_right a 480) as (q & Eq & En); [lia | reflexivity | lia |].
      exists 100. unfold tilt_angle. rewrite Eq. cbv zeta. rewrite En.
      split; [vm_compute; reflexivity | repeat split; lia].
Qed.

Lemma dict_truthy_lookup (d : dict) k v : d !! k = Some v -> dict_truthy d = true.
Proof.
  intros H. unfold dict_truthy. destruct (map_to_list d) as [|kv l] eqn:E; [|reflexivity].
  apply map_to_list_empty_iff in E. subst d. rewrite lookup_empty in H. discriminate.
Qed.

Lemma nearest_exists_sixteenths k :
  Z.abs (16 * ((k + 8) / 16) - k) <= 8.
Proof. pose proof (Z.div_mod (k + 8) 16). pose proof (Z.mod_pos_bound (k + 8) 16). lia. Qed.

Lemma nearest_exists_twelfths k :
  Z.abs (12 * ((k + 6) / 12) - k) <= 6.
Proof. pose proof (Z.div_mod (k + 6) 12). pose proof (Z.mod_pos_bound (k + 6) 12). lia. Qed.

(** C8.  For integer pixel coordinates (of magnitude below 2^1000, far
    beyond any frame), [face_to_servo] at frame size 640x480 returns
    angles that are the mirrored linear map
    pan = PAN_MIN + (1 - x/width) * (PAN_MAX - PAN_MIN) and
    tilt = TILT_MIN + (y/height) * (TILT_MAX - TILT_MIN), rounded to a
    nearest integer and clamped to 70..110 and 60..100; inside the frame
    the angle itself is that nearest integer.  x=0 gives PAN_MAX, x=640
    PAN_MIN, y=0 TILT_MIN and y=480 TILT_MAX.  These are the angles that
    POST /face_look echoes for the request's x and y. *)
Theorem face_to_servo_linear (x y : Z) :
  Z.abs x < 2 ^ 1000 -> Z.abs y < 2 ^ 1000 ->
  exists pan tilt,
    Volt.face_to_servo x y 640 480 = Ok (pan, tilt) /\
    (exists n, nearest n (linear_pan x 640) /\
               pan = clamp Volt.EYE_PAN_MIN Volt.EYE_PAN_MAX n) /\
    (exists n, nearest n (linear_tilt y 480) /\
               tilt = clamp Volt.EYE_TILT_MIN Volt.EYE_TILT_MAX n) /\
    (0 <= x <= 640 -> nearest pan (linear_pan x 640)) /\
    (0 <= y <= 480 -> nearest tilt (linear_tilt y 480)) /\
    (x = 0 -> pan = Volt.EYE_PAN_MAX) /\
    (x = 640 -> pan = Volt.EYE_PAN_MIN) /\
    (y = 0 -> tilt = Volt.EYE_TILT_MIN) /\
    (y = 480 -> tilt = Volt.EYE_TILT_MAX) /\
    (forall d w,
        d !! "x" = Some (VInt x) -> d !! "y" = Some (VInt y) ->
        exists s m,
          outcome (Volt.face_look (BodyObject d) w) = Ok (LookReply s pan tilt m, 200)).
Proof.
  intros Hx Hy.
  destruct (pan_angle_cases x Hx) as (p & Ep & Pneg & Ppos & Pin).
  destruct (tilt_angle_cases y Hy) as (t & Et & Tneg & Tpos & Tin).
  pose proof (face_to_servo_axes x y 640 480 p t Ep Et) as E.
  exists p, t. split; [exact E|].
  unfold Volt.EYE_PAN_MIN, Volt.EYE_PAN_MAX, Volt.EYE_TILT_MIN, Volt.EYE_TILT_MAX.
  split; [| split; [| split; [| split; [| split; [| split; [| split; [| split]]]]]]].
  - destruct (Z.lt_trichotomy x 0) as [Hn|[H0|Hp]];
      [| | destruct (Z.le_gt_cases x 640) as [Hle|Hgt]].
    + exists ((1760 - x + 8) / 16). split.
      * apply (nearest_proper _ _ _ (linear_pan_640 x)), nearest_sixteenths,
          nearest_exists_sixteenths.
      * rewrite (Pneg Hn). pose proof (nearest_exists_sixteenths (1760 - x)).
        unfold clamp. lia.
    + exists p. split.
      * apply (nearest_proper _ _ _ (linear_pan_640 x)), nearest_sixteenths. apply Pin. lia.
      * unfold clamp. destruct Pin as [_ ?]; lia.
    + exists p. split.
      * apply (nearest_proper _ _ _ (linear_pan_640 x)), nearest_sixteenths. apply Pin. lia.
      * unfold clamp. destruct Pin as [_ ?]; lia.
    + exists ((1760 - x + 8) / 16). split.
      * apply (nearest_proper _ _ _ (linear_pan_640 x)), nearest_sixteenths,
          nearest_exists_sixteenths.
      * rewrite (Ppos Hgt). pose proof (nearest_exists_sixteenths (1760 - x)).
        unfold clamp. lia.
  - destruct (Z.lt_trichotomy y 0) as [Hn|[H0|Hp]];
      [| | destruct (Z.le_gt_cases y 480) as [Hle|Hgt]].
    + exists ((720 + y + 6) / 12). split.
      * apply (nearest_proper _ _ _ (linear_tilt_480 y)), nearest_twelfths,
          nearest_exists_twelfths.
      * rewrite (Tneg Hn). pose proof (nearest_exists_twelfths (720 + y)).
        unfold clamp. lia.
    + exists t. split.
      * apply (nearest_proper _ _ _ (linear_tilt_480 y)), nearest_twelfths. apply Tin. lia.
      * unfold clamp. destruct Tin as [_ ?]; lia.
    + exists t. split.
      * apply (nearest_proper _ _ _ (linear_tilt_480 y)), nearest_twelfths. apply Tin. lia.
      * unfold clamp. destruct Tin as [_ ?]; lia.
    + exists ((720 + y + 6) / 12). split.
      * apply (nearest_proper _ _ _ (linear_tilt_480 y)), nearest_twelfths,
          nearest_exists_twelfths.
      * rewrite (Tpos Hgt). pose proof (nearest_exists_twelfths (720 + y)).
        unfold clamp. lia.
  - intros H. apply (nearest_proper _ _ _ (linear_pan_640 x)), nearest_sixteenths. apply Pin, H.
  - intros H. apply (nearest_proper _ _ _ (linear_tilt_480 y)), nearest_twelfths. apply Tin, H.
  - intros ->. destruct Pin as [? ?]; lia.
  - intros ->. destruct Pin as [? ?]; lia.
  - intros ->. destruct Tin as [? ?]; lia.
  - intros ->. destruct Tin as [? ?]; lia.
  - intros d w Hdx Hdy.
    assert (Ht : dict_truthy d = true) by (eapply dict_truthy_lookup; exact Hdx).
    assert (Ix : int (dict_get d "x" (VInt 320)) = Ok x) by (unfold dict_get; rewrite Hdx; reflexivity).
    assert (Iy : int (dict_get d "y" (VInt 240)) = Ok y) by (unfold dict_get; rewrite Hdy; reflexivity).
    unfold_handlers. destruct w as [ha fa cam running fr orc clk]. run_py.
    cbv beta iota delta [Volt.json_or_empty]. rewrite Ht, Ix. run_py. rewrite Iy. run_py.
    rewrite E. run_py.
    repeat step; eexists _, _; reflexivity.
Qed.

Lemma face_to_servo_linear_witness :
  exists pan tilt,
    Volt.face_to_servo 0 480 640 480 = Ok (pan, tilt) /\
    pan = Volt.EYE_PAN_MAX /\ tilt = Volt.EYE_TILT_MAX.
Proof.
  destruct (face_to_servo_linear 0 480) as (pan & tilt & E & _ & _ & _ & _ & P0 & _ & _ & T480 & _).
  - reflexivity.
  - reflexivity.
  - exists pan, tilt. split; [exact E|]. split; [apply P0 | apply T480]; reflexivity.
Defined.

(* ===================================================================== *)
(** * Further properties of the code                                      *)
(* ===================================================================== *)

(** ** Connecting *)

Lemma endswith_newline_terminated s : endswith_newline (terminated s) = true.
Proof.
  unfold terminated. destruct (endswith_newline s) eqn:E; [exact E|].
  rewrite endswith_newline_append; [reflexivity | discriminate].
Qed.

Lemma endswith_newline_test_command d : endswith_newline (test_command d) = true.
Proof. destruct d; reflexivity. Qed.

Arguments test_command : simpl never.

(** [init_hand_arduino] and [init_face_arduino], both servers.  A
    connection attempt never raises and returns whether the link is open
    afterwards.  A link that was open is closed before anything else, and
    if that close raises nothing more is called and the link global
    becomes None; a link that was not open is never closed.  The only
    line an attempt can write is the test line of its device, and an
    attempt that returns True has written and flushed it.  After a failed
    attempt the Pi server's link global is None. *)
Theorem init_arduino_protocol (v : variant) (d : device) (w : world) :
  outcome (init_arduino v d w) = Ok (link_open (link d (final (init_arduino v d w)))) /\
  (link_open (link d w) = true ->
     exists t, trace (init_arduino v d w) = EvClose d :: t) /\
  (forall e, link_open (link d w) = true -> oracle w (clock w) = Raises e ->
     trace (init_arduino v d w) = [EvClose d] /\
     link d (final (init_arduino v d w)) = None) /\
  (link_open (link d w) = false -> ~ In (EvClose d) (trace (init_arduino v d w))) /\
  (writes d (trace (init_arduino v d w)) = [] \/
   writes d (trace (init_arduino v d w)) = [test_command d]) /\
  (outcome (init_arduino v d w) = Ok true ->
     writes d (trace (init_arduino v d w)) = [test_command d] /\
     In (EvFlush d) (trace (init_arduino v d w))) /\
  (v = RaspberryPi -> outcome (init_arduino v d w) = Ok false ->
     link d (final (init_arduino v d w)) = None).
Proof.
  destruct v, d; execute w;
    change ("0,0,0,0,180,180,0" +:+ newline) with (test_command Hand);
    change ("E90 M0" +:+ newline) with (test_command Face);
    cbn [writes In];
    (split; [reflexivity|]);
    (split; [intros H; try discriminate H; eexists; reflexivity|]);
    (split; [intros e' H H'; first [discriminate H | discriminate H'
                                    | split; reflexivity]|]);
    (split; [intros H; try discriminate H; intuition discriminate|]);
    (split; [first [left; reflexivity | right; reflexivity]|]);
    (split; [intros H; first [discriminate H | split; [reflexivity | tauto]]|]);
    intros H H'; first [discriminate H | discriminate H' | reflexivity].
Qed.

Lemma init_arduino_protocol_witness :
  writes Hand (trace (init_arduino PC Hand replugged)) = [test_command Hand] /\
  In (EvFlush Hand) (trace (init_arduino PC Hand replugged)).
Proof.
  destruct (init_arduino_protocol PC Hand replugged) as (_ & _ & _ & _ & _ & H & _).
  apply H. reflexivity.
Defined.

(** ** Sending *)

(** [send_to_hand_arduino] and [send_to_face_arduino], both servers.  A
    send never raises.  When it reports success the message is "Команда
    отправлена", the command with its line terminator is the last line
    written to the device (preceded only by the test line of a reconnect
    the PC server had to make), the flush was called, and the link is
    open afterwards.  Whatever the result, nothing is called on the other
    device or on the camera, and the other link and the camera globals
    are as before. *)
Theorem send_success_means_written
    (v : variant) (d : device) (data_str : string) (w : world) :
  exists ok m,
    outcome (send_to_arduino v d data_str w) = Ok (ok, m) /\
    (ok = true ->
       m = CommandSent /\
       writes d (trace (send_to_arduino v d data_str w)) = lines_of_send d data_str w /\
       In (EvFlush d) (trace (send_to_arduino v d data_str w)) /\
       link_open (link d (final (send_to_arduino v d data_str w))) = true) /\
    (ok = false -> m <> CommandSent) /\
    List.filter (on_device (other d)) (trace (send_to_arduino v d data_str w)) = [] /\
    ~ In EvRelease (trace (send_to_arduino v d data_str w)) /\
    link (other d) (final (send_to_arduino v d data_str w)) = link (other d) w /\
    camera (final (send_to_arduino v d data_str w)) = camera w /\
    camera_running (final (send_to_arduino v d data_str w)) = camera_running w /\
    latest_frame (final (send_to_arduino v d data_str w)) = latest_frame w.
Proof.
  destruct v, d; cbv beta iota delta [other lines_of_send]; execute w;
    change ("0,0,0,0,180,180,0" +:+ newline) with (test_command Hand);
    change ("E90 M0" +:+ newline) with (test_command Face);
    eexists _, _; (split; [reflexivity|]);
    cbn [writes In List.filter on_device app];
    (split; [intros H; first [discriminate H
             | split; [reflexivity | split; [reflexivity | split; [tauto | reflexivity]]]]|]);
    (split; [intros H; first [discriminate H | discriminate]|]);
    (split; [reflexivity|]);
    (split; [intuition discriminate|]);
    repeat split.
Qed.

Lemma send_success_means_written_witness :
  writes Hand (trace (send_to_arduino PC Hand "30,0,0,0,180,180,0" replugged))
    = [test_command Hand; terminated "30,0,0,0,180,180,0"] /\
  link_open (link Hand (final (send_to_arduino PC Hand "30,0,0,0,180,180,0" replugged)))
    = true.
Proof.
  destruct (send_success_means_written PC Hand "30,0,0,0,180,180,0" replugged)
    as (ok & m & E & H & _).
  assert (Hok : ok = true) by (vm_compute in E; congruence).
  destruct (H Hok) as (_ & Hw & _ & Ho). split; [exact Hw | exact Ho].
Defined.

(** The converse fails in the PC server: a send can report failure after
    the command has been written and flushed, when the read-back that
    follows raises. *)
Lemma failure_after_delivery :
  outcome (Volt.send_to_hand_arduino "30,0,0,0,180,180,0" flaky)
    = Ok (false, SendError SerialException) /\
  trace (Volt.send_to_hand_arduino "30,0,0,0,180,180,0" flaky)
    = [EvSend Hand "30,0,0,0,180,180,0";
       EvWrite Hand ("30,0,0,0,180,180,0" +:+ newline); EvFlush Hand;
       EvInWaiting Hand].
Proof. split; vm_compute; reflexivity. Qed.

(** Who reconnects.  The send functions of the Pi server never open a
    port: on a link that is not open they return (False, "... не
    подключен") without a single outside call and leave every global as it
    was.  Those of the PC server make exactly one connection attempt on
    such a link and none on an open one; if the attempt fails the send
    stops there, if it succeeds the command follows the test line. *)
Theorem send_reconnect_policy
    (v : variant) (d : device) (data_str : string) (w : world) :
  connects d (trace (send_to_arduino v d data_str w))
    = match v with
      | RaspberryPi => 0%nat
      | PC => if link_open (link d w) then 0%nat else 1%nat
      end /\
  (v = RaspberryPi -> link_open (link d w) = false ->
     send_to_arduino v d data_str w
       = Run (Ok (false, NotConnected d)) w [EvSend d data_str]) /\
  (v = PC -> link_open (link d w) = false ->
     outcome (init_arduino PC d w) = Ok false ->
     exists m,
       send_to_arduino v d data_str w
         = Run (Ok (false, m)) (final (init_arduino PC d w))
               (EvSend d data_str :: trace (init_arduino PC d w))) /\
  (v = PC -> link_open (link d w) = false ->
     outcome (init_arduino PC d w) = Ok true ->
     writes d (trace (send_to_arduino v d data_str w))
       = [test_command d; terminated data_str]).
Proof.
  destruct v, d; execute w;
    change ("0,0,0,0,180,180,0" +:+ newline) with (test_command Hand);
    change ("E90 M0" +:+ newline) with (test_command Face);
    cbn [connects writes];
    (split; [reflexivity|]);
    (split; [intros H H'; try discriminate H; try discriminate H'; reflexivity|]);
    (split; [intros H H' H''; try discriminate H; try discriminate H';
             try discriminate H''; eexists; reflexivity|]);
    intros H H' H''; try discriminate H; try discriminate H';
      try discriminate H''; reflexivity.
Qed.

Lemma send_reconnect_policy_witness :
  send_to_arduino RaspberryPi Face "E85" unplugged
    = Run (Ok (false, NotConnected Face)) unplugged [EvSend Face "E85"].
Proof.
  destruct (send_reconnect_policy RaspberryPi Face "E85" unplugged) as (_ & H & _).
  apply H; reflexivity.
Defined.

(** ** A send, seen from its caller *)

Lemma send_run (v : variant) (d : device) (data_str : string) (w : world) :
  exists ok m w' t,
    send_to_arduino v d data_str w = Run (Ok (ok, m)) w' t /\
    sends d t = [data_str] /\
    sends (other d) t = [] /\
    writes (other d) t = [] /\
    (link_open (link d w) = true -> writes d t = [terminated data_str]) /\
    (forall line, In line (writes d t) ->
       line = test_command d \/ line = terminated data_str) /\
    ~ In EvRelease t /\
    camera w' = camera w /\
    camera_running w' = camera_running w /\
    latest_frame w' = latest_frame w.
Proof.
  destruct v, d; cbv beta iota delta [other]; execute w;
    change ("0,0,0,0,180,180,0" +:+ newline) with (test_command Hand);
    change ("E90 M0" +:+ newline) with (test_command Face);
    eexists _, _, _, _; (split; [reflexivity|]);
    cbn [writes sends In];
    (split; [reflexivity|]); (split; [reflexivity|]); (split; [reflexivity|]);
    (split; [intros H; first [discriminate H | reflexivity]|]);
    (split; [intros line H; intuition (subst; auto)|]);
    (split; [intuition discriminate|]);
    repeat split.
Qed.

(** The same for a command that is not text. *)
Lemma send_without_text_run (v : variant) (d : device) (w : world) :
  exists m w' t,
    send_without_text v d w = Run (Ok (false, m)) w' t /\
    sends d t = [] /\
    sends (other d) t = [] /\
    writes (other d) t = [] /\
    (link_open (link d w) = true ->
       t = [] /\ m = SendError AttributeError /\
       link d w' = match v with RaspberryPi => link d w | PC => None end) /\
    (forall line, In line (writes d t) -> line = test_command d) /\
    ~ In EvRelease t /\
    camera w' = camera w /\
    camera_running w' = camera_running w /\
    latest_frame w' = latest_frame w.
Proof.
  destruct v, d; cbv beta iota delta [other send_without_text init_arduino];
    execute w;
    change ("0,0,0,0,180,180,0" +:+ newline) with (test_command Hand);
    change ("E90 M0" +:+ newline) with (test_command Face);
    eexists _, _, _; (split; [reflexivity|]);
    cbn [writes sends In];
    (split; [reflexivity|]); (split; [reflexivity|]); (split; [reflexivity|]);
    (split; [intros H; first [discriminate H | repeat split]|]);
    (split; [intros line H; intuition (subst; auto)|]);
    (split; [intuition discriminate|]);
    repeat split.
Qed.

(** ** POST /debug/send *)

Lemma debug_target_hand d : debug_target d = Hand -> is_hand (dict_get d "target" (VStr "hand")) = true.
Proof. unfold debug_target. destruct (is_hand _); [reflexivity | discriminate]. Qed.

Lemma debug_target_face d : debug_target d = Face -> is_hand (dict_get d "target" (VStr "hand")) = false.
Proof. unfold debug_target. destruct (is_hand _); [discriminate | reflexivity]. Qed.

Ltac debug_route d :=
  let E := fresh "E" in
  destruct (debug_target d) eqn:E;
  [ rewrite (debug_target_hand d E) | rewrite (debug_target_face d E) ].

(** [debug_send], both servers.  A command text of ASCII characters is
    handed to one send function exactly as the request holds it: no
    parsing, no clamping.  It goes to the hand when the request has no
    "target" or the target "hand", to the face for every other target;
    nothing is handed or written to the other device.  The answer is the
    send's own result under HTTP 200, and on an open link the line
    written is the text with its line terminator, whatever that text
    says. *)
Theorem debug_send_forwards_verbatim
    (v : variant) (d : dict) (data_str : string) (w : world) :
  ascii_text data_str = true ->
  dict_truthy d = true ->
  dict_get d "command" (VStr "") = VStr data_str ->
  (d !! "target" = None -> debug_target d = Hand) /\
  (d !! "target" = Some (VStr "hand") -> debug_target d = Hand) /\
  (forall x, d !! "target" = Some x -> x <> VStr "hand" -> debug_target d = Face) /\
  (exists ok m w' t,
     send_to_arduino v (debug_target d) data_str w = Run (Ok (ok, m)) w' t /\
     debug_send v (BodyObject d) w
       = Run (Ok (StatusMessage (status_of ok) m, 200)) w' t) /\
  sends (debug_target d) (trace (debug_send v (BodyObject d) w)) = [data_str] /\
  sends (other (debug_target d)) (trace (debug_send v (BodyObject d) w)) = [] /\
  writes (other (debug_target d)) (trace (debug_send v (BodyObject d) w)) = [] /\
  (link_open (link (debug_target d) w) = true ->
     writes (debug_target d) (trace (debug_send v (BodyObject d) w))
       = [terminated data_str]).
Proof.
  intros _ Ht Hc.
  split; [| split; [| split]].
  - intros H. unfold debug_target, dict_get. rewrite H. reflexivity.
  - intros H. unfold debug_target, dict_get. rewrite H. reflexivity.
  - intros x H Hx. unfold debug_target, dict_get. rewrite H.
    destruct x as [| | | |s| |]; try reflexivity.
    cbn [is_hand]. destruct (String.eqb s "hand") eqn:E; [|reflexivity].
    apply String.eqb_eq in E. congruence.
  - destruct (send_run v (debug_target d) data_str w)
      as (ok & m & w' & t & Hs & Hsd & Ho & Hwo & Hw & _).
    assert (Hrun : debug_send v (BodyObject d) w
                   = Run (Ok (StatusMessage (status_of ok) m, 200)) w' t).
    { unfold debug_send. run_py_open. rewrite Ht, Hc. cbv beta iota delta [send_value].
      revert Hs. debug_route d; intros ->; run_py_open; rewrite app_nil_r; reflexivity. }
    split; [eexists _, _, _, _; split; [exact Hs | exact Hrun]|].
    rewrite Hrun. cbn [outcome trace]. repeat split; assumption.
Qed.

Lemma debug_send_forwards_verbatim_witness :
  writes Hand (trace (debug_send RaspberryPi (BodyObject overdrive) plugged))
    = [terminated "999,0,0,0,0,0,0"].
Proof.
  destruct (debug_send_forwards_verbatim RaspberryPi overdrive "999,0,0,0,0,0,0" plugged)
    as (Hr & _ & _ & _ & _ & _ & _ & Hw).
  - reflexivity.
  - vm_compute. reflexivity.
  - vm_compute. reflexivity.
  - rewrite (Hr ltac:(vm_compute; reflexivity)) in Hw. apply Hw. reflexivity.
Defined.



(** ** The three mutating endpoints, seen from outside *)

Ltac newline_lines :=
  let line := fresh "line" in
  let H := fresh "H" in
  intros line H; cbn [writes In] in H;
  repeat (destruct H as [<- | H]; [first [apply endswith_newline_terminated | reflexivity]|]);
  destruct H.

Lemma handler_run (v : variant) (ep : endpoint) (req : body) (w : world) :
  exists resp w' t,
    handler v ep req w = Run (Ok resp) w' t /\
    (http_code resp = 200 \/ http_code resp = 400 \/ http_code resp = 503) /\
    fst resp <> FlaskError /\
    (http_code resp <> 200 -> sends (target ep) t = []) /\
    (http_code resp = 503 -> v = RaspberryPi /\ link_open (link (target ep) w) = false) /\
    (http_code resp = 200 -> valid v ep req = true) /\
    List.filter (on_device (other (target ep))) t = [] /\
    ~ In EvRelease t /\
    (forall line, In line (writes (target ep) t) -> endswith_newline line = true) /\
    link (other (target ep)) w' = link (other (target ep)) w /\
    camera w' = camera w /\
    camera_running w' = camera_running w /\
    latest_frame w' = latest_frame w.
Proof.
  destruct v, ep;
    cbv beta iota delta [handler target valid hand_angles face_command expressions other];
    execute w;
    eexists _, _, _; (split; [reflexivity|]);
    cbn [sends List.filter on_device In];
    (split; [tauto|]);
    (split; [discriminate|]);
    (split; [intros H; first [reflexivity | exfalso; apply H; reflexivity]|]);
    (split; [intros H; first [discriminate H | split; reflexivity]|]);
    (split; [intros H; first [discriminate H | reflexivity]|]);
    (split; [reflexivity|]);
    (split; [intuition discriminate|]);
    (split; [newline_lines|]);
    repeat split.
Qed.

Lemma writes_app d t1 t2 :
  writes d (t1 ++ t2)%list = (writes d t1 ++ writes d t2)%list.
Proof.
  induction t1 as [|ev t1 IH]; [reflexivity|].
  destruct ev as [d' ?|d'|d'|d'|d'|d' ?|d'|d'|d'|]; cbn; try exact IH.
  destruct d, d'; cbn; rewrite ?IH; reflexivity.
Qed.

Lemma quiet_writes d t : List.filter (on_device d) t = [] -> writes d t = [].
Proof.
  induction t as [|ev t IH]; [reflexivity|].
  destruct ev as [d' ?|d'|d'|d'|d'|d' ?|d'|d'|d'|]; cbn; try exact IH;
    destruct d, d'; cbn; try exact IH; discriminate.
Qed.

(** The lines of a connection attempt. *)
Lemma init_lines (v : variant) (d : device) (w : world) :
  exists b w' t,
    init_arduino v d w = Run (Ok b) w' t /\
    link (other d) w' = link (other d) w /\
    writes (other d) t = [] /\
    (forall line, In line (writes d t) -> line = test_command d).
Proof.
  destruct v, d; cbv beta iota delta [other]; execute w;
    change ("0,0,0,0,180,180,0" +:+ newline) with (test_command Hand);
    change ("E90 M0" +:+ newline) with (test_command Face);
    eexists _, _, _; (split; [reflexivity|]); cbn [writes In];
    (split; [reflexivity|]);
    (split; [reflexivity|]); intros line H; intuition (subst; auto).
Qed.

Ltac lines_at Hi dev W :=
  let E := fresh "E" in
  let H := fresh "Hl" in
  let K := fresh "Hk" in
  let w' := fresh "w" in
  destruct (Hi dev W) as (? & w' & ? & E & K & H);
  cbv beta iota delta [init_arduino] in E; rewrite E; clear E;
  destruct w'; cbv beta iota delta [link other hand_arduino face_arduino] in K;
  subst; run_py_open.

Lemma status_lines (v : variant) (w : world) d line :
  In line (writes d (trace (get_status v w))) -> endswith_newline line = true.
Proof.
  assert (Hi : forall dev w0, exists b w' t,
             init_arduino v dev w0 = Run (Ok b) w' t /\
             link (other dev) w' = link (other dev) w0 /\
             forall line, In line (writes d t) -> endswith_newline line = true).
  { intros dev w0. destruct (init_lines v dev w0) as (b & w' & t & E & Hk & Ho & Hl).
    exists b, w', t. split; [exact E|]. split; [exact Hk|]. intros l Hin.
    destruct d, dev; cbn [other] in Ho;
      first [ rewrite Ho in Hin; destruct Hin
            | rewrite (Hl l Hin); reflexivity ]. }
  destruct w as [ha fa cam running fr orc clk].
  destruct v;
    cbv beta iota delta [get_status Pi.get_status Volt.get_status];
    run_py_open.
  all: destruct ha as [[[|]]|], fa as [[[|]]|]; run_py_open.
  all: repeat match goal with
         | |- context [Pi.init_hand_arduino ?W] => lines_at Hi Hand W
         | |- context [Pi.init_face_arduino ?W] => lines_at Hi Face W
         | |- context [Volt.init_hand_arduino ?W] => lines_at Hi Hand W
         | |- context [Volt.init_face_arduino ?W] => lines_at Hi Face W
         end.
  all: rewrite ?writes_app; cbn [writes app]; rewrite ?app_nil_r;
       intros Hin; repeat (apply in_app_or in Hin; destruct Hin as [Hin|Hin]);
       try contradiction; eauto.
Qed.

Lemma look_lines (req : body) (w : world) d line :
  In line (writes d (trace (Volt.face_look req w))) -> endswith_newline line = true.
Proof.
  unfold_handlers. destruct w as [ha fa cam running fr orc clk]. run_py.
  repeat step; destruct d; revert line; newline_lines.
Qed.

Lemma debug_lines (v : variant) (req : body) (w : world) d line :
  In line (writes d (trace (debug_send v req w))) -> endswith_newline line = true.
Proof.
  assert (Hsv : forall dev c, exists ok m w' t,
             send_value v dev c w = Run (Ok (ok, m)) w' t /\
             forall l, In l (writes d t) -> endswith_newline l = true).
  { intros dev c.
    assert (Hl : forall t l,
               writes (other dev) t = [] ->
               (forall l', In l' (writes dev t) ->
                           endswith_newline l' = true) ->
               In l (writes d t) -> endswith_newline l = true).
    { intros t l Ho Hd Hin. destruct d, dev; cbn [other] in Ho;
        first [ rewrite Ho in Hin; destruct Hin | exact (Hd l Hin) ]. }
    destruct c; cbn [send_value];
      try (destruct (send_without_text_run v dev w)
             as (m & w' & t & -> & _ & _ & Ho & _ & Hd & _);
           eexists _, _, _, _; split; [reflexivity|];
           intros l; apply Hl; [exact Ho|];
           intros l' Hin; rewrite (Hd l' Hin); apply endswith_newline_test_command).
    destruct (send_run v dev s w)
      as (ok & m & w' & t & -> & _ & _ & Ho & _ & Hd & _).
    eexists _, _, _, _; split; [reflexivity|].
    intros l; apply Hl; [exact Ho|].
    intros l' Hin. destruct (Hd l' Hin) as [-> | ->];
      [apply endswith_newline_test_command | apply endswith_newline_terminated]. }
  destruct req as [code| |dd]; unfold debug_send; run_py_open; try contradiction.
  destruct (dict_truthy dd); run_py_open; try contradiction.
  destruct (is_hand _);
    match goal with
    | |- context [send_value v ?dev ?c w] =>
        destruct (Hsv dev c) as (ok & m & w' & t & -> & Hl)
    end; run_py_open; rewrite ?app_nil_r; apply Hl.
Qed.

(** Every route of both servers: whatever the request and whatever the
    devices do, each line written to a serial link ends with a line
    terminator. *)
Theorem written_lines_are_terminated
    (v : variant) (r : request) (w : world) (d : device) (line : string) :
  In line (writes d (trace (route v r w))) -> endswith_newline line = true.
Proof.
  destruct r as [ep req| | |req|req]; cbn [route].
  - destruct (handler_run v ep req w)
      as (resp & w' & t & -> & _ & _ & _ & _ & _ & Hq & _ & Hl & _).
    cbn [trace]. apply quiet_writes in Hq.
    destruct d, ep; cbn [target other] in *;
      first [ rewrite Hq; intros [] | apply Hl ].
  - destruct v; execute w; intros [].
  - apply status_lines.
  - apply debug_lines.
  - destruct v; [intros [] | apply look_lines].
Qed.

Lemma written_lines_are_terminated_witness :
  endswith_newline (terminated "999,0,0,0,0,0,0") = true.
Proof.
  apply (written_lines_are_terminated RaspberryPi
           (DebugSend (BodyObject overdrive)) plugged Hand).
  vm_compute. left. reflexivity.
Defined.

(** POST /hand, /face and /face_expression, both servers.  No exception
    leaves the handler: the answer is 200, 400 or 503, and 503 only comes
    from the connection gate of the Pi server, on a link that was not
    open.  Unless the answer is 200 no command was handed to the link.
    The request makes no call on the other device or on the camera, and
    leaves the other link and the camera globals as they were. *)
Theorem handlers_never_fault (v : variant) (ep : endpoint) (req : body) (w : world) :
  exists resp,
    outcome (handler v ep req w) = Ok resp /\
    (http_code resp = 200 \/ http_code resp = 400 \/ http_code resp = 503) /\
    (http_code resp = 503 -> v = RaspberryPi /\ link_open (link (target ep) w) = false) /\
    (http_code resp = 200 -> valid v ep req = true) /\
    (http_code resp <> 200 -> sends (target ep) (trace (handler v ep req w)) = []) /\
    List.filter (on_device (other (target ep))) (trace (handler v ep req w)) = [] /\
    ~ In EvRelease (trace (handler v ep req w)) /\
    link (other (target ep)) (final (handler v ep req w)) = link (other (target ep)) w /\
    camera (final (handler v ep req w)) = camera w /\
    camera_running (final (handler v ep req w)) = camera_running w /\
    latest_frame (final (handler v ep req w)) = latest_frame w.
Proof.
  destruct (handler_run v ep req w)
    as (resp & w' & t & -> & Hc & _ & Hs & H503 & H200 & Hq & Hr & _ & Ho & Hcam & Hrun & Hfr).
  exists resp. cbn [outcome trace final]. repeat split; try assumption.
  - apply H503; assumption.
  - apply H503; assumption.
Qed.

Lemma handlers_never_fault_witness :
  exists resp,
    outcome (handler RaspberryPi PostHand (BodyObject wrist_30) unplugged) = Ok resp /\
    http_code resp = 503 /\
    sends Hand (trace (handler RaspberryPi PostHand (BodyObject wrist_30) unplugged)) = [].
Proof.
  destruct (handlers_never_fault RaspberryPi PostHand (BodyObject wrist_30) unplugged)
    as (resp & E & _ & _ & _ & Hs & _).
  exists resp. split; [exact E|].
  assert (Hc : http_code resp = 503) by (vm_compute in E; injection E as <-; reflexivity).
  split; [exact Hc|]. apply Hs. rewrite Hc. discriminate.
Defined.

(** ** The client *)

(** [ConnectionManager.send_command] and POST /hand, /face or
    /face_expression, each client with its own server.  The client
    reports success exactly when the answer of the server arrives with
    HTTP status 200, and then passes the server's document on; the
    request was then valid, but the document may still carry status
    "error": on the PC server this is the answer to every valid request
    whose device is unavailable.  When the answer arrives and the client
    reports failure, no command was handed to the device link.  When
    [requests.post] raises instead (time limit, connection, anything
    else) the client reports failure with 408, 503 or 500 whatever the
    handler did: such a report says nothing about the device. *)
Theorem client_success_is_http_200
    (v : variant) (ep : endpoint) (req : body) (w : world) (a : arrival) :
  success (commanded v ep req w a)
    = match a with
      | Arrived => (http_code (flask (handler v ep req w)) =? 200)%Z
      | _ => false
      end /\
  (a = Arrived ->
     status_code (commanded v ep req w a) = http_code (flask (handler v ep req w))) /\
  (success (commanded v ep req w a) = true ->
     a = Arrived /\
     data (commanded v ep req w a) = Some (Json (fst (flask (handler v ep req w)))) /\
     valid v ep req = true) /\
  (a = Arrived -> success (commanded v ep req w a) = false ->
     data (commanded v ep req w a) = None /\
     sends (target ep) (trace (handler v ep req w)) = []) /\
  (a <> Arrived ->
     data (commanded v ep req w a) = None /\
     status_code (commanded v ep req w a)
       = match a with
         | TimeLimitPassed => 408
         | ConnectionFailed => 503
         | _ => 500
         end) /\
  (a = Arrived -> v = PC -> valid v ep req = true ->
     none_or_closed (link (target ep) w) = true ->
     outcome (init_arduino v (target ep) w) = Ok false ->
     success (commanded v ep req w a) = true /\
     reply_status (flask (handler v ep req w)) = Some "error").
Proof.
  assert (Harrived :
    success (commanded v ep req w Arrived)
      = (http_code (flask (handler v ep req w)) =? 200)%Z /\
    status_code (commanded v ep req w Arrived) = http_code (flask (handler v ep req w)) /\
    (success (commanded v ep req w Arrived) = true ->
       data (commanded v ep req w Arrived)
         = Some (Json (fst (flask (handler v ep req w)))) /\
       valid v ep req = true) /\
    (success (commanded v ep req w Arrived) = false ->
       data (commanded v ep req w Arrived) = None /\
       sends (target ep) (trace (handler v ep req w)) = [])).
  { unfold commanded; cbn [posted_as];
      destruct (handler_run v ep req w)
        as (resp & w' & t & -> & Hc & Hf & Hs & _ & H200 & _);
      cbv beta iota delta [flask outcome trace]; destruct resp as [doc code];
      cbn [http_code fst snd] in *; unfold send_command, response_json;
      cbn [http_code fst snd].
    split; [| split; [| split]].
    - destruct v; destruct (code =? 200)%Z; destruct doc; try reflexivity;
        exfalso; apply Hf; reflexivity.
    - destruct v; destruct (code =? 200)%Z eqn:E; destruct doc;
        cbn [status_code]; try reflexivity;
        first [ apply Z.eqb_eq in E; congruence | exfalso; apply Hf; reflexivity ].
    - destruct (code =? 200)%Z eqn:E.
      + apply Z.eqb_eq in E. specialize (H200 E).
        destruct v; destruct doc; cbn [success data]; intros _;
          first [ split; [reflexivity | exact H200] | exfalso; apply Hf; reflexivity ].
      + destruct v; cbn [success]; discriminate.
    - destruct (code =? 200)%Z eqn:E.
      + destruct v; destruct doc; cbn [success]; intros H;
          first [ discriminate H | exfalso; apply Hf; reflexivity ].
      + apply Z.eqb_neq in E. destruct v; cbn [success data]; intros _;
          (split; [reflexivity | exact (Hs E)]). }
  destruct Harrived as (H1 & H2 & H3 & H4).
  split; [| split; [| split; [| split; [| split]]]].
  - destruct a; [exact H1 | reflexivity ..].
  - intros ->. exact H2.
  - destruct a; [intros H; split; [reflexivity | exact (H3 H)] | discriminate ..].
  - intros ->. exact H4.
  - destruct a; [congruence | intros _; split; reflexivity ..].
  - clear H1 H2 H3 H4. intros -> ->. unfold commanded; cbn [posted_as]. revert w.
    destruct ep;
      cbv beta iota delta [handler target valid hand_angles face_command expressions];
      intros w; execute_pruning w; intros Hv Hn Hi;
      first [ discriminate Hv | discriminate Hn | discriminate Hi
            | split; reflexivity ].
Qed.

Lemma client_success_is_http_200_witness :
  success (commanded PC PostHand (BodyObject wrist_30) unplugged Arrived) = true /\
  reply_status (flask (handler PC PostHand (BodyObject wrist_30) unplugged)) = Some "error".
Proof.
  destruct (client_success_is_http_200 PC PostHand (BodyObject wrist_30) unplugged Arrived)
    as (_ & _ & _ & _ & _ & H).
  apply H; vm_compute; reflexivity.
Defined.

(** A failure that [send_command] reports without an answer of the server
    says nothing about the device: here the time limit passes while the
    handler reconnects, and the command is handed over and written all
    the same. *)
Lemma failure_without_answer :
  success (commanded PC PostHand (BodyObject wrist_30) replugged TimeLimitPassed) = false /\
  status_code (commanded PC PostHand (BodyObject wrist_30) replugged TimeLimitPassed) = 408 /\
  sends Hand (trace (handler PC PostHand (BodyObject wrist_30) replugged))
    = ["30,0,0,0,180,180,0"] /\
  writes Hand (trace (handler PC PostHand (BodyObject wrist_30) replugged))
    = ["0,0,0,0,180,180,0" +:+ newline; "30,0,0,0,180,180,0" +:+ newline].
Proof. repeat split; vm_compute; reflexivity. Qed.

(** ** Numbers written as text *)

Lemma digits_cons c k s seen acc :
  digit_of c = Some k -> digits (String c s) seen acc = digits s true (10 * acc + k).
Proof. intros H. cbn [digits]. rewrite H. reflexivity. Qed.

Lemma digits_acc l p :
  digits (NilEmpty.string_of_uint l) true (Z.pos p) = Some (Z.pos (Pos.of_uint_acc l p)).
Proof.
  revert p. induction l; intros p; cbn [NilEmpty.string_of_uint Pos.of_uint_acc];
    [reflexivity | ..];
    erewrite digits_cons by reflexivity;
    match goal with
    | |- digits _ true ?a = Some (Z.pos (Pos.of_uint_acc _ ?q)) =>
        replace a with (Z.pos q) by (cbn; lia)
    end; apply IHl.
Qed.

Lemma digits_uint l :
  digits (NilEmpty.string_of_uint l) true 0 = Some (Z.of_N (Pos.of_uint l)).
Proof.
  induction l; cbn [NilEmpty.string_of_uint Pos.of_uint]; [reflexivity | ..];
    erewrite digits_cons by reflexivity;
    first [ exact IHl | apply digits_acc ].
Qed.

Lemma digits_start l b :
  l <> Decimal.Nil ->
  digits (NilEmpty.string_of_uint l) b 0 = digits (NilEmpty.string_of_uint l) true 0.
Proof.
  intros H. destruct l; [congruence | ..];
    cbn [NilEmpty.string_of_uint]; erewrite !digits_cons by reflexivity; reflexivity.
Qed.

Lemma digits_to_uint p b :
  digits (NilZero.string_of_uint (Pos.to_uint p)) b 0 = Some (Z.pos p).
Proof.
  pose proof (DecimalPos.Unsigned.to_uint_nonnil p) as Hn.
  pose proof (DecimalPos.Unsigned.of_to p) as Ho.
  replace (NilZero.string_of_uint (Pos.to_uint p))
    with (NilEmpty.string_of_uint (Pos.to_uint p))
    by (destruct (Pos.to_uint p); [congruence | reflexivity ..]).
  rewrite digits_start by exact Hn. rewrite digits_uint, Ho. reflexivity.
Qed.

Lemma lstrip_solid s : all_chars solid s = true -> lstrip s = s.
Proof.
  destruct s as [|c s]; [reflexivity|]. cbn. intros [Hc _]%andb_prop.
  unfold solid in Hc. apply negb_true_iff in Hc. rewrite Hc. reflexivity.
Qed.

Lemma strip_solid s : all_chars solid s = true -> strip s = s.
Proof. intros H. unfold strip. rewrite (lstrip_solid s H). apply rstrip_solid, H. Qed.

Lemma uint_digit_first l c s :
  NilEmpty.string_of_uint l = String c s -> c <> "-"%char /\ c <> "+"%char.
Proof. destruct l; cbn; intros [= <- _]; split; discriminate. Qed.

(** [int(str(z)) == z] *)
Lemma int_str z : int (VStr (str z)) = Ok z.
Proof.
  unfold int, int_of_str. rewrite (strip_solid _ (str_solid z)).
  unfold str. destruct z as [|p|p]; cbn [Z.to_int NilZero.string_of_int].
  - reflexivity.
  - pose proof (digits_to_uint p false) as Hd.
    destruct (NilZero.string_of_uint (Pos.to_uint p)) as [|c s] eqn:E.
    + exact (match uint_nonempty _ E with end).
    + assert (Hc : c <> "-"%char /\ c <> "+"%char).
      { pose proof (DecimalPos.Unsigned.to_uint_nonnil p) as Hn.
        destruct (Pos.to_uint p) eqn:Eu; try congruence;
          cbn in E; injection E as <- _; split; discriminate. }
      destruct Hc as [Hm Hp].
      destruct c as [[|] [|] [|] [|] [|] [|] [|] [|]];
        try (rewrite Hd; reflexivity); congruence.
  - rewrite (digits_to_uint p false). reflexivity.
Qed.

Lemma int_get_insert (d : dict) k k' z default :
  int (dict_get (<[k := VStr (str z)]> d) k' default)
  = int (dict_get (<[k := VInt z]> d) k' default).
Proof.
  unfold dict_get. rewrite !lookup_insert.
  destruct (decide (k = k')); [|reflexivity]. apply int_str.
Qed.

Lemma dict_truthy_insert (d : dict) k x : dict_truthy (<[k := x]> d) = true.
Proof. apply (dict_truthy_lookup _ k x), lookup_insert_eq. Qed.

Lemma hand_angles_text v (d : dict) k z :
  hand_angles v (<[k := VStr (str z)]> d) = hand_angles v (<[k := VInt z]> d).
Proof.
  destruct v; unfold hand_angles, Pi.hand_angles, Volt.hand_angles;
    rewrite !(int_get_insert d k); reflexivity.
Qed.

Lemma face_command_text v (d : dict) k z :
  face_command v (<[k := VStr (str z)]> d) = face_command v (<[k := VInt z]> d).
Proof.
  destruct v; unfold face_command, Pi.face_command, Volt.face_command;
    rewrite !lookup_insert;
    destruct (decide (k = "eyes")), (decide (k = "mouth"));
    rewrite ?int_str; reflexivity.
Qed.

(** [int()] in the handlers: a number written as decimal text (of at
    most 4300 characters, the longest that CPython converts) is read as
    that number, [int(str(z)) == z].  Hence a request that gives a hand
    channel, the eyes or the mouth as such text is treated exactly as the
    request that gives it as a JSON integer: same answer, same calls,
    same state, in both servers. *)
Theorem numbers_as_text (v : variant) (d : dict) (k : string) (z : Z) (w : world) :
  (String.length (str z) <=? int_max_str_digits)%nat = true ->
  int (VStr (str z)) = Ok z /\
  hand_angles v (<[k := VStr (str z)]> d) = hand_angles v (<[k := VInt z]> d) /\
  face_command v (<[k := VStr (str z)]> d) = face_command v (<[k := VInt z]> d) /\
  set_hand v (BodyObject (<[k := VStr (str z)]> d)) w
    = set_hand v (BodyObject (<[k := VInt z]> d)) w /\
  set_face v (BodyObject (<[k := VStr (str z)]> d)) w
    = set_face v (BodyObject (<[k := VInt z]> d)) w.
Proof.
  intros _.
  split; [apply int_str|].
  split; [apply hand_angles_text|].
  split; [apply face_command_text|].
  pose proof (hand_angles_text v d k z) as Hh.
  pose proof (face_command_text v d k z) as Hf.
  pose proof (dict_truthy_insert d k (VStr (str z))) as Ht1.
  pose proof (dict_truthy_insert d k (VInt z)) as Ht2.
  split.
  - destruct v; cbn [hand_angles] in Hh; unfold set_hand, Pi.set_hand, Volt.set_hand;
      run_py_open; rewrite Ht1, Ht2, Hh; reflexivity.
  - destruct v; cbn [face_command] in Hf; unfold set_face, Pi.set_face, Volt.set_face;
      run_py_open; rewrite Ht1, Ht2, Hf; reflexivity.
Qed.

Lemma numbers_as_text_witness :
  set_hand PC (BodyObject wrist_text) plugged = set_hand PC (BodyObject wrist_45) plugged.
Proof.
  destruct (numbers_as_text PC ∅ "wrist" 45 plugged) as (_ & _ & _ & H & _).
  - reflexivity.
  - exact H.
Defined.

(** ** Expressions *)

Lemma lower_idempotent s : lower (lower s) = lower s.
Proof.
  induction s as [|c s IH]; [reflexivity|]. cbn [lower]. rewrite IH. f_equal.
  destruct c as [[|] [|] [|] [|] [|] [|] [|] [|]]; reflexivity.
Qed.

(** The table of [set_face_expression]: the two servers hold the same
    seven entries, every entry lies within the limits of the eyes
    (70..110) and of the mouth (0..80), and the names are lower case.  The
    name in the request is matched without regard to case: two requests
    whose names differ only in case are the same request; and a name of
    the table is answered 200 with, as the only command handed to the face
    link, "E<eyes> M<mouth>" of its entry. *)
Theorem expression_table (v : variant) (d : dict) (s : string) (w : world) :
  Pi.expressions = Volt.expressions /\
  (forall name eyes mouth,
     expressions v !! name = Some (eyes, mouth) ->
     70 <= eyes <= 110 /\ 0 <= mouth <= 80 /\ lower name = name) /\
  (d !! "expression" = Some (VStr s) ->
     set_face_expression v (BodyObject d) w
       = set_face_expression v (BodyObject (<["expression" := VStr (lower s)]> d)) w) /\
  (forall eyes mouth,
     d !! "expression" = Some (VStr s) ->
     expressions v !! lower s = Some (eyes, mouth) ->
     sends Face (trace (set_face_expression v (BodyObject d) w))
       = ["E" +:+ str eyes +:+ " M" +:+ str mouth] \/
     (v = RaspberryPi /\ link_open (face_arduino w) = false /\
      outcome (set_face_expression v (BodyObject d) w)
        = Ok (StatusMessage "error" (NotConnected Face), 503))).
Proof.
  split; [reflexivity|]. split; [| split].
  - intros name eyes mouth.
    destruct v; cbn [expressions]; unfold Pi.expressions, Volt.expressions;
      repeat (rewrite lookup_insert_Some;
              intros [[<- [= <- <-]] | [_ H]];
              [vm_compute; intuition congruence | revert H]);
      rewrite lookup_empty; discriminate.
  - intros Hd.
    assert (Ht : dict_truthy d = true) by (eapply dict_truthy_lookup; exact Hd).
    pose proof (dict_truthy_insert d "expression" (VStr (lower s))) as Ht'.
    assert (Hg : dict_get d "expression" (VStr "") = VStr s)
      by (unfold dict_get; rewrite Hd; reflexivity).
    assert (Hg' : dict_get (<["expression" := VStr (lower s)]> d) "expression" (VStr "")
                  = VStr (lower s))
      by (unfold dict_get; rewrite lookup_insert_eq; reflexivity).
    destruct v;
      unfold set_face_expression, Pi.set_face_expression, Volt.set_face_expression;
      run_py_open; rewrite Ht, Ht', Hg, Hg'; cbn [value_lower];
      rewrite lower_idempotent; reflexivity.
  - intros eyes mouth Hd He.
    assert (Ht : dict_truthy d = true) by (eapply dict_truthy_lookup; exact Hd).
    assert (Hg : dict_get d "expression" (VStr "") = VStr s)
      by (unfold dict_get; rewrite Hd; reflexivity).
    destruct v; cbn [expressions] in He;
      unfold_handlers; destruct w as [ha fa cam running fr orc clk]; run_py;
      rewrite ?Ht, ?Hg; cbn [value_lower]; run_py; rewrite ?He; run_py;
      repeat step; rewrite ?Ht, ?Hg; cbn [value_lower]; run_py; rewrite ?He; run_py;
      repeat step;
      first [ left; reflexivity | right; repeat split; reflexivity ].
Qed.

Lemma expression_table_witness :
  set_face_expression PC (BodyObject shouted) plugged
    = set_face_expression PC (BodyObject (<["expression" := VStr "happy"]> shouted)) plugged.
Proof.
  destruct (expression_table PC shouted "HAPPY" plugged) as (_ & _ & H & _).
  apply H. reflexivity.
Defined.

(** ** POST /face_look without its inputs *)

Lemma int_raises x e : int x = Raise e -> forall code, e <> HTTPException code.
Proof.
  destruct x as [| | |f|s| |]; cbn [int]; try discriminate;
    try (intros [= <-]; discriminate).
  - destruct f; cbn; try discriminate; intros [= <-]; discriminate.
  - destruct (int_of_str s); [discriminate|]. intros [= <-]; discriminate.
Qed.

Lemma flask_raise (e : exn) w t :
  (forall code, e <> HTTPException code) ->
  flask (Run (Raise e) w t) = (FlaskError, 500).
Proof.
  intros H. unfold flask; cbn [outcome]. destruct e; try reflexivity.
  exfalso. exact (H code eq_refl).
Qed.

Lemma centre_angles : Volt.face_to_servo 320 240 640 480 = Ok (90, 80).
Proof. vm_compute. reflexivity. Qed.

(** [face_look] has no exception handler.  A coordinate that [int()]
    rejects (null, a list, text that is not a number, an infinite or NaN
    float) leaves the view function as an exception before anything is
    called or changed, and Flask answers 500, where POST /hand answers
    400 to the same value in a channel; a body that cannot be parsed is
    answered with werkzeug's own status. *)
Theorem face_look_faults (d : dict) (x : value) (e : exn) (w : world) :
  int x = Raise e ->
  (d !! "x" = Some x ->
     Volt.face_look (BodyObject d) w = Run (Raise e) w [] /\
     flask (Volt.face_look (BodyObject d) w) = (FlaskError, 500)) /\
  (forall z, d !! "x" = Some (VInt z) -> d !! "y" = Some x ->
     Volt.face_look (BodyObject d) w = Run (Raise e) w [] /\
     flask (Volt.face_look (BodyObject d) w) = (FlaskError, 500)) /\
  (d !! "wrist" = Some x ->
     outcome (Volt.set_hand (BodyObject d) w)
       = Ok (StatusMessage "error" (ExceptionText e), 400) /\
     trace (Volt.set_hand (BodyObject d) w) = []) /\
  (forall code,
     Volt.face_look (BodyError code) w = Run (Raise (HTTPException code)) w [] /\
     flask (Volt.face_look (BodyError code) w) = (FlaskError, code)).
Proof.
  intros Hx. pose proof (int_raises x e Hx) as He.
  split; [| split; [| split]].
  - intros Hd.
    assert (Ht : dict_truthy d = true) by (eapply dict_truthy_lookup; exact Hd).
    assert (Hr : Volt.face_look (BodyObject d) w = Run (Raise e) w []).
    { unfold Volt.face_look, Volt.json_or_empty. run_py. rewrite Ht.
      unfold dict_get. rewrite Hd, Hx. destruct w; reflexivity. }
    rewrite Hr. split; [reflexivity | apply flask_raise, He].
  - intros z Hdx Hdy.
    assert (Ht : dict_truthy d = true) by (eapply dict_truthy_lookup; exact Hdx).
    assert (Hr : Volt.face_look (BodyObject d) w = Run (Raise e) w []).
    { unfold Volt.face_look, Volt.json_or_empty. run_py. rewrite Ht.
      unfold dict_get. rewrite Hdx, Hdy. cbn [int]. run_py. rewrite Hx.
      destruct w; reflexivity. }
    rewrite Hr. split; [reflexivity | apply flask_raise, He].
  - intros Hd.
    assert (Ht : dict_truthy d = true) by (eapply dict_truthy_lookup; exact Hd).
    assert (Ha : Volt.hand_angles d = Raise e).
    { unfold Volt.hand_angles. unfold dict_get at 1. rewrite Hd, Hx. reflexivity. }
    unfold Volt.set_hand. run_py. rewrite Ht. run_py. rewrite Ha. split; reflexivity.
  - intros code. unfold Volt.face_look. run_py. destruct w; split; reflexivity.
Qed.

Lemma face_look_faults_witness :
  Volt.face_look (BodyObject x_null) plugged = Run (Raise TypeError) plugged [] /\
  flask (Volt.face_look (BodyObject x_null) plugged) = (FlaskError, 500).
Proof.
  destruct (face_look_faults x_null VNone TypeError plugged eq_refl) as (H & _).
  apply H. reflexivity.
Defined.

(** [face_look] without coordinates.  A request with no body object, an
    empty object, or an object without "x" and "y" looks at the centre of
    the frame: it runs exactly as the request {x: 320, y: 240}, whose
    angles are pan 90 and tilt 80; a missing "x" alone is 320, a missing
    "y" alone 240. *)
Theorem face_look_defaults (d : dict) (w : world) :
  Volt.face_look BodyNull w = Volt.face_look (BodyObject centre) w /\
  (d !! "x" = None -> d !! "y" = None ->
     Volt.face_look (BodyObject d) w = Volt.face_look (BodyObject centre) w) /\
  (forall y, d !! "x" = None -> d !! "y" = Some y ->
     Volt.face_look (BodyObject d) w
       = Volt.face_look (BodyObject (<["x" := VInt 320]> d)) w) /\
  (forall x, d !! "x" = Some x -> d !! "y" = None ->
     Volt.face_look (BodyObject d) w
       = Volt.face_look (BodyObject (<["y" := VInt 240]> d)) w) /\
  sends Face (trace (Volt.face_look (BodyObject centre) w)) = [look_line 90 80] /\
  exists s m,
    outcome (Volt.face_look (BodyObject centre) w) = Ok (LookReply s 90 80 m, 200).
Proof.
  assert (Hc : dict_truthy centre = true) by (vm_compute; reflexivity).
  assert (Hcx : dict_get centre "x" (VInt 320) = VInt 320) by (vm_compute; reflexivity).
  assert (Hcy : dict_get centre "y" (VInt 240) = VInt 240) by (vm_compute; reflexivity).
  assert (He : forall k z, dict_get (∅ : dict) k (VInt z) = VInt z).
  { intros k z. unfold dict_get. rewrite lookup_empty. reflexivity. }
  split; [| split; [| split; [| split; [| split]]]].
  - unfold Volt.face_look, Volt.json_or_empty. run_py_open.
    rewrite Hc, Hcx, Hcy, !He. reflexivity.
  - intros Hx Hy. unfold Volt.face_look, Volt.json_or_empty. run_py_open.
    rewrite Hc, Hcx, Hcy.
    destruct (dict_truthy d); rewrite ?He; unfold dict_get; rewrite ?Hx, ?Hy; reflexivity.
  - intros y Hx Hy.
    assert (Ht : dict_truthy d = true) by (eapply dict_truthy_lookup; exact Hy).
    pose proof (dict_truthy_insert d "x" (VInt 320)) as Ht'.
    unfold Volt.face_look, Volt.json_or_empty. run_py_open. rewrite Ht, Ht'.
    unfold dict_get. rewrite lookup_insert_eq, lookup_insert_ne, Hx, Hy by discriminate.
    reflexivity.
  - intros x Hx Hy.
    assert (Ht : dict_truthy d = true) by (eapply dict_truthy_lookup; exact Hx).
    pose proof (dict_truthy_insert d "y" (VInt 240)) as Ht'.
    unfold Volt.face_look, Volt.json_or_empty. run_py_open. rewrite Ht, Ht'.
    unfold dict_get. rewrite lookup_insert_eq, lookup_insert_ne, Hx, Hy by discriminate.
    reflexivity.
  - unfold_handlers. destruct w as [ha fa cam running fr orc clk]. run_py.
    cbv beta iota delta [Volt.json_or_empty]. rewrite Hc, Hcx. cbn [int]. run_py.
    rewrite Hcy. cbn [int]. run_py. rewrite centre_angles. run_py.
    repeat step; reflexivity.
  - unfold_handlers. destruct w as [ha fa cam running fr orc clk]. run_py.
    cbv beta iota delta [Volt.json_or_empty]. rewrite Hc, Hcx. cbn [int]. run_py.
    rewrite Hcy. cbn [int]. run_py. rewrite centre_angles. run_py.
    repeat step; eexists _, _; reflexivity.
Qed.

Lemma face_look_defaults_witness :
  Volt.face_look (BodyObject no_request) plugged = Volt.face_look (BodyObject centre) plugged.
Proof.
  destruct (face_look_defaults no_request plugged) as (_ & H & _).
  apply H; reflexivity.
Defined.

(** ** The camera endpoints *)

(** [camera_snapshot] and [stop_camera] together, both servers.  A
    snapshot makes no call, changes nothing and never faults; it is
    refused with 503 exactly when the running flag is false or the frame
    slot is empty, and an image it serves is the encoding of the frame in
    the slot, whether or not there is a camera handle.  After POST
    /camera/stop a snapshot is always refused with 503, although the last
    frame is still in the slot. *)
Theorem snapshot_after_stop
    (imencode : frame -> result (bool * list Byte.byte)) (v : variant) (w : world) :
  (exists r,
     camera_snapshot imencode w = Run (Ok r) w [] /\
     (snd r = 503 <-> camera_running w = false \/ latest_frame w = None) /\
     (forall jpeg, fst r = Image jpeg ->
        snd r = 200 /\
        exists fr, latest_frame w = Some fr /\ imencode fr = Ok (true, jpeg))) /\
  camera_snapshot imencode (final (stop_camera v w))
    = Run (Ok (SnapshotError NotRunningOrNoFrame, 503)) (final (stop_camera v w)) [] /\
  latest_frame (final (stop_camera v w)) = latest_frame w.
Proof.
  split; [| split].
  - unfold camera_snapshot, read_latest_frame.
    destruct w as [ha fa cam running fr orc clk]. run_py.
    destruct fr as [fr|]; [| eexists; repeat split; intros; (tauto || discriminate)].
    destruct running; cbn [negb];
      [| eexists; repeat split; intros; (tauto || discriminate)].
    destruct (imencode fr) as [[[|] jpeg]|e] eqn:E; run_py;
      eexists; (split; [reflexivity|]); cbn [fst snd];
      (split; [split; [discriminate | intros [H|H]; discriminate H]|]);
      intros j H; try discriminate H; injection H as <-;
      (split; [reflexivity | eexists; split; [reflexivity | exact E]]).
  - destruct v; unfold camera_snapshot, read_latest_frame; execute w; reflexivity.
  - destruct v; execute w; reflexivity.
Qed.

Lemma snapshot_after_stop_witness :
  outcome (camera_snapshot identity_encoder orphaned) = Ok (Image [Byte.x2a], 200).
Proof.
  destruct (snapshot_after_stop identity_encoder PC orphaned) as ((r & E & _ & H) & _).
  rewrite E. cbn [outcome]. vm_compute in E. injection E as <-. reflexivity.
Defined.

(** [stop_camera] twice, both servers: after a stop that answered 200 a
    second stop makes no call at all, answers 200 again and leaves every
    global as the first stop left it; after a stop that answered 500 (the
    release raised) the handle is still there and the second stop
    releases it again. *)
Theorem stop_camera_twice (v : variant) (w : world) :
  (http_code (flask (stop_camera v w)) = 200 ->
     stop_camera v (final (stop_camera v w))
       = Run (Ok (StatusMessage "success" CameraStopped, 200))
             (final (stop_camera v w)) []) /\
  (http_code (flask (stop_camera v w)) = 500 ->
     exists t, trace (stop_camera v (final (stop_camera v w))) = EvRelease :: t) /\
  List.filter (on_device Hand) (trace (stop_camera v w)) = [] /\
  List.filter (on_device Face) (trace (stop_camera v w)) = [] /\
  hand_arduino (final (stop_camera v w)) = hand_arduino w /\
  face_arduino (final (stop_camera v w)) = face_arduino w.
Proof.
  destruct v; execute w; repeat split; intros H; try discriminate H;
    try reflexivity; repeat step; try reflexivity; eexists; reflexivity.
Qed.

Lemma stop_camera_twice_witness :
  stop_camera PC (final (stop_camera PC filming))
    = Run (Ok (StatusMessage "success" CameraStopped, 200))
          (final (stop_camera PC filming)) [].
Proof.
  destruct (stop_camera_twice PC filming) as (H & _).
  apply H. reflexivity.
Defined.

(** ** After a failed write *)

Lemma failed_write (v : variant) (d : device) (line : string) (w : world) (e : exn) :
  link_open (link d w) = true -> write_throws w e ->
  exists w',
    final (send_to_arduino v d line w) = w' /\
    link d w' = match v with RaspberryPi => link d w | PC => None end /\
    oracle w' = oracle w.
Proof.
  intros Hopen Hthrow. revert Hopen.
  assert (Hw : forall b, oracle w (clock w) = Returns b ->
                         oracle w (S (clock w)) = Raises e).
  { intros b Hb. destruct Hthrow as [H | (b' & _ & H)]; congruence. }
  assert (Hw' : forall e', oracle w (clock w) = Raises e' -> e' = e).
  { intros e' He. destruct Hthrow as [H | (b' & H & _)]; congruence. }
  clear Hthrow. revert Hw Hw'.
  destruct v, d; execute w; intros Hw Hw' Hopen; try discriminate Hopen;
    try (eexists; repeat split; reflexivity);
    specialize (Hw _ eq_refl); discriminate Hw.
Qed.

(** The command after a failed write.  When the write of a send has
    raised on an open link, the next send of the PC server starts with a
    connection attempt (one [serial.Serial] call) before it writes
    anything; the next send of the Pi server makes no connection attempt:
    it writes straight to the handle on which the write failed. *)
Theorem next_send_after_failure
    (v : variant) (d : device) (first next : string) (w : world) (e : exn) :
  link_open (link d w) = true ->
  write_throws w e ->
  match v with
  | PC =>
      connects d (trace (send_to_arduino v d next (final (send_to_arduino v d first w))))
        = 1%nat /\
      exists t,
        trace (send_to_arduino v d next (final (send_to_arduino v d first w)))
          = EvSend d next :: EvOpen d :: t
  | RaspberryPi =>
      connects d (trace (send_to_arduino v d next (final (send_to_arduino v d first w))))
        = 0%nat /\
      exists t,
        trace (send_to_arduino v d next (final (send_to_arduino v d first w)))
          = EvSend d next :: EvWrite d (terminated next) :: t
  end.
Proof.
  intros Hopen Hthrow.
  destruct (failed_write v d first w e Hopen Hthrow) as (w' & -> & Hl & _).
  revert Hl Hopen. generalize (link d w). intros l Hl Hopen. clear Hthrow w.
  destruct v, d; execute w'; cbn [connects]; revert Hl Hopen; intros Hl Hopen;
    try (subst; discriminate Hopen); try discriminate Hl;
    (split; [reflexivity | eexists; reflexivity]).
Qed.

Lemma next_send_after_failure_witness :
  connects Hand (trace (send_to_arduino PC Hand "0,0,0,0,0,0,0"
                          (final (send_to_arduino PC Hand "30,0,0,0,180,180,0" pulled))))
    = 1%nat.
Proof.
  destruct (next_send_after_failure PC Hand "30,0,0,0,180,180,0" "0,0,0,0,0,0,0"
              pulled SerialException) as (H & _).
  - reflexivity.
  - left. reflexivity.
  - exact H.
Defined.

(** ** Command lines *)

Lemma str_injective z1 z2 : str z1 = str z2 -> z1 = z2.
Proof.
  intros H. pose proof (int_str z1) as H1. rewrite H, int_str in H1. congruence.
Qed.

Lemma separator_injective (c : ascii) s1 s2 r1 r2 :
  all_chars (other_than c) s1 = true -> all_chars (other_than c) s2 = true ->
  s1 +:+ (String c "" +:+ r1) = s2 +:+ (String c "" +:+ r2) ->
  s1 = s2 /\ r1 = r2.
Proof.
  change (String c "" +:+ r1) with (String c r1).
  change (String c "" +:+ r2) with (String c r2).
  revert s2. induction s1 as [|x s1 IH]; intros [|y s2] H1 H2; rewrite ?append_cons, ?append_nil_l.
  - intros [= ->]. split; reflexivity.
  - intros [= <- _]. cbn in H2. apply andb_prop in H2 as [H2 _].
    unfold other_than in H2. rewrite Ascii.eqb_refl in H2. discriminate.
  - intros [= -> _]. cbn in H1. apply andb_prop in H1 as [H1 _].
    unfold other_than in H1. rewrite Ascii.eqb_refl in H1. discriminate.
  - intros [= -> H]. cbn in H1, H2.
    apply andb_prop in H1 as [_ H1]. apply andb_prop in H2 as [_ H2].
    destruct (IH s2 H1 H2 H) as [-> ->]. split; reflexivity.
Qed.

Lemma numeric_other_than c x :
  numeric c = false -> numeric x = true -> other_than c x = true.
Proof.
  intros Hc Hx. unfold other_than. destruct (Ascii.eqb x c) eqn:E; [|reflexivity].
  apply Ascii.eqb_eq in E. congruence.
Qed.

Lemma str_other_than c z : numeric c = false -> all_chars (other_than c) (str z) = true.
Proof.
  intros Hc. apply (all_chars_impl numeric); [|apply str_numeric].
  intros x. apply numeric_other_than, Hc.
Qed.

Lemma field_injective (c : ascii) z1 z2 r1 r2 :
  numeric c = false ->
  str z1 +:+ (String c "" +:+ r1) = str z2 +:+ (String c "" +:+ r2) ->
  z1 = z2 /\ r1 = r2.
Proof.
  intros Hc H.
  destruct (separator_injective c _ _ _ _ (str_other_than c z1 Hc) (str_other_than c z2 Hc) H)
    as [Hs Hr].
  split; [apply str_injective, Hs | exact Hr].
Qed.

Lemma append_newline_injective s1 s2 : s1 +:+ newline = s2 +:+ newline -> s1 = s2.
Proof.
  revert s2. induction s1 as [|x s1 IH]; intros [|y s2];
    rewrite ?append_cons, ?append_nil_l; unfold newline.
  - reflexivity.
  - intros [= _ H]. destruct s2; discriminate H.
  - intros [= _ H]. destruct s1; discriminate H.
  - intros [= -> H]. f_equal. apply IH, H.
Qed.

(** The texts sent to the devices can be read back.  The line of a hand
    pose determines the pose: two poses with the same command text are
    the same pose, channel by channel; likewise the line of an eye
    movement determines pan and tilt.  Hence the pose echoed in a reply
    is the only pose whose line is the one written. *)
Theorem command_lines_are_unambiguous (a b : angles) (pan tilt pan' tilt' : Z) :
  (hand_command a = hand_command b -> a = b) /\
  (hand_line a = hand_line b -> a = b) /\
  (look_line pan tilt = look_line pan' tilt' -> pan = pan' /\ tilt = tilt').
Proof.
  assert (Hh : hand_command a = hand_command b -> a = b).
  { unfold hand_command.
    destruct a as [a0 a1 a2 a3 a4 a5 a6], b as [b0 b1 b2 b3 b4 b5 b6];
      cbn [wrist f1 f2 f3 f4 f5 f6].
    intros H.
    apply (field_injective ","%char) in H as [-> H]; [|reflexivity].
    apply (field_injective ","%char) in H as [-> H]; [|reflexivity].
    apply (field_injective ","%char) in H as [-> H]; [|reflexivity].
    apply (field_injective ","%char) in H as [-> H]; [|reflexivity].
    apply (field_injective ","%char) in H as [-> H]; [|reflexivity].
    apply (field_injective ","%char) in H as [-> H]; [|reflexivity].
    apply str_injective in H as ->. reflexivity. }
  split; [exact Hh|]. split.
  - unfold hand_line. intros H. apply Hh, append_newline_injective, H.
  - unfold look_line.
    change ("E" +:+ str pan +:+ " T" +:+ str tilt +:+ newline)
      with (String "E" (str pan +:+ (String " " "" +:+
              String "T" (str tilt +:+ (String "010" "" +:+ ""))))).
    change ("E" +:+ str pan' +:+ " T" +:+ str tilt' +:+ newline)
      with (String "E" (str pan' +:+ (String " " "" +:+
              String "T" (str tilt' +:+ (String "010" "" +:+ ""))))).
    intros [= H].
    apply (field_injective " "%char) in H as [-> H]; [|reflexivity].
    injection H as H.
    apply (field_injective "010"%char) in H as [-> _]; [|reflexivity].
    split; reflexivity.
Qed.

Lemma command_lines_are_unambiguous_witness :
  hand_command (Angles 30 0 0 0 180 180 0) = hand_command (Angles 30 0 0 0 180 180 0) /\
  Angles 30 0 0 0 180 180 0 = Angles 30 0 0 0 180 180 0.
Proof.
  destruct (command_lines_are_unambiguous (Angles 30 0 0 0 180 180 0)
              (Angles 30 0 0 0 180 180 0) 90 80 90 80) as (H & _).
  split; [reflexivity | exact (H eq_refl)].
Defined.

(** ** The first command after a reconnect *)

Lemma handler_success (v : variant) (ep : endpoint) (req : body) (w : world) :
  exists resp w' t,
    handler v ep req w = Run (Ok resp) w' t /\
    (reply_status resp = Some "success" ->
     http_code resp = 200 /\
     (exists command, sends (target ep) t = [command]) /\
     writes (target ep) t = lines_of_request (target ep) (sends (target ep) t) w /\
     In (EvFlush (target ep)) t /\
     link_open (link (target ep) w') = true).
Proof.
  destruct v, ep;
    cbv beta iota delta [handler target lines_of_request];
    execute w;
    change ("0,0,0,0,180,180,0" +:+ newline) with (test_command Hand);
    change ("E90 M0" +:+ newline) with (test_command Face);
    eexists _, _, _; (split; [reflexivity|]);
    intros H; first [ discriminate H | idtac ];
    cbn [sends writes List.map app In];
    (split; [reflexivity|]); (split; [eexists; reflexivity|]);
    (split; [reflexivity|]); (split; [tauto | reflexivity]).
Qed.

(** POST /hand, /face and /face_expression, both servers.  A request
    answered with status "success" has handed exactly one command to the
    send function of its device, and the lines on the device are: the
    test line of the connection attempt when the link was not open before
    the request (for the hand this is the neutral pose 0,0,0,0,180,180,0:
    a reconnected hand goes there first), then the command with its
    terminator. *)
Theorem success_after_reconnect
    (v : variant) (ep : endpoint) (req : body) (w : world) (resp : response) :
  outcome (handler v ep req w) = Ok resp ->
  reply_status resp = Some "success" ->
  http_code resp = 200 /\
  (exists command, sends (target ep) (trace (handler v ep req w)) = [command]) /\
  writes (target ep) (trace (handler v ep req w))
    = lines_of_request (target ep) (sends (target ep) (trace (handler v ep req w))) w /\
  In (EvFlush (target ep)) (trace (handler v ep req w)) /\
  link_open (link (target ep) (final (handler v ep req w))) = true.
Proof.
  intros Ho Hs.
  destruct (handler_success v ep req w) as (resp' & w' & t & E & H).
  rewrite E in Ho |- *. cbn [outcome trace final] in *.
  injection Ho as ->. exact (H Hs).
Qed.

Lemma success_after_reconnect_witness :
  writes Hand (trace (handler RaspberryPi PostHand (BodyObject wrist_30) replugged))
    = [test_command Hand; terminated "30,0,0,0,0,0,0"].
Proof.
  destruct (success_after_reconnect RaspberryPi PostHand (BodyObject wrist_30) replugged
              (HandReply "success" CommandSent (Angles 30 0 0 0 0 0 0), 200))
    as (_ & _ & H & _).
  - vm_compute. reflexivity.
  - reflexivity.
  - etransitivity; [exact H | vm_compute; reflexivity].
Defined.

(** ** Echoed poses *)

Lemma clamp_in_range lo hi z : lo <= z <= hi -> clamp lo hi z = z.
Proof. unfold clamp. lia. Qed.

Lemma hand_angles_pose v a : in_range a -> hand_angles v (pose_request a) = Ok a.
Proof.
  destruct a as [a0 a1 a2 a3 a4 a5 a6]. unfold in_range; cbn [wrist f1 f2 f3 f4 f5 f6].
  intros (H0 & H1 & H2 & H3 & H4 & H5 & H6).
  assert (L0 : pose_request (Angles a0 a1 a2 a3 a4 a5 a6) !! "wrist" = Some (VInt a0))
    by reflexivity.
  assert (L1 : pose_request (Angles a0 a1 a2 a3 a4 a5 a6) !! "f1" = Some (VInt a1))
    by reflexivity.
  assert (L2 : pose_request (Angles a0 a1 a2 a3 a4 a5 a6) !! "f2" = Some (VInt a2))
    by reflexivity.
  assert (L3 : pose_request (Angles a0 a1 a2 a3 a4 a5 a6) !! "f3" = Some (VInt a3))
    by reflexivity.
  assert (L4 : pose_request (Angles a0 a1 a2 a3 a4 a5 a6) !! "f4" = Some (VInt a4))
    by reflexivity.
  assert (L5 : pose_request (Angles a0 a1 a2 a3 a4 a5 a6) !! "f5" = Some (VInt a5))
    by reflexivity.
  assert (L6 : pose_request (Angles a0 a1 a2 a3 a4 a5 a6) !! "f6" = Some (VInt a6))
    by reflexivity.
  destruct v; unfold hand_angles, Pi.hand_angles, Volt.hand_angles, dict_get;
    rewrite L0, L1, L2, L3, L4, L5, L6; cbn [int];
    rewrite !clamp_in_range by assumption; reflexivity.
Qed.

(** The pose echoed by POST /hand is a fixed point of the translation:
    sent back channel by channel, to either server, it is translated to
    itself, so it is answered with the same angles and puts the same line
    on the hand link.  (Clamping a clamped pose changes nothing, and with
    every channel present the different defaults of the two servers play
    no part.) *)
Theorem echoed_pose_is_stable (v v' : variant) (d : dict) (a : angles) (w : world) :
  hand_angles v d = Ok a ->
  in_range a /\
  hand_angles v' (pose_request a) = Ok a /\
  (forall resp,
     outcome (set_hand v' (BodyObject (pose_request a)) w) = Ok resp ->
     http_code resp = 200 -> reply_angles resp = Some a) /\
  (forall command,
     In command (sends Hand (trace (set_hand v' (BodyObject (pose_request a)) w))) ->
     command = hand_command a).
Proof.
  intros Hd. pose proof (hand_angles_in_range v d a Hd) as Hr.
  pose proof (hand_angles_pose v' a Hr) as Hp.
  split; [exact Hr|]. split; [exact Hp|].
  assert (Ht : dict_truthy (pose_request a) = true) by apply dict_truthy_insert.
  clear Hd Hr. revert Hp Ht. generalize (pose_request a). intros d' Hp Ht.
  assert (Hrun : exists resp0 w' t,
             set_hand v' (BodyObject d') w = Run (Ok resp0) w' t /\
             (http_code resp0 = 200 -> reply_angles resp0 = Some a) /\
             (forall command, In command (sends Hand t) -> command = hand_command a)).
  { destruct v'; cbn [hand_angles] in Hp; unfold_handlers;
      destruct w as [ha fa cam running fr orc clk]; run_py;
      rewrite ?Ht, ?Hp; run_py; repeat step; rewrite ?Ht, ?Hp; run_py; repeat step;
      eexists _, _, _; (split; [reflexivity|]); cbn [sends In];
      (split; [intros H; first [discriminate H | reflexivity]
              | intros command H; intuition congruence]). }
  destruct Hrun as (resp0 & w' & t & -> & H200 & Hs). cbn [outcome trace].
  split; [intros resp [= <-]; exact H200 | exact Hs].
Qed.

Lemma echoed_pose_is_stable_witness :
  hand_angles RaspberryPi (pose_request (Angles 30 0 0 0 180 180 0))
    = Ok (Angles 30 0 0 0 180 180 0).
Proof.
  destruct (echoed_pose_is_stable PC RaspberryPi wrist_30 (Angles 30 0 0 0 180 180 0) plugged)
    as (_ & H & _).
  - vm_compute. reflexivity.
  - exact H.
Defined.

(** ** The eye angles follow the face *)

Lemma chain_step (le : Z -> Z -> bool) (f : Z -> Z) lo n :
  chain le (List.map f (upto lo (S n))) = true ->
  forall i, lo <= i < lo + Z.of_nat n -> le (f i) (f (i + 1)) = true.
Proof.
  revert lo. induction n as [|n IH]; intros lo H i Hi; [lia|].
  cbn [upto List.map chain] in H. apply andb_prop in H as [H0 H].
  destruct (Z.eq_dec i lo) as [->|Hne]; [exact H0|].
  apply (IH (lo + 1)); [exact H | lia].
Qed.

Lemma steps_down (f : Z -> Z) lo hi :
  (forall i, lo <= i < hi -> f (i + 1) <= f i) ->
  forall i j, lo <= i -> i <= j -> j <= hi -> f j <= f i.
Proof.
  intros Hs i j Hi Hij Hj.
  replace j with (i + Z.of_nat (Z.to_nat (j - i))) in * by lia.
  generalize dependent (Z.to_nat (j - i)). intros n. induction n as [|n IH]; intros.
  - replace (i + Z.of_nat 0) with i by lia. lia.
  - replace (i + Z.of_nat (S n)) with (i + Z.of_nat n + 1) in * by lia.
    specialize (Hs (i + Z.of_nat n) ltac:(lia)). specialize (IH ltac:(lia) ltac:(lia)). lia.
Qed.

Lemma steps_up (f : Z -> Z) lo hi :
  (forall i, lo <= i < hi -> f i <= f (i + 1)) ->
  forall i j, lo <= i -> i <= j -> j <= hi -> f i <= f j.
Proof.
  intros Hs i j Hi Hij Hj.
  replace j with (i + Z.of_nat (Z.to_nat (j - i))) in * by lia.
  generalize dependent (Z.to_nat (j - i)). intros n. induction n as [|n IH]; intros.
  - replace (i + Z.of_nat 0) with i by lia. lia.
  - replace (i + Z.of_nat (S n)) with (i + Z.of_nat n + 1) in * by lia.
    specialize (Hs (i + Z.of_nat n) ltac:(lia)). specialize (IH ltac:(lia) ltac:(lia)). lia.
Qed.

Lemma pan_value_frame i j : 0 <= i -> i <= j -> j <= 640 -> pan_value j <= pan_value i.
Proof.
  apply (steps_down pan_value 0 640). intros k Hk.
  apply Z.geb_le.
  apply (chain_step Z.geb pan_value 0 640); [vm_compute; reflexivity | lia].
Qed.

Lemma tilt_value_frame i j : 0 <= i -> i <= j -> j <= 480 -> tilt_value i <= tilt_value j.
Proof.
  apply (steps_up tilt_value 0 480). intros k Hk.
  apply Z.leb_le.
  apply (chain_step Z.leb tilt_value 0 480); [vm_compute; reflexivity | lia].
Qed.

(** [face_to_servo] at frame size 640x480 is monotone (for coordinates of
    magnitude below 2^1000): a face further to the right never gets a
    larger pan angle (the axis is mirrored), a face further down never
    gets a smaller tilt angle; left of the frame the pan stays at 110 and
    right of it at 70, above the frame the tilt stays at 60 and below it
    at 100. *)
Theorem face_to_servo_monotone (x x' y y' : Z) :
  Z.abs x < 2 ^ 1000 -> Z.abs x' < 2 ^ 1000 ->
  Z.abs y < 2 ^ 1000 -> Z.abs y' < 2 ^ 1000 ->
  x <= x' -> y <= y' ->
  exists pan tilt pan' tilt',
    Volt.face_to_servo x y 640 480 = Ok (pan, tilt) /\
    Volt.face_to_servo x' y' 640 480 = Ok (pan', tilt') /\
    pan' <= pan /\ tilt <= tilt' /\
    (x <= 0 -> pan = 110) /\ (640 <= x -> pan = 70) /\
    (y <= 0 -> tilt = 60) /\ (480 <= y -> tilt = 100).
Proof.
  intros Hx Hx' Hy Hy' Hxx Hyy.
  destruct (pan_angle_cases x Hx) as (p & Ep & Pneg & Ppos & Pin).
  destruct (pan_angle_cases x' Hx') as (p' & Ep' & Pneg' & Ppos' & Pin').
  destruct (tilt_angle_cases y Hy) as (t & Et & Tneg & Tpos & Tin).
  destruct (tilt_angle_cases y' Hy') as (t' & Et' & Tneg' & Tpos' & Tin').
  clear Hx Hx' Hy Hy'.
  exists p, t, p', t'.
  split; [apply face_to_servo_axes; assumption|].
  split; [apply face_to_servo_axes; assumption|].
  assert (Hp : forall i j, 0 <= i -> i <= j -> j <= 640 ->
                 pan_angle i 640 = Ok p -> pan_angle j 640 = Ok p' -> p' <= p).
  { intros i j H0 Hij H640 Ei Ej. pose proof (pan_value_frame i j H0 Hij H640) as H.
    unfold pan_value in H. rewrite Ei, Ej in H. exact H. }
  assert (Ht : forall i j, 0 <= i -> i <= j -> j <= 480 ->
                 tilt_angle i 480 = Ok t -> tilt_angle j 480 = Ok t' -> t <= t').
  { intros i j H0 Hij H480 Ei Ej. pose proof (tilt_value_frame i j H0 Hij H480) as H.
    unfold tilt_value in H. rewrite Ei, Ej in H. exact H. }
  assert (P0 : pan_angle 0 640 = Ok 110) by (vm_compute; reflexivity).
  assert (P640 : pan_angle 640 640 = Ok 70) by (vm_compute; reflexivity).
  assert (T0 : tilt_angle 0 480 = Ok 60) by (vm_compute; reflexivity).
  assert (T480 : tilt_angle 480 480 = Ok 100) by (vm_compute; reflexivity).
  split; [| split; [| split; [| split; [| split]]]].
  - destruct (Z_lt_le_dec x 0) as [Hn|Hn]; [rewrite (Pneg Hn) |].
    + destruct (Z_lt_le_dec x' 0) as [Hn'|Hn']; [rewrite (Pneg' Hn'); lia|].
      destruct (Z_lt_le_dec 640 x') as [Hg'|Hg']; [rewrite (Ppos' Hg'); lia|].
      destruct (Pin' ltac:(lia)) as [_ ?]. lia.
    + destruct (Z_lt_le_dec 640 x') as [Hg'|Hg']; [rewrite (Ppos' Hg') |].
      * destruct (Z_lt_le_dec 640 x) as [Hg|Hg]; [rewrite (Ppos Hg); lia|].
        destruct (Pin ltac:(lia)) as [_ ?]. lia.
      * apply (Hp x x'); (lia || assumption).
  - destruct (Z_lt_le_dec y 0) as [Hn|Hn]; [rewrite (Tneg Hn) |].
    + destruct (Z_lt_le_dec y' 0) as [Hn'|Hn']; [rewrite (Tneg' Hn'); lia|].
      destruct (Z_lt_le_dec 480 y') as [Hg'|Hg']; [rewrite (Tpos' Hg'); lia|].
      destruct (Tin' ltac:(lia)) as [_ ?]. lia.
    + destruct (Z_lt_le_dec 480 y') as [Hg'|Hg']; [rewrite (Tpos' Hg') |].
      * destruct (Z_lt_le_dec 480 y) as [Hg|Hg]; [rewrite (Tpos Hg); lia|].
        destruct (Tin ltac:(lia)) as [_ ?]. lia.
      * apply (Ht y y'); (lia || assumption).
  - intros H. destruct (Z.eq_dec x 0) as [->|Hne]; [congruence | apply Pneg; lia].
  - intros H. destruct (Z.eq_dec x 640) as [->|Hne]; [congruence | apply Ppos; lia].
  - intros H. destruct (Z.eq_dec y 0) as [->|Hne]; [congruence | apply Tneg; lia].
  - intros H. destruct (Z.eq_dec y 480) as [->|Hne]; [congruence | apply Tpos; lia].
Qed.

Lemma face_to_servo_monotone_witness :
  exists pan tilt pan' tilt',
    Volt.face_to_servo 100 100 640 480 = Ok (pan, tilt) /\
    Volt.face_to_servo 500 400 640 480 = Ok (pan', tilt') /\
    pan' <= pan /\ tilt <= tilt'.
Proof.
  destruct (face_to_servo_monotone 100 500 100 400)
    as (p & t & p' & t' & E & E' & Hp & Ht & _); try reflexivity; try lia.
  exists p, t, p', t'. repeat split; assumption.
Defined.

(** ** Addresses *)











